(** * jcc.palettes: palette lookup tables, quantization and colour entropy

    A shallow embedding of [src/jcc/palettes/_base.py] and
    [src/jcc/palettes/__init__.py].

    - Python [float] / [np.float64] values are IEEE-754 binary64 numbers,
      [np.float32] values are binary32 numbers; both are carried by
      [spec_float] with the operations of [SpecFloat] at the matching
      precision.
    - numpy arrays are flat row-major buffers ([list]) with a shape.
    - the file system and the per-object memo of [functools.cached_property]
      are explicit state, threaded by a small state-and-exception monad. *)

From Stdlib Require Import ZArith Lia List Bool Ascii String.
From Stdlib Require Import Floats.SpecFloat Sorting.Sorted.
From stdpp Require Import base list gmap strings.

Open Scope Z_scope.

(* ===================================================================== *)
(** * IEEE-754 values as used by numpy and numba *)
(* ===================================================================== *)

Module F.

(** [np.float64] *)
Definition prec64 : Z := 53.
Definition emax64 : Z := 1024.
(** [np.float32] *)
Definition prec32 : Z := 24.
Definition emax32 : Z := 128.

Definition zero : spec_float := S754_zero false.
Definition one : spec_float := S754_finite false 4503599627370496 (-52).

Definition add := SFadd prec64 emax64.
Definition sub := SFsub prec64 emax64.
Definition mul := SFmul prec64 emax64.
Definition div := SFdiv prec64 emax64.
Definition neg := SFopp.
Definition ltb := SFltb.
Definition leb := SFleb.

Definition isnan (x : spec_float) : bool :=
  match x with S754_nan => true | _ => false end.

(** The sign bit; a NaN of [spec_float] carries none. *)
Definition signbit (x : spec_float) : bool :=
  match x with
  | S754_zero s | S754_infinity s | S754_finite s _ _ => s
  | S754_nan => false
  end.

(** Conversion of a Python / numpy integer to binary64. *)
Definition of_Z (z : Z) : spec_float := binary_normalize prec64 emax64 z 0 false.

(** Storing a binary64 value into a [np.float32] slot: round to nearest
    even in binary32, overflow to infinity. *)
Definition to_float32 (x : spec_float) : spec_float :=
  match x with
  | S754_finite s m e => binary_round prec32 emax32 s m e
  | _ => x
  end.

End F.

(** Comparison of two finite values of equal sign, as [SFcompare] does it:
    lexicographic on exponent, then mantissa. *)
Definition mag_lt (m1 : positive) (e1 : Z) (m2 : positive) (e2 : Z) : Prop :=
  e1 < e2 \/ (e1 = e2 /\ (m1 < m2)%positive).


(* ===================================================================== *)
(** * Python exceptions *)
(* ===================================================================== *)

Inductive exn : Type :=
  | FileNotFoundError (msg : string)
  | NotImplementedError (msg : string)
  | ValueError (msg : string)
  | IndexError (msg : string)
  | AttributeError (msg : string).

Inductive result (A : Type) : Type :=
  | Ok (a : A)
  | Raise (e : exn).
Arguments Ok {A} a.
Arguments Raise {A} e.

(* ===================================================================== *)
(** * The numpy operations the package relies on *)
(* ===================================================================== *)

Module np.

(** [np.arange(n, dtype=np.uint8)], for [n <= 256]. *)
Definition arange (n : nat) : list Z := map Z.of_nat (seq 0 n).

(** [a.repeat(k)]: every element [k] times in a row. *)
Definition repeat {A} (a : list A) (k : nat) : list A := flat_map (replicate k) a.

(** A two-dimensional strided view on a flat buffer: element [(i, j)] is
    [base[i * stride0 + j * stride1]]. *)
Record view2 (A : Type) : Type := View2 {
  v_rows : nat;
  v_cols : nat;
  v_stride0 : nat;
  v_stride1 : nat;
  v_base : list A
}.
Arguments View2 {A}.
Arguments v_rows {A}.
Arguments v_cols {A}.
Arguments v_stride0 {A}.
Arguments v_stride1 {A}.
Arguments v_base {A}.

(** [a.reshape((-1, c))] of a contiguous one-dimensional array whose length
    is a multiple of [c]. *)
Definition reshape_m1 {A} (a : list A) (c : nat) : view2 A :=
  View2 (length a / c)%nat c c 1%nat a.

(** [v.T]: shape and strides are swapped, the buffer is shared. *)
Definition T {A} (v : view2 A) : view2 A :=
  View2 (v_cols v) (v_rows v) (v_stride1 v) (v_stride0 v) (v_base v).

(** [v.ravel()]: the elements in row-major (C) order, as a fresh array. *)
Definition ravel {A} `{Inhabited A} (v : view2 A) : list A :=
  flat_map
    (fun i => map (fun j => v_base v !!! (i * v_stride0 v + j * v_stride1 v)%nat)
                  (seq 0 (v_cols v)))
    (seq 0 (v_rows v)).

(** [np.argmin] on a one-dimensional float array: the position of the first
    occurrence of the minimum; a NaN counts as the minimum, so the position
    of the first NaN is returned when there is one.  An empty array raises. *)
Fixpoint argmin_scan (a : list spec_float) (idx : nat)
    (min_value : spec_float) (min_idx : nat) : nat :=
  match a with
  | [] => min_idx
  | v :: a' =>
      if F.isnan v then idx
      else if F.ltb v min_value then argmin_scan a' (S idx) v idx
      else argmin_scan a' (S idx) min_value min_idx
  end.

Definition argmin (a : list spec_float) : result nat :=
  match a with
  | [] => Raise (ValueError "attempt to get argmin of an empty sequence")
  | v0 :: _ => if F.isnan v0 then Ok 0%nat else Ok (argmin_scan a 0 v0 0)
  end.

(** Storing a Python integer into a [np.uint16] slot keeps the low 16 bits. *)
Definition to_uint16 (z : Z) : Z := z mod 65536.

End np.

(* ===================================================================== *)
(** * [_get_all_rgbs] *)
(* ===================================================================== *)

Definition rgb : Type := Z * Z * Z.
Definition lab : Type := spec_float * spec_float * spec_float.

(** [rgb[:, k] = column] on an array of rows. *)
Definition set_col0 (a : list rgb) (col : list Z) : list rgb :=
  zip_with (fun row x => (x, row.1.2, row.2)) a col.
Definition set_col1 (a : list rgb) (col : list Z) : list rgb :=
  zip_with (fun row x => (row.1.1, x, row.2)) a col.
Definition set_col2 (a : list rgb) (col : list Z) : list rgb :=
  zip_with (fun row x => (row.1.1, row.1.2, x)) a col.

(** The body of [_get_all_rgbs] with the number of levels per channel, 256
    in the source, as the argument [n]: the enumeration can then be executed
    for a small number of levels. *)
Definition all_rgbs_of (n : nat) : list rgb :=
  let rgb0 := replicate (n ^ 3) (0, 0, 0) in
  let arr := np.repeat (np.arange n) (n ^ 2) in
  let rgb1 := set_col0 rgb0 arr in
  let rgb2 := set_col1 rgb1 (np.ravel (np.T (np.reshape_m1 arr n))) in
  let rgb3 := set_col2 rgb2 (np.ravel (np.T (np.reshape_m1 arr (n ^ 2)))) in
  rgb3.

Definition _get_all_rgbs : list rgb := all_rgbs_of 256.


(* ===================================================================== *)
(** * The numeric routines imported from [jcc.convert] and [jcc.diff] *)
(* ===================================================================== *)

(** [from jcc.convert import rgb_to_lab] and
    [from jcc.diff import delta_e_cie2000]: the two modules are not part of
    this package; their scalar routines are taken as an interface. *)
Class JccNumerics : Type := {
  rgb_to_lab_ : Z -> Z -> Z -> lab;
  delta_e_cie2000 :
    spec_float -> spec_float -> spec_float ->
    spec_float -> spec_float -> spec_float -> spec_float
}.

#[global] Instance spec_float_inhabited : Inhabited spec_float := populate F.zero.

(** [for i in prange(...)]: the iterations run in some order [order]; an
    exception raised by an iteration ends the loop. *)
Fixpoint prange_for {S : Type} (order : list nat)
    (body : nat -> S -> result S) (s : S) : result S :=
  match order with
  | [] => Ok s
  | i :: rest =>
      match body i s with
      | Ok s' => prange_for rest body s'
      | Raise e => Raise e
      end
  end.

(** The order in which the iterations of the two [prange] loops of
    [_create_lookup_table] are executed: one for the loop over the colour
    cube, one per outer iteration for the loop over the palette. *)
Record schedule : Type := Schedule {
  outer : list nat;
  inner : nat -> list nat
}.

(** A schedule executes every iteration of either loop exactly once. *)
Definition valid_schedule (arr_lab_N : nat) (s : schedule) : Prop :=
  outer s ≡ₚ seq 0 (256 ^ 3) /\ forall i, inner s i ≡ₚ seq 0 arr_lab_N.

(** The schedule of a plain [range] loop. *)
Definition sequential (arr_lab_N : nat) : schedule :=
  Schedule (seq 0 (256 ^ 3)) (fun _ => seq 0 arr_lab_N).

(** The chunks in reverse order, as when the last worker finishes first. *)
Definition reversed (arr_lab_N : nat) : schedule :=
  Schedule (rev (seq 0 (256 ^ 3))) (fun _ => rev (seq 0 arr_lab_N)).

Section LookupTable.

Context `{JccNumerics}.

(** Modelled from the spec: [jcc.convert.rgb_to_lab] on an array of
    triplets, which is missing from the sources; by section 4.1 every
    conversion acts on each triplet and keeps the leading shape. *)
Definition rgb_to_lab (a : list rgb) : list lab :=
  (fun c : rgb => rgb_to_lab_ c.1.1 c.1.2 c.2) <$> a.

(** [delta_e_cie2000(lab1[0], lab1[1], lab1[2],
                     arr_lab[j][0], arr_lab[j][1], arr_lab[j][2])] *)
Definition delta_e (lab1 lab2 : lab) : spec_float :=
  delta_e_cie2000 lab1.1.1 lab1.1.2 lab1.2 lab2.1.1 lab2.1.2 lab2.2.

(** One iteration of the outer loop of [_create_lookup_table]. *)
Definition lookup_table_body (s : schedule) (arr_lab all_lab : list lab)
    (i : nat) (out : list Z) : result (list Z) :=
  let arr_lab_N := length arr_lab in
  let lab1 := all_lab !!! i in
  let deltaes :=
    foldl (fun deltaes j =>
             <[j := F.to_float32 (delta_e lab1 (arr_lab !!! j))]> deltaes)
          (replicate arr_lab_N F.zero) (inner s i) in
  match np.argmin deltaes with
  | Ok m => Ok (<[i := np.to_uint16 (Z.of_nat m)]> out)
  | Raise e => Raise e
  end.

(** [_create_lookup_table] under a given schedule of its parallel loops. *)
Definition _create_lookup_table_with (s : schedule)
    (arr_lab all_lab : list lab) : result (list Z) :=
  prange_for (outer s) (lookup_table_body s arr_lab all_lab)
             (replicate (256 ^ 3) 0).

Definition _create_lookup_table (arr_lab all_lab : list lab) : result (list Z) :=
  _create_lookup_table_with (sequential (length arr_lab)) arr_lab all_lab.

(** [__create_lab_array] *)
Definition __create_lab_array : list lab := rgb_to_lab _get_all_rgbs.

(** The content of [deltaes] when the inner loop is over: the distance of
    [lab1] to every palette colour, in single precision. *)
Definition deltaes_of (arr_lab : list lab) (lab1 : lab) : list spec_float :=
  (fun c => F.to_float32 (delta_e lab1 c)) <$> arr_lab.

(** The value stored in a slot of the table for the query colour [lab1]. *)
Definition table_entry (arr_lab : list lab) (lab1 : lab) : Z :=
  match np.argmin (deltaes_of arr_lab lab1) with
  | Ok m => np.to_uint16 (Z.of_nat m)
  | Raise _ => 0
  end.

End LookupTable.

(** [j] is a position of a minimum of [a]: no element is smaller. *)
Definition is_argmin (a : list spec_float) (j : nat) : Prop :=
  (j < length a)%nat /\
  forall k v, a !! k = Some v -> F.ltb v (a !!! j) = false.

(** [j] is the first position of the minimum of [a]. *)
Definition is_first_argmin (a : list spec_float) (j : nat) : Prop :=
  is_argmin a j /\
  forall k v, (k < j)%nat -> a !! k = Some v -> F.ltb (a !!! j) v = true.

Definition no_nan (a : list spec_float) : Prop :=
  forall k v, a !! k = Some v -> F.isnan v = false.

(* ===================================================================== *)
(** * Python strings, [int], [str.format] and [pathlib.Path] *)
(* ===================================================================== *)

Module Py.

Definition chars (s : string) : list ascii := list_ascii_of_string s.
Definition str (l : list ascii) : string := string_of_list_ascii l.

(** [c.isspace()] for the ASCII range. *)
Definition is_space (c : ascii) : bool :=
  let n := nat_of_ascii c in
  ((9 <=? n) && (n <=? 13) || (n =? 32) || (28 <=? n) && (n <=? 31))%nat.

Fixpoint lstrip_chars (l : list ascii) : list ascii :=
  match l with
  | c :: l' => if is_space c then lstrip_chars l' else l
  | [] => []
  end.

(** [s.strip()] *)
Definition strip (s : string) : string :=
  str (rev (lstrip_chars (rev (lstrip_chars (chars s))))).

Fixpoint split_chars (sep : ascii) (l cur : list ascii) : list (list ascii) :=
  match l with
  | [] => [rev cur]
  | c :: l' =>
      if Ascii.eqb c sep then rev cur :: split_chars sep l' []
      else split_chars sep l' (c :: cur)
  end.

(** [s.split(sep)] for a separator of one character. *)
Definition split (sep : ascii) (s : string) : list string :=
  str <$> split_chars sep (chars s) [].

(** [sep.join(parts)] *)
Definition join (sep : string) (parts : list string) : string :=
  String.concat sep parts.

(** [parts[-3:]] *)
Definition last3 {A} (parts : list A) : list A := drop (length parts - 3) parts.

Definition digit_val (c : ascii) : option Z :=
  let n := nat_of_ascii c in
  if ((48 <=? n) && (n <=? 57))%nat then Some (Z.of_nat (n - 48)) else None.

Fixpoint digits_val (l : list ascii) (acc : Z) : option Z :=
  match l with
  | [] => Some acc
  | c :: l' =>
      match digit_val c with
      | Some d => digits_val l' (acc * 10 + d)
      | None => None
      end
  end.

Definition unsigned_val (l : list ascii) : option Z :=
  match l with
  | [] => None
  | _ => digits_val l 0
  end.

(** [int(s)] on ASCII text: surrounding white space, an optional sign and
    decimal digits.  (Digit separators [_] and non-ASCII digits, which
    Python accepts as well, are rejected here.) *)
Definition int (s : string) : result Z :=
  let body := chars (strip s) in
  let parsed :=
    match body with
    | "-"%char :: ds => Z.opp <$> unsigned_val ds
    | "+"%char :: ds => unsigned_val ds
    | _ => unsigned_val body
    end in
  match parsed with
  | Some z => Ok z
  | None => Raise (ValueError "invalid literal for int() with base 10")
  end.

Definition hex_digit (d : Z) : ascii :=
  nth (Z.to_nat d) (chars "0123456789abcdef") "0"%char.

Fixpoint hex_chars (fuel : nat) (z : Z) (acc : list ascii) : list ascii :=
  match fuel with
  | O => acc
  | S fuel' =>
      let acc' := hex_digit (z mod 16) :: acc in
      if z / 16 =? 0 then acc' else hex_chars fuel' (z / 16) acc'
  end.

(** [format(z, "x")] for [0 <= z] *)
Definition hex (z : Z) : list ascii := hex_chars (S (Z.to_nat (Z.log2 z))) z [].

(** ["{:02x}".format(z)]: lower-case hexadecimal, zero-padded to width 2,
    the sign counting for the width. *)
Definition format_02x (z : Z) : string :=
  if z <? 0 then str ("-"%char :: hex (- z))
  else
    let h := hex z in
    str (replicate (2 - length h) "0"%char ++ h).

(** The format string of [rgb2hex] applied to the unpacked arguments; fewer
    than three arguments raise
    [IndexError], further arguments are ignored. *)
Definition rgb2hex (args : list Z) : result string :=
  match args with
  | r :: g :: b :: _ =>
      Ok ("#" +:+ format_02x r +:+ format_02x g +:+ format_02x b)
  | _ => Raise (IndexError "Replacement index out of range for positional args tuple")
  end.





End Py.

(* ===================================================================== *)
(** * Arrays with a shape, integer indexing *)
(* ===================================================================== *)

(** An n-dimensional array: its shape and its elements in row-major order. *)
Record ndarray (A : Type) : Type := NdArray {
  shape : list nat;
  data : list A
}.
Arguments NdArray {A}.
Arguments shape {A}.
Arguments data {A}.

Definition size_of (sh : list nat) : nat := foldr Nat.mul 1%nat sh.

Definition wf_array {A} (a : ndarray A) : Prop :=
  length (data a) = size_of (shape a).

(** An array of triplets: any leading shape, the last axis of length 3. *)
Definition has_trailing_3 {A} (arr : ndarray A) : Prop :=
  wf_array arr /\ last (shape arr) = Some 3%nat.

(** An image: 8-bit channels, the last axis being the colour triplet. *)
Definition is_image (arr : ndarray Z) : Prop :=
  wf_array arr /\ last (shape arr) = Some 3%nat /\
  Forall (fun c => 0 <= c < 256) (data arr).

Fixpoint mapM_result {A B} (f : A -> result B) (l : list A) : result (list B) :=
  match l with
  | [] => Ok []
  | x :: l' =>
      match f x with
      | Ok y =>
          match mapM_result f l' with
          | Ok ys => Ok (y :: ys)
          | Raise e => Raise e
          end
      | Raise e => Raise e
      end
  end.

(** [a[i]] along the first axis: a negative index counts from the end, an
    index outside [-len, len) raises [IndexError]. *)
Definition np_getitem {A} `{Inhabited A} (a : list A) (i : Z) : result A :=
  let n := Z.of_nat (length a) in
  if (0 <=? i) && (i <? n) then Ok (a !!! Z.to_nat i)
  else if (- n <=? i) && (i <? 0) then Ok (a !!! Z.to_nat (i + n))
  else Raise (IndexError "index is out of bounds for axis 0").

(** [a[idx]] for a one-dimensional [a] and an integer array [idx]: the
    result has the shape of [idx]. *)
Definition take1 {A} `{Inhabited A} (a : list A) (idx : ndarray Z)
    : result (ndarray A) :=
  match mapM_result (np_getitem a) (data idx) with
  | Ok xs => Ok (NdArray (shape idx) xs)
  | Raise e => Raise e
  end.

(** [a[idx]] for an array [a] of triplets (shape [(N, 3)]): the result has
    the shape of [idx] followed by 3. *)
Definition take_rows (a : list rgb) (idx : ndarray Z) : result (ndarray Z) :=
  match mapM_result (np_getitem a) (data idx) with
  | Ok rows =>
      Ok (NdArray (shape idx ++ [3%nat])
                  (flat_map (fun c : rgb => [c.1.1; c.1.2; c.2]) rows))
  | Raise e => Raise e
  end.

Fixpoint triplets (l : list Z) : list rgb :=
  match l with
  | r :: g :: b :: l' => (r, g, b) :: triplets l'
  | _ => []
  end.

(** Modelled from the spec: [jcc.convert.rgb_to_ind], which is missing from
    the sources.  By section 4.5 every pixel is mapped to its linear index
    [r * 65536 + g * 256 + b]; the leading shape of the image is kept and
    the trailing axis of length 3 is consumed. *)
Definition rgb_to_ind_ (c : rgb) : Z := c.1.1 * 65536 + c.1.2 * 256 + c.2.

Definition rgb_to_ind (arr : ndarray Z) : ndarray Z :=
  NdArray (removelast (shape arr)) (rgb_to_ind_ <$> triplets (data arr)).

(** [np.bincount(x, minlength=n)] for non-negative [x]. *)
Definition bincount (x : list Z) (minlength : nat) : list Z :=
  let n := Nat.max minlength (Z.to_nat (foldr Z.max (-1) x + 1)) in
  (fun k => Z.of_nat (length (filter (fun v => v = Z.of_nat k) x))) <$> seq 0 n.

(* ===================================================================== *)
(** * The state: files, Palette objects and their cached properties *)
(* ===================================================================== *)

(** A file is a text file (the CSV of a palette) or the [.npy] dump of a
    vector of unsigned integers (a lookup table, as [np.save] writes it). *)
Inductive file : Type :=
  | TextFile (lines : list string)
  | NpyFile (a : list Z).

(** A row of the structured array [Palette.data], fields as in
    [Palette.DTYPE]. *)
Record PaletteRow : Type := {
  row_group : string;
  row_name : string;
  row_r : Z;
  row_g : Z;
  row_b : Z;
  row_hex : string
}.

(** A [Palette] object.  The two [functools.cached_property] attributes are
    stored in the object once computed. *)
Record Palette : Type := {
  data_path : string;
  cached_data_path : string;
  memo_lookup_table : option (list Z);
  memo_data : option (list PaletteRow)
}.

(** [files]: the file system; [lab_npy]: the file [data/lab.npy] of the
    package, the one [.npy] file that holds LAB triplets; [objects]: the
    Palette objects, by reference. *)
Record World : Type := {
  files : gmap string file;
  lab_npy : option (list lab);
  objects : gmap nat Palette
}.

(** Python code that reads and changes the state, and may raise: the state
    reached is kept when an exception is raised. *)
Definition M (A : Type) : Type := World -> result A * World.

Definition ret {A} (a : A) : M A := fun w => (Ok a, w).
Definition raise {A} (e : exn) : M A := fun w => (Raise e, w).
Definition lift {A} (r : result A) : M A := fun w => (r, w).
Definition bind {A B} (m : M A) (k : A -> M B) : M B :=
  fun w =>
    match m w with
    | (Ok a, w') => k a w'
    | (Raise e, w') => (Raise e, w')
    end.

Notation "'let*' x ':=' c 'in' k" := (bind c (fun x => k))
  (at level 10, x name, c at level 100, k at level 200).

Definition bind_result {A B} (r : result A) (k : A -> result B) : result B :=
  match r with
  | Ok a => k a
  | Raise e => Raise e
  end.

Definition get_files : M (gmap string file) := fun w => (Ok (files w), w).

Definition write_file (path : string) (f : file) : M unit :=
  fun w => (Ok tt, {| files := <[path := f]> (files w);
                      lab_npy := lab_npy w;
                      objects := objects w |}).

(** [os.remove(path)], by which a cache artifact is deleted. *)
Definition remove_file (path : string) : M unit :=
  fun w => (Ok tt, {| files := delete path (files w);
                      lab_npy := lab_npy w;
                      objects := objects w |}).

(** The object a reference points to. *)
Definition self_obj (self : nat) : M Palette :=
  fun w =>
    match objects w !! self with
    | Some o => (Ok o, w)
    | None => (Raise (AttributeError "dangling reference"), w)
    end.

(** The state with other objects. *)
Definition with_objects (w : World) (objs : gmap nat Palette) : World :=
  {| files := files w; lab_npy := lab_npy w; objects := objs |}.

Definition set_obj (self : nat) (o : Palette) : M unit :=
  fun w => (Ok tt, with_objects w (<[self := o]> (objects w))).

(** The object with its cached [lookup_table] (resp. [data]) replaced. *)
Definition with_lookup_table (o : Palette) (t : option (list Z)) : Palette :=
  {| data_path := data_path o;
     cached_data_path := cached_data_path o;
     memo_lookup_table := t;
     memo_data := memo_data o |}.

Definition with_data (o : Palette) (d : option (list PaletteRow)) : Palette :=
  {| data_path := data_path o;
     cached_data_path := cached_data_path o;
     memo_lookup_table := memo_lookup_table o;
     memo_data := d |}.

(** [open(path, "r")] and the lines of the file. *)
Definition open_text (path : string) : M (list string) :=
  let* fs := get_files in
  match fs !! path with
  | Some (TextFile lines) => ret lines
  | Some (NpyFile _) => raise (ValueError "cannot decode a binary file as text")
  | None => raise (FileNotFoundError "No such file or directory")
  end.

(** [np.load(path, allow_pickle=True)] on an existing file. *)
Definition np_load (f : file) : result (list Z) :=
  match f with
  | NpyFile a => Ok a
  | TextFile _ => Raise (ValueError "cannot load file as a pickle")
  end.

(** [np.save(path, arr, allow_pickle=True)]; the paths used end in [.npy]. *)
Definition np_save (path : string) (arr : list Z) : M unit :=
  write_file path (NpyFile arr).

(* ===================================================================== *)
(** * [_base.py]: reading the palette file *)
(* ===================================================================== *)

(** One step of the generator [_iterlines]: the line with its hex colour
    appended. *)
Definition _iterline (line : string) : result string :=
  let parts := Py.split "," (Py.strip line) in
  bind_result (mapM_result Py.int (Py.last3 parts)) (fun ints =>
  bind_result (Py.rgb2hex ints) (fun h =>
  Ok (Py.join "," (parts ++ [h])))).

(** Text before the first comment character [#], as [np.loadtxt] cuts it. *)
Fixpoint cut_comment_chars (l : list ascii) : list ascii :=
  match l with
  | [] => []
  | c :: l' => if Ascii.eqb c "#" then [] else c :: cut_comment_chars l'
  end.

Definition cut_comment (s : string) : string :=
  Py.str (cut_comment_chars (Py.chars s)).

(** Conversion of a field to [u1] by [np.loadtxt]: a decimal integer in
    [0, 255].  (What numpy does with an integer outside that range depends
    on its version; here it is an error.) *)
Definition parse_u1 (s : string) : result Z :=
  bind_result (Py.int s) (fun z =>
  if (0 <=? z) && (z <=? 255) then Ok z
  else Raise (ValueError "could not convert string to uint8")).

(** A string field of width [n] keeps at most [n] characters. *)
Definition fixed_width (n : nat) (s : string) : string :=
  Py.str (take n (Py.chars s)).

(** A line as [np.loadtxt(lines, dtype=Palette.DTYPE, delimiter=",")] reads
    it: comments are cut, a line left empty is skipped ([None]), and the
    line must have as many columns as [DTYPE] has fields. *)
Definition loadtxt_line (line : string) : result (option PaletteRow) :=
  let text := cut_comment line in
  if decide (Py.strip text = "") then Ok None
  else
    match Py.split "," text with
    | [fgroup; fname; fr; fg; fb; fhex] =>
        bind_result (parse_u1 fr) (fun r =>
        bind_result (parse_u1 fg) (fun g =>
        bind_result (parse_u1 fb) (fun b =>
        Ok (Some {| row_group := fixed_width 20 fgroup;
                    row_name := fixed_width 50 fname;
                    row_r := r; row_g := g; row_b := b;
                    row_hex := fixed_width 7 fhex |}))))
    | _ => Raise (ValueError "the number of columns does not match the dtype")
    end.

(** [np.loadtxt] pulling the lines out of [_iterlines] one at a time. *)
Definition load_rows (lines : list string) : result (list PaletteRow) :=
  bind_result
    (mapM_result (fun line => bind_result (_iterline line) loadtxt_line) lines)
    (fun rows => Ok (omap id rows)).

(* ===================================================================== *)
(** * [_base.py]: class [Palette] *)
(* ===================================================================== *)

(** The message of the exception [Palette.lookup_table] raises (the line
    break and the indentation of the literal in the source are left out). *)
Definition not_built_message : string :=
  "This look up table has not been created yet. First call the `build` method to create the lookup table.".


(** [Palette.lookup_table] (a [functools.cached_property]) *)
Definition Palette_lookup_table (self : nat) : M (list Z) :=
  let* o := self_obj self in
  match memo_lookup_table o with
  | Some table => ret table
  | None =>
      let* fs := get_files in
      match fs !! cached_data_path o with
      | Some f =>
          let* table := lift (np_load f) in
          let* _ := set_obj self (with_lookup_table o (Some table)) in
          ret table
      | None => raise (FileNotFoundError not_built_message)
      end
  end.

(** [Palette.data] (a [functools.cached_property]) *)
Definition Palette_data (self : nat) : M (list PaletteRow) :=
  let* o := self_obj self in
  match memo_data o with
  | Some d => ret d
  | None =>
      let* lines := open_text (data_path o) in
      let* d := lift (load_rows lines) in
      let* _ := set_obj self (with_data o (Some d)) in
      ret d
  end.

(** [Palette.n_colors]: [self.data.shape[0]].  [np.loadtxt] squeezes a
    single row into an array without axes, whose shape has no entry 0. *)
Definition Palette_n_colors (self : nat) : M nat :=
  let* d := Palette_data self in
  if decide (length d = 1%nat) then raise (IndexError "tuple index out of range")
  else ret (length d).

(** [Palette.rgbs] *)
Definition Palette_rgbs (self : nat) : M (list rgb) :=
  let* d := Palette_data self in
  ret ((fun row => (row_r row, row_g row, row_b row)) <$> d).

(** [Palette.convert_to_indices] *)
Definition Palette_convert_to_indices (self : nat) (arr : ndarray Z)
    : M (ndarray Z) :=
  let* table := Palette_lookup_table self in
  lift (take1 table (rgb_to_ind arr)).

(** [Palette.convert_to_rgbs] *)
Definition Palette_convert_to_rgbs (self : nat) (arr : ndarray Z)
    : M (ndarray Z) :=
  let* rgbs := Palette_rgbs self in
  let* indices := Palette_convert_to_indices self arr in
  lift (take_rows rgbs indices).

(** [Palette.clear_cache]: [del self.lookup_table] *)
Definition Palette_clear_cache (self : nat) : M unit :=
  let* o := self_obj self in
  match memo_lookup_table o with
  | Some _ => set_obj self (with_lookup_table o None)
  | None => raise (AttributeError "lookup_table")
  end.

Section Build.

Context `{JccNumerics}.

(** [_load_lab_array] *)
Definition _load_lab_array : M (list lab) :=
  fun w =>
    match lab_npy w with
    | None =>
        let lab_array := __create_lab_array in
        (Ok lab_array, {| files := files w;
                          lab_npy := Some lab_array;
                          objects := objects w |})
    | Some a => (Ok a, w)
    end.

(** [Palette.build] *)
Definition Palette_build (self : nat) : M unit :=
  let* rgbs := Palette_rgbs self in
  let* all_lab := _load_lab_array in
  let* arr := lift (_create_lookup_table (rgb_to_lab rgbs) all_lab) in
  let* o := self_obj self in
  np_save (cached_data_path o) arr.

End Build.

(* ===================================================================== *)
(** * [__init__.py] *)
(* ===================================================================== *)

(** The directory of the package, [Path(__file__).parent]. *)
Definition package_dir : string := "jcc/palettes".

(** The module-level object [x11] is the first object created. *)
Definition x11 : nat := 0%nat.

Definition x11_path : string := package_dir +:+ "/data/x11.csv".

(** [_PALETTES] *)
Definition _PALETTES : gmap string nat := {[ "x11" := x11 ]}.

(** The state right after the module has been imported over the file
    system [fs]: [x11 = Palette(Path(__file__).parent / "data/x11.csv")]. *)
Definition imported (fs : gmap string file) (lab_file : option (list lab)) : World :=
  {| files := fs;
     lab_npy := lab_file;
     objects := {[ x11 := {| data_path := x11_path;
                             cached_data_path := package_dir +:+ "/data/x11.npy";
                             memo_lookup_table := None;
                             memo_data := None |} ]} |}.

(** The argument [palette: PaletteName | Palette]: a name or an object. *)
Inductive palette_arg : Type :=
  | ByName (name : string)
  | ByValue (p : nat).

(** [_get_palette] *)
Definition _get_palette (palette : palette_arg) : M nat :=
  match palette with
  | ByValue p => ret p
  | ByName name =>
      match _PALETTES !! name with
      | Some p => ret p
      | None => raise (NotImplementedError ("Unsupported palette: " +:+ name))
      end
  end.

(** [quantize_with_palette] *)
Definition quantize_with_palette (img : ndarray Z) (palette : palette_arg)
    : M (ndarray Z) :=
  let* pal := _get_palette palette in
  Palette_convert_to_rgbs pal img.

(** [data["count"] = counts]: the counts must have the length of the
    palette, or be a single value that is broadcast. *)
Definition assign_counts (rows : list PaletteRow) (counts : list Z)
    : result (list (PaletteRow * Z)) :=
  if decide (length counts = length rows) then Ok (zip rows counts)
  else
    match counts with
    | [c] => Ok ((fun row => (row, c)) <$> rows)
    | _ => Raise (ValueError "could not broadcast input array")
    end.

(** [color_histogram]: the palette rows with the number of pixels of each. *)
Definition color_histogram (img : ndarray Z) (palette : palette_arg)
    : M (list (PaletteRow * Z)) :=
  let* pal := _get_palette palette in
  let* indices := Palette_convert_to_indices pal img in
  let* n := Palette_n_colors pal in
  let counts := bincount (data indices) n in
  let* palette_data := Palette_data pal in
  lift (assign_counts palette_data counts).

(* ===================================================================== *)
(** * [color_entropy] *)
(* ===================================================================== *)

(** [_ETS = 1e-15], the nearest binary64 number. *)
Definition _ETS : spec_float := S754_finite false 5070602400912918 (-102).

(** [math.copysign(1.0, x)] *)
Definition copysign_one (x : spec_float) : spec_float :=
  if F.signbit x then F.neg F.one else F.one.

(** [np.isin(color, ("black", "white", "gray"))] *)
Definition is_grayscale (color : string) : bool :=
  bool_decide (color ∈ ["black"; "white"; "gray"]).

Definition sum_counts (rows : list (string * Z)) : Z :=
  foldr Z.add 0 (snd <$> rows).

(** [sum(terms)]: the additions from left to right, from the integer 0. *)
Definition py_sum (terms : list spec_float) : spec_float :=
  foldl F.add (F.of_Z 0) terms.

Section Entropy.

(** [math.log2], which raises [ValueError] outside its domain. *)
Variable log2 : spec_float -> result spec_float.

(** [color_entropy] on a grouped histogram: rows of [(color, count)]. *)
Definition color_entropy (rows : list (string * Z)) : result spec_float :=
  let total_count := F.of_Z (sum_counts rows) in
  let gray := filter (fun row => is_grayscale row.1 = true) rows in
  let others := filter (fun row => is_grayscale row.1 = false) rows in
  let probs :=
    F.div (F.of_Z (sum_counts gray)) total_count
    :: ((fun row : string * Z => F.div (F.of_Z row.2) total_count) <$> others) in
  bind_result
    (mapM_result (fun p => bind_result (log2 (F.add p _ETS))
                                       (fun l => Ok (F.mul p l))) probs)
    (fun terms =>
       let value := F.div (F.neg (py_sum terms)) (F.of_Z (Z.of_nat (length probs))) in
       let value := F.mul value (copysign_one value) in
       Ok value).

End Entropy.

(* ===================================================================== *)
(** * Stand-ins to run the model on concrete inputs *)
(* ===================================================================== *)

(** The modules [jcc.convert] and [jcc.diff] are not part of the sources.
    To execute the model, the channels are taken as LAB coordinates and the
    distance is the sum of the absolute differences of the coordinates: it
    is zero between equal colours and positive between different ones. *)
Definition sample_delta_e (l1 a1 b1 l2 a2 b2 : spec_float) : spec_float :=
  F.add (F.add (SFabs (F.sub l1 l2)) (SFabs (F.sub a1 a2))) (SFabs (F.sub b1 b2)).

Definition sample_numerics : JccNumerics :=
  {| rgb_to_lab_ := fun r g b => (F.of_Z r, F.of_Z g, F.of_Z b);
     delta_e_cie2000 := sample_delta_e |}.

(** A stand-in for [math.log2] on the few values the examples need: exact
    on powers of two, raising on arguments that are not positive. *)
Definition sample_log2 (x : spec_float) : result spec_float :=
  match x with
  | S754_finite false m e =>
      Ok (F.of_Z (Z.log2 (Zpos m) + e))
  | S754_infinity false => Ok x
  | S754_nan => Ok x
  | _ => Raise (ValueError "math domain error")
  end.

(* ===================================================================== *)
(** * Notions used to state the properties of the lookup table *)
(* ===================================================================== *)

Section Distance.

Context `{JccNumerics}.

(** The distance [_create_lookup_table] compares: the CIE2000 difference
    between the LAB values of a query colour [q] and of a palette colour
    [c], as stored in the single-precision array [deltaes]. *)
Definition distance32 (q c : rgb) : spec_float :=
  F.to_float32 (delta_e (rgb_to_lab_ q.1.1 q.1.2 q.2) (rgb_to_lab_ c.1.1 c.1.2 c.2)).



End Distance.

(** The linear index of a colour in the table. *)
Definition linear_index (r g b : Z) : nat := Z.to_nat (r * 65536 + g * 256 + b).



(* ===================================================================== *)
(** * Sample states *)
(* ===================================================================== *)

(** A palette file of pure red and pure blue. *)
Definition red_blue_csv : file :=
  TextFile ["red,pure red,255,0,0"; "blue,pure blue,0,0,255"].

(** The package just imported, with the palette file in place and no lookup
    table built. *)
Definition fresh_world : World := imported {[ x11_path := red_blue_csv ]} None.

(** The same, with a cache artifact of two entries next to the palette. *)
Definition cached_world : World :=
  imported {[ x11_path := red_blue_csv;
              package_dir +:+ "/data/x11.npy" := NpyFile [1; 0] ]} None.

(** A single pixel, the triplet (200, 10, 10). *)
Definition reddish : ndarray Z := NdArray [3%nat] [200; 10; 10].

(** An image of shape (1, 2, 3): the pixels (0, 0, 0) and (0, 0, 1). *)
Definition two_pixels : ndarray Z := NdArray [1%nat; 2%nat; 3%nat] [0; 0; 0; 0; 0; 1].

(** The exception the package raises for an unknown palette name. *)
Definition is_unsupported_palette (e : exn) : Prop :=
  exists msg, e = NotImplementedError msg.

(** A computation that may fail, but not with [e] such that [P e]. *)
Definition never_raises {A} (P : exn -> Prop) (r : result A) : Prop :=
  match r with
  | Ok _ => True
  | Raise e => ~ P e
  end.




(* ===================================================================== *)
(** * [Palette.groups] and [group_color_histogram] *)
(* ===================================================================== *)

(** [Palette.groups] *)
Definition Palette_groups (self : nat) : M (list string) :=
  let* d := Palette_data self in
  ret (row_group <$> d).

(** [np.unique] on an array of strings: the distinct values in increasing
    order, strings being compared character by character. *)
Fixpoint insert_unique (x : string) (l : list string) : list string :=
  match l with
  | [] => [x]
  | y :: l' =>
      match String.compare x y with
      | Eq => l
      | Lt => x :: l
      | Gt => y :: insert_unique x l'
      end
  end.

Definition np_unique (a : list string) : list string := foldr insert_unique [] a.

(** A value stored in an [i8] (64-bit signed) slot: two's complement
    wrap-around. *)
Definition to_int64 (z : Z) : Z := (z + 2 ^ 63) mod 2 ^ 64 - 2 ^ 63.

(** [np.sum] of an [i8] array. *)
Definition np_sum_i8 (a : list Z) : Z := to_int64 (foldr Z.add 0 a).

(** [group_color_histogram] on the rows of a [color_histogram]: for every
    group, in the order of [np.unique], the sum of the counts of its rows. *)
Definition group_color_histogram (hist : list (PaletteRow * Z)) : list (string * Z) :=
  let colors := np_unique ((fun r : PaletteRow * Z => row_group r.1) <$> hist) in
  (fun color =>
     let subset := filter (fun r : PaletteRow * Z => row_group r.1 = color) hist in
     (fixed_width 20 color, np_sum_i8 (snd <$> subset))) <$> colors.

(** The files on disk are the same in [w'] as in [w]. *)
Definition same_disk (w w' : World) : Prop :=
  files w' = files w /\ lab_npy w' = lab_npy w.

(** The order of [np.unique] on strings. *)
Definition str_lt (a b : string) : Prop := String.compare a b = Lt.

(** [sum(l)] of Python integers. *)
Definition sum_Z (l : list Z) : Z := foldr Z.add 0 l.

(** The counts of the rows of group [c] in a histogram. *)
Definition group_counts_of (hist : list (PaletteRow * Z)) (c : string) : list Z :=
  snd <$> filter (fun r : PaletteRow * Z => row_group r.1 = c) hist.

(** The sizes [256 ** 2] and [256 ** 3] stay symbolic in the proofs. *)
#[local] Arguments Nat.pow : simpl never.

(* ===================================================================== *)
(** * The order of [<] on IEEE values *)
(* ===================================================================== *)

Section FloatOrder.

Lemma SFltb_nan_l (y : spec_float) : SFltb S754_nan y = false.
Proof. reflexivity. Qed.

Lemma SFltb_nan_r (x : spec_float) : SFltb x S754_nan = false.
Proof. destruct x; reflexivity. Qed.

Lemma SFltb_irrefl (x : spec_float) : SFltb x x = false.
Proof.
  destruct x as [s|s| |s m e]; unfold SFltb; simpl;
    try reflexivity; try (destruct s; reflexivity).
  destruct s; rewrite Z.compare_refl, Pos.compare_cont_refl; reflexivity.
Qed.

Lemma mag_cases m1 e1 m2 e2 :
  match (e1 ?= e2) with
  | Lt => Lt | Gt => Gt | Eq => Pos.compare_cont Eq m1 m2
  end = Lt <-> mag_lt m1 e1 m2 e2.
Proof.
  unfold mag_lt. rewrite Pos.compare_cont_spec.
  destruct (Z.compare_spec e1 e2); destruct (Pos.compare_spec m1 m2); simpl;
    split; intros; try discriminate; try reflexivity; try lia.
Qed.

Lemma mag_cases_opp m1 e1 m2 e2 :
  match (e1 ?= e2) with
  | Lt => Gt | Gt => Lt | Eq => CompOpp (Pos.compare_cont Eq m1 m2)
  end = Lt <-> mag_lt m2 e2 m1 e1.
Proof.
  unfold mag_lt. rewrite Pos.compare_cont_spec.
  destruct (Z.compare_spec e1 e2); destruct (Pos.compare_spec m1 m2); simpl;
    split; intros; try discriminate; try reflexivity; try lia.
Qed.

(** [SFltb] on finite values, by sign. *)
Lemma SFltb_finite s1 m1 e1 s2 m2 e2 :
  SFltb (S754_finite s1 m1 e1) (S754_finite s2 m2 e2) = true <->
  match s1, s2 with
  | true, false => True
  | false, true => False
  | false, false => mag_lt m1 e1 m2 e2
  | true, true => mag_lt m2 e2 m1 e1
  end.
Proof.
  unfold SFltb; simpl. destruct s1, s2.
  - rewrite <- mag_cases_opp.
    destruct (match e1 ?= e2 with Lt => Gt | Gt => Lt | Eq => _ end); intuition congruence.
  - intuition.
  - intuition congruence.
  - rewrite <- mag_cases.
    destruct (match e1 ?= e2 with Lt => Lt | Gt => Gt | Eq => _ end); intuition congruence.
Qed.

Lemma mag_lt_trans m1 e1 m2 e2 m3 e3 :
  mag_lt m1 e1 m2 e2 -> mag_lt m2 e2 m3 e3 -> mag_lt m1 e1 m3 e3.
Proof. unfold mag_lt. lia. Qed.

Lemma mag_lt_cotrans m1 e1 m2 e2 m3 e3 :
  mag_lt m1 e1 m3 e3 -> mag_lt m1 e1 m2 e2 \/ mag_lt m2 e2 m3 e3.
Proof. unfold mag_lt. lia. Qed.

Lemma SFltb_trans (x y z : spec_float) :
  SFltb x y = true -> SFltb y z = true -> SFltb x z = true.
Proof.
  destruct x as [sx|sx| |sx mx ex], y as [sy|sy| |sy my ey], z as [sz|sz| |sz mz ez];
    try (destruct sx); try (destruct sy); try (destruct sz);
    try reflexivity; try discriminate;
    rewrite ?SFltb_finite; try tauto.
  all: intros H1 H2; eauto using mag_lt_trans.
Qed.

(** For values that are not NaN, [<] is a strict weak order. *)
Lemma SFltb_cotrans (x y z : spec_float) :
  F.isnan y = false ->
  SFltb x z = true -> SFltb x y = true \/ SFltb y z = true.
Proof.
  destruct x as [sx|sx| |sx mx ex], y as [sy|sy| |sy my ey], z as [sz|sz| |sz mz ez];
    try (destruct sx); try (destruct sy); try (destruct sz);
    try discriminate; intros _;
    try (left; reflexivity); try (right; reflexivity);
    rewrite ?SFltb_finite; try tauto.
  all: intros H1; try discriminate; unfold mag_lt in *; lia.
Qed.

End FloatOrder.

Example all_rgbs_of_2 :
  all_rgbs_of 2 =
  [(0,0,0); (0,0,1); (0,1,0); (0,1,1); (1,0,0); (1,0,1); (1,1,0); (1,1,1)].
Proof. reflexivity. Qed.

Example all_rgbs_of_3_at_14 : all_rgbs_of 3 !! 14%nat = Some (1, 1, 2).
Proof. reflexivity. Qed.

(* ===================================================================== *)
(** * Arrays: lookups in the numpy operations *)
(* ===================================================================== *)

Section ArrayLemmas.

Lemma length_flat_map_const {A B} (f : A -> list B) (l : list A) (c : nat) :
  (forall x, length (f x) = c) -> length (flat_map f l) = (length l * c)%nat.
Proof.
  intros Hc. induction l as [|x l IH]; simpl; [reflexivity|].
  rewrite length_app, Hc, IH. reflexivity.
Qed.

Lemma lookup_flat_map_const {A B} (f : A -> list B) (l : list A) (c i j : nat) :
  (forall x, length (f x) = c) -> (j < c)%nat ->
  flat_map f l !! (i * c + j)%nat = l !! i ≫= (fun x => f x !! j).
Proof.
  intros Hc Hj. revert i. induction l as [|x l IH]; intros i; simpl.
  - reflexivity.
  - destruct i as [|i]; simpl.
    + rewrite lookup_app_l by (rewrite Hc; exact Hj). reflexivity.
    + rewrite lookup_app_r by (rewrite Hc; lia).
      rewrite Hc. replace (c + i * c + j - c)%nat with (i * c + j)%nat by lia.
      apply IH.
Qed.

Lemma length_np_repeat {A} (a : list A) (k : nat) :
  length (np.repeat a k) = (length a * k)%nat.
Proof.
  unfold np.repeat. apply length_flat_map_const. intros x. apply length_replicate.
Qed.

Lemma lookup_np_repeat {A} (a : list A) (k i j : nat) :
  (j < k)%nat -> np.repeat a k !! (i * k + j)%nat = a !! i.
Proof.
  intros Hj. unfold np.repeat.
  rewrite (lookup_flat_map_const _ _ k) by (auto using length_replicate).
  destruct (a !! i) as [x|]; simpl; [|reflexivity].
  apply lookup_replicate_2. exact Hj.
Qed.

Lemma length_np_arange (n : nat) : length (np.arange n) = n.
Proof. unfold np.arange. rewrite length_map, length_seq. reflexivity. Qed.

Lemma lookup_np_arange (n i : nat) :
  (i < n)%nat -> np.arange n !! i = Some (Z.of_nat i).
Proof.
  intros Hi. unfold np.arange. rewrite list_lookup_fmap, lookup_seq_lt by exact Hi.
  reflexivity.
Qed.

Lemma length_np_ravel {A} `{Inhabited A} (v : np.view2 A) :
  length (np.ravel v) = (np.v_rows v * np.v_cols v)%nat.
Proof.
  unfold np.ravel. rewrite (length_flat_map_const _ _ (np.v_cols v)).
  - rewrite length_seq. reflexivity.
  - intros i. rewrite length_map, length_seq. reflexivity.
Qed.

Lemma lookup_np_ravel {A} `{Inhabited A} (v : np.view2 A) (i j : nat) :
  (i < np.v_rows v)%nat -> (j < np.v_cols v)%nat ->
  np.ravel v !! (i * np.v_cols v + j)%nat =
  Some (np.v_base v !!! (i * np.v_stride0 v + j * np.v_stride1 v)%nat).
Proof.
  intros Hi Hj. unfold np.ravel.
  rewrite (lookup_flat_map_const _ _ (np.v_cols v)).
  - rewrite lookup_seq_lt by exact Hi. simpl.
    rewrite list_lookup_fmap, lookup_seq_lt by exact Hj. reflexivity.
  - intros x. rewrite length_map, length_seq. reflexivity.
  - exact Hj.
Qed.

End ArrayLemmas.

(* ===================================================================== *)
(** * [_get_all_rgbs] enumerates the colour cube in canonical order *)
(* ===================================================================== *)

Section AllRgbs.

Local Ltac view_simpl :=
  cbn [np.v_cols np.v_rows np.v_stride0 np.v_stride1 np.v_base np.T np.reshape_m1].

Variable n : nat.
Hypothesis n_pos : (0 < n)%nat.

Let arr := np.repeat (np.arange n) (n ^ 2).

Lemma sq_pos : (0 < n ^ 2)%nat.
Proof. rewrite Nat.pow_2_r. nia. Qed.

Lemma cube_eq : (n ^ 3 = n * n ^ 2)%nat.
Proof. change 3%nat with (S 2). rewrite Nat.pow_succ_r'. reflexivity. Qed.

Lemma length_arr : length arr = (n * n ^ 2)%nat.
Proof. unfold arr. rewrite length_np_repeat, length_np_arange. reflexivity. Qed.

Lemma lookup_arr (p : nat) :
  (p < n * n ^ 2)%nat -> arr !! p = Some (Z.of_nat (p / n ^ 2)).
Proof.
  intros Hp. pose proof sq_pos as Hsq.
  rewrite (Nat.div_mod_eq p (n ^ 2)) at 1.
  rewrite (Nat.mul_comm (n ^ 2)). unfold arr.
  rewrite lookup_np_repeat by (apply Nat.mod_upper_bound; lia).
  apply lookup_np_arange. apply Nat.Div0.div_lt_upper_bound. lia.
Qed.

Lemma lookup_total_arr (p : nat) :
  (p < n * n ^ 2)%nat -> arr !!! p = Z.of_nat (p / n ^ 2).
Proof. intros Hp. apply list_lookup_total_correct, lookup_arr, Hp. Qed.

(** [arr.reshape((-1, n)).T.ravel()] *)
Lemma lookup_col1 (k : nat) :
  (k < n * n ^ 2)%nat ->
  np.ravel (np.T (np.reshape_m1 arr n)) !! k = Some (Z.of_nat (k mod n ^ 2 / n)).
Proof.
  intros Hk. pose proof sq_pos as Hsq.
  assert (Hrows : (length arr / n = n ^ 2)%nat).
  { rewrite length_arr, Nat.mul_comm. apply Nat.div_mul. lia. }
  set (q := (k / n ^ 2)%nat). set (p := (k mod n ^ 2)%nat).
  assert (Hq : (q < n)%nat) by (apply Nat.Div0.div_lt_upper_bound; lia).
  assert (Hp : (p < n ^ 2)%nat) by (apply Nat.mod_upper_bound; lia).
  replace k with (q * np.v_cols (np.T (np.reshape_m1 arr n)) + p)%nat at 1
    by (view_simpl; rewrite Hrows; unfold q, p; rewrite (Nat.div_mod_eq k (n ^ 2)) at 3; lia).
  rewrite lookup_np_ravel by (view_simpl; rewrite ?Hrows; assumption).
  view_simpl. f_equal.
  rewrite lookup_total_arr by (rewrite Nat.pow_2_r in *; nia).
  f_equal. rewrite Nat.pow_2_r. rewrite <- Nat.Div0.div_div.
  replace (q * 1 + p * n)%nat with (q + p * n)%nat by lia.
  rewrite Nat.div_add by lia. rewrite (Nat.div_small q n) by lia. reflexivity.
Qed.

(** [arr.reshape((-1, n ** 2)).T.ravel()] *)
Lemma lookup_col2 (k : nat) :
  (k < n * n ^ 2)%nat ->
  np.ravel (np.T (np.reshape_m1 arr (n ^ 2))) !! k = Some (Z.of_nat (k mod n)).
Proof.
  intros Hk. pose proof sq_pos as Hsq.
  assert (Hrows : (length arr / n ^ 2 = n)%nat).
  { rewrite length_arr. apply Nat.div_mul. lia. }
  set (q := (k / n)%nat). set (p := (k mod n)%nat).
  assert (Hq : (q < n ^ 2)%nat) by (apply Nat.Div0.div_lt_upper_bound; lia).
  assert (Hp : (p < n)%nat) by (apply Nat.mod_upper_bound; lia).
  replace k with (q * np.v_cols (np.T (np.reshape_m1 arr (n ^ 2))) + p)%nat at 1
    by (view_simpl; rewrite Hrows; unfold q, p; rewrite (Nat.div_mod_eq k n) at 3; lia).
  rewrite lookup_np_ravel by (view_simpl; rewrite ?Hrows; assumption).
  view_simpl. f_equal.
  rewrite lookup_total_arr by nia.
  f_equal. replace (q * 1 + p * n ^ 2)%nat with (q + p * n ^ 2)%nat by lia.
  rewrite Nat.div_add by lia. rewrite (Nat.div_small q) by lia. reflexivity.
Qed.

Lemma length_all_rgbs_of : length (all_rgbs_of n) = (n ^ 3)%nat.
Proof.
  pose proof sq_pos as Hsq.
  unfold all_rgbs_of, set_col0, set_col1, set_col2. fold arr.
  rewrite !length_zip_with, !length_np_ravel, length_replicate, length_arr. view_simpl.
  rewrite length_arr, cube_eq.
  rewrite (Nat.mul_comm n (n ^ 2)) at 3. rewrite Nat.div_mul by lia.
  rewrite Nat.div_mul by lia. lia.
Qed.

Lemma lookup_all_rgbs_of (k : nat) :
  (k < n ^ 3)%nat ->
  all_rgbs_of n !! k =
  Some (Z.of_nat (k / n ^ 2), Z.of_nat (k mod n ^ 2 / n), Z.of_nat (k mod n)).
Proof.
  rewrite cube_eq. intros Hk.
  unfold all_rgbs_of, set_col0, set_col1, set_col2. fold arr.
  rewrite !lookup_zip_with.
  rewrite lookup_replicate_2 by (rewrite cube_eq; exact Hk).
  rewrite lookup_arr, lookup_col1, lookup_col2 by exact Hk.
  reflexivity.
Qed.

End AllRgbs.

Section CanonicalIndex.

Variable n : nat.
Hypothesis n_pos : (0 < n)%nat.

(** Row-major position of the triple [(r, g, b)] in the cube of side [n]. *)
Lemma canonical_index (r g b : nat) :
  (r < n)%nat -> (g < n)%nat -> (b < n)%nat ->
  let k := (r * n ^ 2 + g * n + b)%nat in
  (k < n ^ 3)%nat /\ (k / n ^ 2 = r)%nat /\ (k mod n ^ 2 / n = g)%nat /\ (k mod n = b)%nat.
Proof.
  intros Hr Hg Hb k. subst k.
  assert (Hgb : (g * n + b < n ^ 2)%nat) by (rewrite Nat.pow_2_r; nia).
  assert (Hsq : (0 < n ^ 2)%nat) by lia.
  repeat split.
  - rewrite (cube_eq n). nia.
  - rewrite <- Nat.add_assoc, Nat.div_add_l by lia.
    rewrite (Nat.div_small (g * n + b)) by exact Hgb. lia.
  - rewrite <- Nat.add_assoc, Nat.add_comm, Nat.Div0.mod_add.
    rewrite (Nat.mod_small (g * n + b)) by exact Hgb.
    rewrite Nat.div_add_l by lia. rewrite (Nat.div_small b) by exact Hb. lia.
  - rewrite Nat.pow_2_r.
    replace (r * (n * n) + g * n + b)%nat with (b + (r * n + g) * n)%nat by lia.
    rewrite Nat.Div0.mod_add. apply Nat.mod_small, Hb.
Qed.

End CanonicalIndex.

(** The linear index [r * 65536 + g * 256 + b] as a list position. *)
Lemma linear_index_nat (r g b : Z) :
  0 <= r < 256 -> 0 <= g < 256 -> 0 <= b < 256 ->
  Z.to_nat (r * 65536 + g * 256 + b) =
  (Z.to_nat r * 256 ^ 2 + Z.to_nat g * 256 + Z.to_nat b)%nat.
Proof.
  intros Hr Hg Hb. apply Nat2Z.inj.
  rewrite !Nat2Z.inj_add, !Nat2Z.inj_mul, Nat2Z.inj_pow, !Z2Nat.id by lia.
  reflexivity.
Qed.

Lemma length_get_all_rgbs : length _get_all_rgbs = (256 ^ 3)%nat.
Proof. apply length_all_rgbs_of. lia. Qed.

Lemma lookup_get_all_rgbs (r g b : Z) :
  0 <= r < 256 -> 0 <= g < 256 -> 0 <= b < 256 ->
  _get_all_rgbs !! Z.to_nat (r * 65536 + g * 256 + b) = Some (r, g, b).
Proof.
  intros Hr Hg Hb. rewrite linear_index_nat by assumption.
  destruct (canonical_index 256 ltac:(lia) (Z.to_nat r) (Z.to_nat g) (Z.to_nat b))
    as (Hk & H1 & H2 & H3); try lia.
  unfold _get_all_rgbs. rewrite lookup_all_rgbs_of by (lia || exact Hk).
  rewrite H1, H2, H3, !Z2Nat.id by lia. reflexivity.
Qed.

Lemma linear_index_lt (r g b : Z) :
  0 <= r < 256 -> 0 <= g < 256 -> 0 <= b < 256 ->
  (Z.to_nat (r * 65536 + g * 256 + b) < 256 ^ 3)%nat.
Proof.
  intros Hr Hg Hb. rewrite linear_index_nat by assumption.
  apply (canonical_index 256 ltac:(lia) (Z.to_nat r) (Z.to_nat g) (Z.to_nat b)); lia.
Qed.

(* ===================================================================== *)
(** * Loops that fill an array slot by slot *)
(* ===================================================================== *)

Section Fill.

Context {A : Type}.
Variable f : nat -> A.

Lemma length_foldl_insert (order : list nat) (init : list A) :
  length (foldl (fun out i => <[i := f i]> out) init order) = length init.
Proof.
  revert init. induction order as [|i order IH]; intros init; simpl; [reflexivity|].
  rewrite IH. apply length_insert.
Qed.

Lemma lookup_foldl_insert (order : list nat) (init : list A) (k : nat) :
  (k < length init)%nat ->
  foldl (fun out i => <[i := f i]> out) init order !! k =
  if decide (k ∈ order) then Some (f k) else init !! k.
Proof.
  revert init. induction order as [|i order IH]; intros init Hk; cbn [foldl].
  - rewrite decide_False by apply not_elem_of_nil. reflexivity.
  - rewrite IH by (rewrite length_insert; exact Hk).
    destruct (decide (k ∈ order)) as [Hin|Hnin].
    + rewrite decide_True by (right; exact Hin). reflexivity.
    + destruct (decide (k = i)) as [->|Hne].
      * rewrite decide_True by left. apply list_lookup_insert_eq, Hk.
      * rewrite decide_False by (rewrite elem_of_cons; tauto).
        apply list_lookup_insert_ne. congruence.
Qed.

(** Whatever the order of the iterations, as long as each slot is visited,
    the filled array is the same. *)
Lemma foldl_insert_perm (order : list nat) (n : nat) (z : A) :
  order ≡ₚ seq 0 n ->
  foldl (fun out i => <[i := f i]> out) (replicate n z) order = f <$> seq 0 n.
Proof.
  intros Hperm. apply list_eq. intros k.
  destruct (decide (k < n)%nat) as [Hk|Hk].
  - rewrite lookup_foldl_insert by (rewrite length_replicate; exact Hk).
    rewrite decide_True by (rewrite Hperm; apply elem_of_seq; lia).
    rewrite list_lookup_fmap, lookup_seq_lt by exact Hk. reflexivity.
  - rewrite !lookup_ge_None_2; [reflexivity| |].
    + rewrite length_fmap, length_seq. lia.
    + rewrite length_foldl_insert, length_replicate. lia.
Qed.

Lemma prange_for_raise {S : Type} (body : nat -> S -> result S) (e : exn)
    (order : list nat) (s : S) :
  order <> [] -> (forall i s', body i s' = Raise e) ->
  prange_for order body s = Raise e.
Proof. intros Hne Hb. destruct order; [congruence|]. simpl. rewrite Hb. reflexivity. Qed.

End Fill.

(* ===================================================================== *)
(** * [np.argmin] returns the first position of the minimum *)
(* ===================================================================== *)

Section Argmin.

Lemma argmin_scan_spec (rest pre : list spec_float) (mv : spec_float) (mi : nat) :
  (pre ++ rest) !! mi = Some mv ->
  F.isnan mv = false ->
  (mi <= length pre)%nat ->
  (forall k v, pre !! k = Some v -> F.isnan v = false /\ F.ltb v mv = false) ->
  (forall k v, (k < mi)%nat -> pre !! k = Some v -> F.ltb mv v = true) ->
  let j := np.argmin_scan rest (length pre) mv mi in
  is_argmin (pre ++ rest) j /\
  (no_nan (pre ++ rest) -> is_first_argmin (pre ++ rest) j).
Proof.
  revert pre mv mi. induction rest as [|v rest IH]; intros pre mv mi Hmi Hmv Hle Hpre Hfirst.
  - simpl. rewrite app_nil_r in *.
    assert (Harg : is_argmin pre mi).
    { split; [eapply lookup_lt_Some; exact Hmi|].
      intros k w Hk. rewrite (list_lookup_total_correct _ _ _ Hmi).
      apply (Hpre k w Hk). }
    split; [exact Harg|]. intros _. split; [exact Harg|].
    intros k w Hlt Hk. rewrite (list_lookup_total_correct _ _ _ Hmi). eauto.
  - simpl. destruct (F.isnan v) eqn:Hnan.
    + assert (Hv : (pre ++ v :: rest) !! length pre = Some v)
        by (rewrite lookup_app_r, Nat.sub_diag by lia; reflexivity).
      assert (Harg : is_argmin (pre ++ v :: rest) (length pre)).
      { split; [eapply lookup_lt_Some; exact Hv|].
        intros k w _. rewrite (list_lookup_total_correct _ _ _ Hv).
        destruct v; try discriminate. apply SFltb_nan_r. }
      split; [exact Harg|]. intros Hnn. rewrite (Hnn _ _ Hv) in Hnan. discriminate.
    + assert (Hlen : length (pre ++ [v]) = S (length pre))
        by (rewrite length_app; simpl; lia).
      destruct (F.ltb v mv) eqn:Hlt.
      * specialize (IH (pre ++ [v]) v (length pre)).
        rewrite Hlen, <- app_assoc in IH. simpl in IH. apply IH.
        -- rewrite lookup_app_r, Nat.sub_diag by lia. reflexivity.
        -- exact Hnan.
        -- lia.
        -- intros k w Hk. apply lookup_app_Some in Hk as [Hk|[_ Hk]].
           ++ destruct (Hpre k w Hk) as [Hwn Hwm]. split; [exact Hwn|].
              destruct (F.ltb w v) eqn:Hwv; [|reflexivity].
              unfold F.ltb in *. rewrite (SFltb_trans _ _ _ Hwv Hlt) in Hwm. discriminate.
           ++ apply list_lookup_singleton_Some in Hk as [_ <-].
              split; [exact Hnan | apply SFltb_irrefl].
        -- intros k w Hkl Hk. apply lookup_app_Some in Hk as [Hk|[Hge _]]; [|lia].
           destruct (Hpre k w Hk) as [Hwn Hwm].
           destruct (SFltb_cotrans v w mv Hwn Hlt) as [Hc|Hc]; [exact Hc|].
           unfold F.ltb in *. congruence.
      * specialize (IH (pre ++ [v]) mv mi).
        rewrite Hlen, <- app_assoc in IH. simpl in IH. apply IH.
        -- exact Hmi.
        -- exact Hmv.
        -- lia.
        -- intros k w Hk. apply lookup_app_Some in Hk as [Hk|[_ Hk]]; [eauto|].
           apply list_lookup_singleton_Some in Hk as [_ <-]. split; assumption.
        -- intros k w Hkl Hk. apply lookup_app_Some in Hk as [Hk|[Hge _]]; [eauto|lia].
Qed.

Lemma argmin_spec (a : list spec_float) :
  a <> [] ->
  exists j, np.argmin a = Ok j /\ is_argmin a j /\ (no_nan a -> is_first_argmin a j).
Proof.
  destruct a as [|v0 a]; [congruence|]. intros _. unfold np.argmin.
  destruct (F.isnan v0) eqn:Hnan.
  - exists 0%nat. split; [reflexivity|].
    assert (Harg : is_argmin (v0 :: a) 0).
    { split; [simpl; lia|]. intros k w _. simpl.
      destruct v0; try discriminate. apply SFltb_nan_r. }
    split; [exact Harg|]. intros Hnn.
    rewrite (Hnn 0%nat v0 eq_refl) in Hnan. discriminate.
  - eexists. split; [reflexivity|].
    apply (argmin_scan_spec (v0 :: a) [] v0 0).
    + reflexivity.
    + exact Hnan.
    + simpl; lia.
    + intros k w Hk. rewrite lookup_nil in Hk. discriminate.
    + intros k w Hk. lia.
Qed.


End Argmin.

(* ===================================================================== *)
(** * [_create_lookup_table]: the table in closed form *)
(* ===================================================================== *)

Lemma prange_for_fill {A : Type} (f : nat -> A)
    (body : nat -> list A -> result (list A)) (order : list nat) (init : list A) :
  (forall i out, i ∈ order -> body i out = Ok (<[i := f i]> out)) ->
  prange_for order body init = Ok (foldl (fun out i => <[i := f i]> out) init order).
Proof.
  revert init. induction order as [|i order IH]; intros init Hb; simpl; [reflexivity|].
  rewrite Hb by left. apply IH. intros j out Hj. apply Hb. right. exact Hj.
Qed.

Lemma map_lookup_total_seq {A B : Type} `{Inhabited A} (g : A -> B) (l : list A) :
  (fun j => g (l !!! j)) <$> seq 0 (length l) = g <$> l.
Proof.
  apply list_eq. intros k. rewrite !list_lookup_fmap.
  destruct (decide (k < length l)%nat) as [Hk|Hk].
  - rewrite lookup_seq_lt by exact Hk. simpl.
    destruct (lookup_lt_is_Some_2 l k Hk) as [x Hx].
    rewrite Hx, (list_lookup_total_correct _ _ _ Hx). reflexivity.
  - rewrite (lookup_ge_None_2 l) by lia.
    rewrite (lookup_ge_None_2 (seq 0 (length l))) by (rewrite length_seq; lia).
    reflexivity.
Qed.

Lemma Ok_inj {A : Type} (a b : A) : Ok a = Ok b -> a = b.
Proof. intros Heq. injection Heq as ->. reflexivity. Qed.

Lemma cube_pos : (0 < 256 ^ 3)%nat.
Proof. apply Nat.neq_0_lt_0, Nat.pow_nonzero. discriminate. Qed.

Section LookupTableClosedForm.

Context `{JccNumerics}.

Lemma length_deltaes_of (arr_lab : list lab) (lab1 : lab) :
  length (deltaes_of arr_lab lab1) = length arr_lab.
Proof. unfold deltaes_of. apply length_fmap. Qed.

(** The inner loop computes [deltaes_of], whatever its schedule. *)
Lemma inner_loop_deltaes (order : list nat) (arr_lab : list lab) (lab1 : lab) :
  order ≡ₚ seq 0 (length arr_lab) ->
  foldl (fun deltaes j =>
           <[j := F.to_float32 (delta_e lab1 (arr_lab !!! j))]> deltaes)
        (replicate (length arr_lab) F.zero) order
  = deltaes_of arr_lab lab1.
Proof.
  intros Hperm.
  rewrite (foldl_insert_perm
             (fun j => F.to_float32 (delta_e lab1 (arr_lab !!! j))) order _ _ Hperm).
  apply (map_lookup_total_seq (fun c => F.to_float32 (delta_e lab1 c))).
Qed.

Lemma lookup_table_body_ok (s : schedule) (arr_lab all_lab : list lab)
    (i : nat) (out : list Z) :
  arr_lab <> [] ->
  (forall i, inner s i ≡ₚ seq 0 (length arr_lab)) ->
  lookup_table_body s arr_lab all_lab i out =
  Ok (<[i := table_entry arr_lab (all_lab !!! i)]> out).
Proof.
  intros Hne Hin. unfold lookup_table_body, table_entry.
  rewrite inner_loop_deltaes by apply Hin.
  destruct (argmin_spec (deltaes_of arr_lab (all_lab !!! i))) as (j & -> & _).
  - intros Hnil. apply (f_equal length) in Hnil. rewrite length_deltaes_of in Hnil.
    destruct arr_lab; [congruence|discriminate].
  - reflexivity.
Qed.

(** The table built under any valid schedule. *)
Lemma create_lookup_table_with_eq (s : schedule) (arr_lab all_lab : list lab) :
  arr_lab <> [] ->
  valid_schedule (length arr_lab) s ->
  _create_lookup_table_with s arr_lab all_lab =
  Ok ((fun i => table_entry arr_lab (all_lab !!! i)) <$> seq 0 (256 ^ 3)).
Proof.
  intros Hne [Hout Hin]. unfold _create_lookup_table_with.
  rewrite (prange_for_fill (fun i => table_entry arr_lab (all_lab !!! i))).
  - f_equal. apply foldl_insert_perm, Hout.
  - intros i out _. apply lookup_table_body_ok; assumption.
Qed.

Lemma sequential_valid (n : nat) : valid_schedule n (sequential n).
Proof. split; [|intros i]; reflexivity. Qed.

Lemma reversed_valid (n : nat) : valid_schedule n (reversed n).
Proof.
  split; [|intros i]; unfold reversed; cbn [outer inner];
    apply Permutation_sym, Permutation_rev.
Qed.

Lemma create_lookup_table_eq (arr_lab all_lab : list lab) :
  arr_lab <> [] ->
  _create_lookup_table arr_lab all_lab =
  Ok ((fun i => table_entry arr_lab (all_lab !!! i)) <$> seq 0 (256 ^ 3)).
Proof.
  intros Hne. apply create_lookup_table_with_eq; [exact Hne | apply sequential_valid].
Qed.

(** An empty palette: the first iteration raises. *)
Lemma create_lookup_table_empty (all_lab : list lab) :
  _create_lookup_table [] all_lab =
  Raise (ValueError "attempt to get argmin of an empty sequence").
Proof.
  unfold _create_lookup_table, _create_lookup_table_with.
  apply prange_for_raise.
  - unfold sequential; cbn [outer]. intros Hnil.
    apply (f_equal length) in Hnil. rewrite length_seq in Hnil.
    pose proof cube_pos as Hpos. rewrite Hnil in Hpos. inversion Hpos.
  - intros i s'. reflexivity.
Qed.

(** The slot of a colour of the cube. *)
Lemma lookup_created_table (table : list Z) (arr_lab all_lab : list lab) (i : nat) :
  _create_lookup_table arr_lab all_lab = Ok table ->
  (i < 256 ^ 3)%nat ->
  table !! i = Some (table_entry arr_lab (all_lab !!! i)).
Proof.
  intros Htab Hi. destruct arr_lab as [|c arr_lab].
  - rewrite create_lookup_table_empty in Htab. discriminate.
  - rewrite create_lookup_table_eq in Htab by discriminate.
    apply Ok_inj in Htab. subst table. rewrite list_lookup_fmap, lookup_seq_lt by exact Hi.
    reflexivity.
Qed.

Lemma lookup_create_lab_array (r g b : Z) :
  0 <= r < 256 -> 0 <= g < 256 -> 0 <= b < 256 ->
  __create_lab_array !!! Z.to_nat (r * 65536 + g * 256 + b) = rgb_to_lab_ r g b.
Proof.
  intros Hr Hg Hb. apply list_lookup_total_correct.
  unfold __create_lab_array, rgb_to_lab.
  rewrite list_lookup_fmap, lookup_get_all_rgbs by assumption. reflexivity.
Qed.

End LookupTableClosedForm.

(** From here on the two big arrays are used through the lemmas above only. *)
#[global] Opaque _get_all_rgbs __create_lab_array.

(* ===================================================================== *)
(** * The lookup table: scheduling, range of the entries, nearest colour *)
(* ===================================================================== *)

Section LookupTableTheorems.

Context `{JccNumerics}.

Lemma valid_schedule_outer_nonempty (n : nat) (s : schedule) :
  valid_schedule n s -> outer s <> [].
Proof.
  intros [Hout _] Hnil.
  assert (Hlen : length (outer s) = (256 ^ 3)%nat)
    by (rewrite Hout; apply length_seq).
  rewrite Hnil in Hlen. cbn [length] in Hlen.
  pose proof cube_pos as Hpos. rewrite <- Hlen in Hpos. inversion Hpos.
Qed.

Lemma create_lookup_table_with_empty (s : schedule) (all_lab : list lab) :
  valid_schedule 0 s ->
  _create_lookup_table_with s [] all_lab =
  Raise (ValueError "attempt to get argmin of an empty sequence").
Proof.
  intros Hs. unfold _create_lookup_table_with.
  apply prange_for_raise.
  - eapply valid_schedule_outer_nonempty, Hs.
  - intros i out. unfold lookup_table_body.
    destruct Hs as [_ Hin]. specialize (Hin i). cbn [seq] in Hin.
    apply Permutation_nil_r in Hin. rewrite Hin. reflexivity.
Qed.

(** C4: building the table for the same palette under two schedules of the
    parallel loops (any order of the iterations over the colour cube, any
    order of the iterations over the palette) gives the same result, and a
    slot of the table depends only on its own row of [all_lab] and on the
    palette: two inputs that agree on row [i] give tables that agree on
    slot [i]. *)
Theorem C4_schedule_independent (s1 s2 : schedule) (arr_lab all_lab : list lab) :
  valid_schedule (length arr_lab) s1 ->
  valid_schedule (length arr_lab) s2 ->
  _create_lookup_table_with s1 arr_lab all_lab =
  _create_lookup_table_with s2 arr_lab all_lab /\
  forall (all_lab' : list lab) (t t' : list Z) (i : nat),
    _create_lookup_table_with s1 arr_lab all_lab = Ok t ->
    _create_lookup_table_with s2 arr_lab all_lab' = Ok t' ->
    all_lab !!! i = all_lab' !!! i ->
    t !! i = t' !! i.
Proof.
  intros Hs1 Hs2. destruct arr_lab as [|c arr_lab].
  - rewrite !create_lookup_table_with_empty by assumption.
    split; [reflexivity|]. intros all_lab' t t' i Ht. discriminate.
  - rewrite !create_lookup_table_with_eq by (assumption || discriminate).
    split; [reflexivity|]. intros all_lab' t t' i Ht Ht' Hrow.
    rewrite create_lookup_table_with_eq in Ht' by (assumption || discriminate).
    apply Ok_inj in Ht, Ht'. subst t t'.
    rewrite !list_lookup_fmap.
    destruct (decide (i < 256 ^ 3)%nat) as [Hi|Hi].
    + rewrite lookup_seq_lt by exact Hi. simpl. do 2 f_equal. exact Hrow.
    + rewrite lookup_seq_ge by lia. reflexivity.
Qed.

Lemma table_entry_lt (arr_lab : list lab) (lab1 : lab) :
  arr_lab <> [] ->
  0 <= table_entry arr_lab lab1 < Z.of_nat (length arr_lab).
Proof.
  intros Hne. unfold table_entry.
  destruct (argmin_spec (deltaes_of arr_lab lab1)) as (j & -> & [Hj _] & _).
  - intros Hnil. apply (f_equal length) in Hnil. rewrite length_deltaes_of in Hnil.
    destruct arr_lab; [congruence|discriminate].
  - rewrite length_deltaes_of in Hj. unfold np.to_uint16.
    pose proof (Z.mod_pos_bound (Z.of_nat j) 65536 ltac:(lia)) as Hm.
    pose proof (Z.mod_le (Z.of_nat j) 65536 ltac:(lia) ltac:(lia)). lia.
Qed.




End LookupTableTheorems.

(** The schedules [sequential] and [reversed] build the same table for a
    palette of two colours. *)
Lemma C4_schedule_independent_witness :
  let arr_lab : list lab := [(F.of_Z 255, F.zero, F.zero); (F.zero, F.zero, F.of_Z 255)] in
  @_create_lookup_table_with sample_numerics (sequential 2) arr_lab [] =
  @_create_lookup_table_with sample_numerics (reversed 2) arr_lab [].
Proof.
  intros arr_lab.
  apply (@C4_schedule_independent sample_numerics (sequential 2) (reversed 2) arr_lab []).
  - apply sequential_valid.
  - apply reversed_valid.
Defined.

Section NearestColour.

Context `{JccNumerics}.

Lemma rgb_to_lab_nonempty (rgbs : list rgb) : rgbs <> [] -> rgb_to_lab rgbs <> [].
Proof. destruct rgbs; [congruence|discriminate]. Qed.

Lemma length_rgb_to_lab (rgbs : list rgb) : length (rgb_to_lab rgbs) = length rgbs.
Proof. unfold rgb_to_lab. apply length_fmap. Qed.

Lemma lookup_deltaes_rgb (rgbs : list rgb) (q : rgb) (k : nat) :
  deltaes_of (rgb_to_lab rgbs) (rgb_to_lab_ q.1.1 q.1.2 q.2) !! k =
  distance32 q <$> rgbs !! k.
Proof.
  unfold deltaes_of, rgb_to_lab. rewrite !list_lookup_fmap.
  destruct (rgbs !! k); reflexivity.
Qed.




(** The slot of colour [(r, g, b)] in the table built by [Palette.build]. *)
Lemma built_table_slot (rgbs : list rgb) (r g b : Z) :
  rgbs <> [] ->
  0 <= r < 256 -> 0 <= g < 256 -> 0 <= b < 256 ->
  exists table,
    _create_lookup_table (rgb_to_lab rgbs) __create_lab_array = Ok table /\
    length table = (256 ^ 3)%nat /\
    table !! linear_index r g b =
    Some (table_entry (rgb_to_lab rgbs) (rgb_to_lab_ r g b)).
Proof.
  intros Hne Hr Hg Hb. eexists. split; [|split].
  - apply create_lookup_table_eq, rgb_to_lab_nonempty, Hne.
  - rewrite length_fmap, length_seq. reflexivity.
  - unfold linear_index.
    rewrite list_lookup_fmap, lookup_seq_lt by (apply linear_index_lt; assumption).
    simpl. rewrite lookup_create_lab_array by assumption. reflexivity.
Qed.

End NearestColour.



(* ===================================================================== *)
(** * Integer indexing *)
(* ===================================================================== *)

Section Indexing.

Lemma mapM_result_ok {A B} (f : A -> result B) (P : B -> Prop) (l : list A) :
  (forall x, x ∈ l -> exists y, f x = Ok y /\ P y) ->
  exists ys, mapM_result f l = Ok ys /\ Forall P ys /\ length ys = length l.
Proof.
  induction l as [|x l IH]; intros Hf.
  - exists []. repeat split; constructor.
  - destruct (Hf x) as (y & Hy & HP); [left|].
    destruct IH as (ys & Hys & HPs & Hlen); [intros z Hz; apply Hf; right; exact Hz|].
    exists (y :: ys). simpl. rewrite Hy, Hys.
    split; [reflexivity|]. split; [constructor; assumption | simpl; congruence].
Qed.

Lemma mapM_result_length {A B} (f : A -> result B) (l : list A) (ys : list B) :
  mapM_result f l = Ok ys -> length ys = length l.
Proof.
  revert ys. induction l as [|x l IH]; intros ys; simpl.
  - intros Hok. apply Ok_inj in Hok. subst ys. reflexivity.
  - destruct (f x) as [y|e]; [|discriminate].
    destruct (mapM_result f l) as [ys'|e]; [|discriminate].
    intros Hok. apply Ok_inj in Hok. subst ys. simpl. f_equal. apply IH. reflexivity.
Qed.

Lemma np_getitem_in_range {A} `{Inhabited A} (a : list A) (i : Z) :
  0 <= i < Z.of_nat (length a) -> np_getitem a i = Ok (a !!! Z.to_nat i).
Proof.
  intros Hi. unfold np_getitem.
  destruct (Z.leb_spec 0 i); [|lia]. destruct (Z.ltb_spec i (Z.of_nat (length a))); [|lia].
  reflexivity.
Qed.

Lemma take1_ok {A} `{Inhabited A} (P : A -> Prop) (a : list A) (idx : ndarray Z) :
  Forall P a ->
  Forall (fun i => 0 <= i < Z.of_nat (length a)) (data idx) ->
  exists out, take1 a idx = Ok out /\ shape out = shape idx /\
              length (data out) = length (data idx) /\ Forall P (data out).
Proof.
  intros HP Hidx. unfold take1.
  destruct (mapM_result_ok (np_getitem a) P (data idx)) as (xs & -> & HPs & Hlen).
  - intros i Hi. rewrite Forall_forall in Hidx. specialize (Hidx i Hi).
    exists (a !!! Z.to_nat i). split; [apply np_getitem_in_range; exact Hidx|].
    rewrite Forall_lookup in HP. apply (HP (Z.to_nat i)).
    apply list_lookup_lookup_total_lt. lia.
  - eexists. repeat split; simpl; assumption.
Qed.

Lemma length_flat_rows (rows : list rgb) :
  length (flat_map (fun c : rgb => [c.1.1; c.1.2; c.2]) rows) = (length rows * 3)%nat.
Proof. apply length_flat_map_const. reflexivity. Qed.

Lemma take_rows_ok (a : list rgb) (idx : ndarray Z) :
  Forall (fun i => 0 <= i < Z.of_nat (length a)) (data idx) ->
  exists out, take_rows a idx = Ok out /\ shape out = shape idx ++ [3%nat] /\
              length (data out) = (length (data idx) * 3)%nat.
Proof.
  intros Hidx. unfold take_rows.
  destruct (mapM_result_ok (np_getitem a) (fun _ => True) (data idx)) as (xs & -> & _ & Hlen).
  - intros i Hi. rewrite Forall_forall in Hidx. specialize (Hidx i Hi).
    eexists. split; [apply np_getitem_in_range; exact Hidx | exact I].
  - eexists. repeat split. simpl. rewrite length_flat_rows, Hlen. reflexivity.
Qed.

(** The triplets of a list, three channels at a time. *)
Lemma triplets_spec (P : Z -> Prop) (n : nat) (l : list Z) :
  (length l <= n)%nat -> Forall P l ->
  Forall (fun c : rgb => P c.1.1 /\ P c.1.2 /\ P c.2) (triplets l) /\
  length (triplets l) = (length l / 3)%nat.
Proof.
  revert l. induction n as [|n IH]; intros l Hlen HP.
  - destruct l; [|simpl in Hlen; lia]. split; [constructor|reflexivity].
  - destruct l as [|r [|g [|b l]]]; try (split; [constructor|reflexivity]).
    inversion HP as [|? ? Hr HP1]; subst. inversion HP1 as [|? ? Hg HP2]; subst.
    inversion HP2 as [|? ? Hb HP3]; subst.
    destruct (IH l) as [IH1 IH2]; [simpl in Hlen; lia | exact HP3 |].
    split.
    + simpl. constructor; [simpl; auto | exact IH1].
    + cbn [triplets length]. rewrite IH2.
      change (S (S (S (length l)))) with (3 + length l)%nat.
      replace (3 + length l)%nat with (1 * 3 + length l)%nat by lia.
      rewrite Nat.div_add_l by lia. lia.
Qed.

Lemma rgb_to_ind_range (arr : ndarray Z) :
  Forall (fun c => 0 <= c < 256) (data arr) ->
  Forall (fun i => 0 <= i < 16777216) (data (rgb_to_ind arr)).
Proof.
  intros Hc. unfold rgb_to_ind. simpl. apply Forall_fmap.
  destruct (triplets_spec _ (length (data arr)) (data arr) (le_n _) Hc) as [Ht _].
  eapply Forall_impl; [exact Ht|]. intros [[r g] b]. unfold rgb_to_ind_, compose. simpl. lia.
Qed.

Lemma cube_Z : Z.of_nat (256 ^ 3) = 16777216.
Proof. rewrite Nat2Z.inj_pow. reflexivity. Qed.

End Indexing.

Section TableEntriesValid.

Context `{JccNumerics}.

(** C9: for every palette with at least one colour, every entry of the
    table returned by [_create_lookup_table] is smaller than the number of
    palette colours, so that [self.rgbs[self.lookup_table[rgb_to_ind(arr)]]],
    the expression of [Palette.convert_to_rgbs], never indexes out of range
    on an image [arr]. *)
Theorem C9_entries_index_the_palette (rgbs : list rgb) (all_lab : list lab) :
  rgbs <> [] ->
  exists table : list Z,
    _create_lookup_table (rgb_to_lab rgbs) all_lab = Ok table /\
    Forall (fun e => 0 <= e < Z.of_nat (length rgbs)) table /\
    forall arr : ndarray Z, is_image arr ->
      exists indices out : ndarray Z,
        take1 table (rgb_to_ind arr) = Ok indices /\
        take_rows rgbs indices = Ok out.
Proof.
  intros Hne.
  pose proof (create_lookup_table_eq (rgb_to_lab rgbs) all_lab
                (rgb_to_lab_nonempty rgbs Hne)) as Htab.
  eexists. split; [exact Htab|].
  assert (Hall : Forall (fun e => 0 <= e < Z.of_nat (length rgbs))
            ((fun i => table_entry (rgb_to_lab rgbs) (all_lab !!! i)) <$> seq 0 (256 ^ 3))).
  { apply Forall_fmap, Forall_forall. intros i _. unfold compose.
    rewrite <- (length_rgb_to_lab rgbs).
    exact (table_entry_lt (rgb_to_lab rgbs) (all_lab !!! i) (rgb_to_lab_nonempty rgbs Hne)). }
  split; [exact Hall|].
  intros arr (_ & _ & Hchan).
  destruct (take1_ok (fun e => 0 <= e < Z.of_nat (length rgbs)) _ (rgb_to_ind arr) Hall)
    as (indices & Hind & _ & _ & Hrange).
  { rewrite length_fmap, length_seq, cube_Z. apply rgb_to_ind_range, Hchan. }
  destruct (take_rows_ok rgbs indices Hrange) as (out & Hout & _).
  exists indices, out. split; assumption.
Qed.

End TableEntriesValid.

(** A palette of pure red and pure blue. *)
Lemma C9_entries_index_the_palette_witness :
  let rgbs : list rgb := [(255, 0, 0); (0, 0, 255)] in
  exists table : list Z,
    @_create_lookup_table sample_numerics (@rgb_to_lab sample_numerics rgbs)
      (@__create_lab_array sample_numerics) = Ok table /\
    Forall (fun e => 0 <= e < Z.of_nat (length rgbs)) table /\
    forall arr : ndarray Z, is_image arr ->
      exists indices out : ndarray Z,
        take1 table (rgb_to_ind arr) = Ok indices /\
        take_rows rgbs indices = Ok out.
Proof.
  intros rgbs.
  apply (@C9_entries_index_the_palette sample_numerics rgbs (@__create_lab_array sample_numerics)).
  discriminate.
Defined.

(* ===================================================================== *)
(** * The cached properties of a Palette object *)
(* ===================================================================== *)

Section CachedProperties.

Implicit Types (w : World) (self : nat) (o : Palette).

Lemma lookup_table_memoized w self o (t : list Z) :
  objects w !! self = Some o -> memo_lookup_table o = Some t ->
  Palette_lookup_table self w = (Ok t, w).
Proof.
  intros Ho Hm. unfold Palette_lookup_table, bind, self_obj. rewrite Ho, Hm. reflexivity.
Qed.

Lemma lookup_table_not_built w self o :
  objects w !! self = Some o -> memo_lookup_table o = None ->
  files w !! cached_data_path o = None ->
  Palette_lookup_table self w = (Raise (FileNotFoundError not_built_message), w).
Proof.
  intros Ho Hm Hf. unfold Palette_lookup_table, bind, self_obj, get_files.
  rewrite Ho, Hm, Hf. reflexivity.
Qed.

Lemma lookup_table_loaded w self o (t : list Z) :
  objects w !! self = Some o -> memo_lookup_table o = None ->
  files w !! cached_data_path o = Some (NpyFile t) ->
  Palette_lookup_table self w =
  (Ok t, with_objects w (<[self := with_lookup_table o (Some t)]> (objects w))).
Proof.
  intros Ho Hm Hf. unfold Palette_lookup_table, bind, self_obj, get_files.
  rewrite Ho, Hm, Hf. reflexivity.
Qed.

(** What [Palette.data] leaves unchanged: the files, and the paths and the
    cached lookup table of every object. *)
Definition same_tables (w w' : World) : Prop :=
  files w' = files w /\ lab_npy w' = lab_npy w /\
  forall p o, objects w !! p = Some o ->
    exists o', objects w' !! p = Some o' /\
               data_path o' = data_path o /\
               cached_data_path o' = cached_data_path o /\
               memo_lookup_table o' = memo_lookup_table o.

Lemma same_tables_refl w : same_tables w w.
Proof. repeat split. intros p o Ho. exists o. auto. Qed.

Lemma Palette_data_same_tables w self :
  same_tables w (Palette_data self w).2.
Proof.
  cbv [Palette_data bind self_obj open_text get_files lift ret raise set_obj].
  destruct (objects w !! self) as [o|] eqn:Ho; [|apply same_tables_refl].
  destruct (memo_data o); [apply same_tables_refl|].
  destruct (files w !! data_path o) as [[lines|a]|]; try apply same_tables_refl.
  destruct (load_rows lines) as [d|e]; [|apply same_tables_refl].
  repeat split. intros p o' Hp. simpl.
  destruct (decide (p = self)) as [->|Hne].
  - rewrite lookup_insert_eq. rewrite Ho in Hp. injection Hp as <-.
    eexists. split; [reflexivity|]. auto.
  - rewrite lookup_insert_ne by congruence. exists o'. auto.
Qed.

Lemma Palette_rgbs_same_tables w self :
  same_tables w (Palette_rgbs self w).2.
Proof.
  cbv [Palette_rgbs bind ret].
  pose proof (Palette_data_same_tables w self) as Hs.
  destruct (Palette_data self w) as [[d|e] w']; exact Hs.
Qed.

End CachedProperties.

(* ===================================================================== *)
(** * [Palette.build] writes the table next to the palette file *)
(* ===================================================================== *)

Section Build.

Context `{JccNumerics}.

Implicit Types (w : World) (self : nat) (o : Palette).

(** The LAB array [_load_lab_array] returns: the file [data/lab.npy] when it
    exists, the array of [__create_lab_array] otherwise. *)
Lemma load_lab_array_spec w :
  exists w',
    _load_lab_array w = (Ok (default __create_lab_array (lab_npy w)), w') /\
    files w' = files w /\ objects w' = objects w.
Proof.
  unfold _load_lab_array. destruct (lab_npy w) as [a|]; eexists; repeat split.
Qed.

(** For a palette whose data load and have at least one colour, [build]
    succeeds and leaves the table of [_create_lookup_table] in the cache
    file; an object that has not accessed its lookup table before reads it
    from there. *)
Lemma Palette_build_spec w self o (rgbs : list rgb) w1 :
  objects w !! self = Some o ->
  Palette_rgbs self w = (Ok rgbs, w1) ->
  rgbs <> [] ->
  exists table w2,
    _create_lookup_table (rgb_to_lab rgbs) (default __create_lab_array (lab_npy w)) = Ok table /\
    Palette_build self w = (Ok tt, w2) /\
    files w2 = <[cached_data_path o := NpyFile table]> (files w) /\
    (memo_lookup_table o = None -> (Palette_lookup_table self w2).1 = Ok table).
Proof.
  intros Ho Hrgbs Hne.
  pose proof (Palette_rgbs_same_tables w self) as (Hfiles & Hlab & Hobjs).
  rewrite Hrgbs in Hfiles, Hlab, Hobjs. simpl in Hfiles, Hlab, Hobjs.
  destruct (Hobjs self o Ho) as (o1 & Ho1 & _ & Hc & Hm1).
  destruct (load_lab_array_spec w1) as (w1' & Hload & Hfiles' & Hobjs').
  pose proof (create_lookup_table_eq (rgb_to_lab rgbs)
                (default __create_lab_array (lab_npy w))
                (rgb_to_lab_nonempty rgbs Hne)) as Htab.
  eexists _, _. split; [exact Htab|]. split; [|split].
  - cbv [Palette_build bind lift]. rewrite Hrgbs, Hload, Hlab, Htab.
    cbv [self_obj]. rewrite Hobjs', Ho1. reflexivity.
  - cbn [files np_save write_file snd]. rewrite Hfiles', Hfiles, Hc. reflexivity.
  - intros Hm. erewrite lookup_table_loaded; [reflexivity | | |].
    + cbn [objects]. rewrite Hobjs'. exact Ho1.
    + congruence.
    + cbn [files]. rewrite Hc. apply lookup_insert_eq.
Qed.

End Build.

(* ===================================================================== *)
(** * The entry of a colour is the index of a nearest palette colour *)
(* ===================================================================== *)

Section NearestColourTheorems.

Context `{JccNumerics}.



End NearestColourTheorems.


Section Over16Bits.

Let black : rgb := (0, 0, 0).









End Over16Bits.




(* ===================================================================== *)
(** * No lazy build; the cache file is served as it is *)
(* ===================================================================== *)

Section LookupTableLifecycle.

Context `{JccNumerics}.

Implicit Types (w : World) (self : nat) (o : Palette).

Lemma get_palette_pure (palette : palette_arg) w :
  (_get_palette palette w).2 = w.
Proof.
  destruct palette as [name|p]; simpl; [|reflexivity].
  destruct (_PALETTES !! name); reflexivity.
Qed.

Lemma convert_to_indices_not_built w self o (arr : ndarray Z) :
  objects w !! self = Some o -> memo_lookup_table o = None ->
  files w !! cached_data_path o = None ->
  Palette_convert_to_indices self arr w =
  (Raise (FileNotFoundError not_built_message), w).
Proof.
  intros Ho Hm Hf. unfold Palette_convert_to_indices, bind.
  rewrite (lookup_table_not_built w self o Ho Hm Hf). reflexivity.
Qed.

Lemma convert_to_rgbs_not_built w self o (arr : ndarray Z) (rgbs : list rgb) w1 :
  objects w !! self = Some o -> memo_lookup_table o = None ->
  files w !! cached_data_path o = None ->
  Palette_rgbs self w = (Ok rgbs, w1) ->
  Palette_convert_to_rgbs self arr w =
  (Raise (FileNotFoundError not_built_message), w1) /\ files w1 = files w.
Proof.
  intros Ho Hm Hf Hrgbs.
  pose proof (Palette_rgbs_same_tables w self) as (Hfiles & _ & Hobjs).
  rewrite Hrgbs in Hfiles, Hobjs. simpl in Hfiles, Hobjs.
  destruct (Hobjs self o Ho) as (o1 & Ho1 & _ & Hc & Hm1).
  unfold Palette_convert_to_rgbs, bind. rewrite Hrgbs.
  rewrite (convert_to_indices_not_built w1 self o1 arr Ho1); [auto | congruence | congruence].
Qed.

(** C3 (amended): when the lookup table of a palette has not been built --
    no cache file, nothing memoized in the object -- quantization does not
    invoke the builder: [Palette.convert_to_indices] fails with
    [FileNotFoundError] and changes nothing, and, for a palette whose data
    load, [Palette.convert_to_rgbs] and [quantize_with_palette] fail with
    the same error and leave the file system as it was, so that no table is
    persisted.  The table is built by an explicit call of [Palette.build],
    which, for a palette with at least one colour, writes the cache file;
    the lookup table is served from then on. *)
Theorem C3_no_lazy_build w self o (arr : ndarray Z) (rgbs : list rgb) w1
    (palette : palette_arg) :
  objects w !! self = Some o ->
  memo_lookup_table o = None ->
  files w !! cached_data_path o = None ->
  Palette_rgbs self w = (Ok rgbs, w1) ->
  (_get_palette palette w).1 = Ok self ->
  Palette_convert_to_indices self arr w =
    (Raise (FileNotFoundError not_built_message), w) /\
  Palette_convert_to_rgbs self arr w =
    (Raise (FileNotFoundError not_built_message), w1) /\
  quantize_with_palette arr palette w =
    (Raise (FileNotFoundError not_built_message), w1) /\
  files w1 = files w /\
  files w1 !! cached_data_path o = None /\
  (rgbs <> [] ->
   exists table w2,
     Palette_build self w = (Ok tt, w2) /\
     files w2 !! cached_data_path o = Some (NpyFile table) /\
     (Palette_lookup_table self w2).1 = Ok table).
Proof.
  intros Ho Hm Hf Hrgbs Hpal.
  destruct (convert_to_rgbs_not_built w self o arr rgbs w1 Ho Hm Hf Hrgbs) as [Hc Hfs].
  split; [exact (convert_to_indices_not_built w self o arr Ho Hm Hf)|].
  split; [exact Hc|].
  split; [|split; [exact Hfs | split; [rewrite Hfs; exact Hf|]]].
  - unfold quantize_with_palette, bind.
    pose proof (get_palette_pure palette w) as Hpure.
    destruct (_get_palette palette w) as [[p|e] w']; simpl in Hpal, Hpure; [|discriminate].
    injection Hpal as ->. subst w'. exact Hc.
  - intros Hne.
    destruct (Palette_build_spec w self o rgbs w1 Ho Hrgbs Hne)
      as (table & w2 & _ & Hbuild & Hfiles & Hserved).
    exists table, w2. split; [exact Hbuild|].
    split; [rewrite Hfiles; apply lookup_insert_eq | exact (Hserved Hm)].
Qed.

(** C8 (amended): on the first access by a Palette object (nothing memoized
    yet), whenever the cache file exists [Palette.lookup_table] returns the
    contents of that file, writes no file and reads no palette data: when
    the palette file is replaced by other colours and the cache path is
    unchanged, the same stale table is served.  The table is then memoized
    in the object: every later access returns it without looking at the
    file system, whether or not the cache artifact is still there. *)
Theorem C8_cache_file_served w self o (t : list Z) :
  objects w !! self = Some o ->
  memo_lookup_table o = None ->
  files w !! cached_data_path o = Some (NpyFile t) ->
  Palette_lookup_table self w =
    (Ok t, with_objects w (<[self := with_lookup_table o (Some t)]> (objects w))) /\
  (forall lines' : list string,
     data_path o <> cached_data_path o ->
     (Palette_lookup_table self (write_file (data_path o) (TextFile lines') w).2).1 = Ok t) /\
  forall w2, objects w2 !! self = Some (with_lookup_table o (Some t)) ->
    Palette_lookup_table self w2 = (Ok t, w2).
Proof.
  intros Ho Hm Hf. split; [exact (lookup_table_loaded w self o t Ho Hm Hf)|]. split.
  - intros lines' Hne.
    erewrite (lookup_table_loaded _ self o t); [reflexivity | exact Ho | exact Hm |].
    cbn [write_file files snd]. rewrite lookup_insert_ne by exact Hne. exact Hf.
  - intros w2 Ho2. exact (lookup_table_memoized w2 self _ t Ho2 eq_refl).
Qed.

End LookupTableLifecycle.

(** The palette file is in place, no table has been built: quantizing a
    pixel by the palette name fails and creates no cache file. *)
Lemma C3_counterexample :
  (quantize_with_palette reddish (ByName "x11") fresh_world).1 =
    Raise (FileNotFoundError not_built_message) /\
  files (quantize_with_palette reddish (ByName "x11") fresh_world).2
    !! (package_dir +:+ "/data/x11.npy") = None.
Proof. split; vm_compute; reflexivity. Qed.

Lemma C3_no_lazy_build_witness :
  Palette_convert_to_indices x11 reddish fresh_world =
    (Raise (FileNotFoundError not_built_message), fresh_world) /\
  Palette_convert_to_rgbs x11 reddish fresh_world =
    (Raise (FileNotFoundError not_built_message), (Palette_rgbs x11 fresh_world).2) /\
  quantize_with_palette reddish (ByName "x11") fresh_world =
    (Raise (FileNotFoundError not_built_message), (Palette_rgbs x11 fresh_world).2) /\
  files (Palette_rgbs x11 fresh_world).2 = files fresh_world /\
  files (Palette_rgbs x11 fresh_world).2 !! (package_dir +:+ "/data/x11.npy") = None /\
  ([(255, 0, 0); (0, 0, 255)] <> [] ->
   exists table w2,
     @Palette_build sample_numerics x11 fresh_world = (Ok tt, w2) /\
     files w2 !! (package_dir +:+ "/data/x11.npy") = Some (NpyFile table) /\
     (Palette_lookup_table x11 w2).1 = Ok table).
Proof.
  apply (@C3_no_lazy_build sample_numerics fresh_world x11
           {| data_path := x11_path;
              cached_data_path := package_dir +:+ "/data/x11.npy";
              memo_lookup_table := None; memo_data := None |}
           reddish [(255, 0, 0); (0, 0, 255)] _ (ByName "x11")).
  - reflexivity.
  - reflexivity.
  - vm_compute. reflexivity.
  - vm_compute. reflexivity.
  - reflexivity.
Defined.

(** A first access loads the cache file; the file is then replaced, as by
    the build of another Palette object on the same path, or deleted: the
    object still serves the table it loaded first. *)
Lemma C8_counterexample :
  let cache := package_dir +:+ "/data/x11.npy" in
  let w1 := (Palette_lookup_table x11 cached_world).2 in
  let w2 := (np_save cache [0; 1] w1).2 in
  let w3 := (remove_file cache w1).2 in
  (Palette_lookup_table x11 cached_world).1 = Ok [1; 0] /\
  files w2 !! cache = Some (NpyFile [0; 1]) /\
  (Palette_lookup_table x11 w2).1 = Ok [1; 0] /\
  files w3 !! cache = None /\
  (Palette_lookup_table x11 w3).1 = Ok [1; 0].
Proof. repeat split; vm_compute; reflexivity. Qed.

Lemma C8_cache_file_served_witness :
  let o := {| data_path := x11_path;
              cached_data_path := package_dir +:+ "/data/x11.npy";
              memo_lookup_table := None; memo_data := None |} in
  Palette_lookup_table x11 cached_world =
    (Ok [1; 0],
     with_objects cached_world
       (<[x11 := with_lookup_table o (Some [1; 0])]> (objects cached_world))) /\
  (forall lines' : list string,
     data_path o <> cached_data_path o ->
     (Palette_lookup_table x11
        (write_file (data_path o) (TextFile lines') cached_world).2).1 = Ok [1; 0]) /\
  forall w2, objects w2 !! x11 = Some (with_lookup_table o (Some [1; 0])) ->
    Palette_lookup_table x11 w2 = (Ok [1; 0], w2).
Proof.
  intros o. apply (C8_cache_file_served cached_world x11 o [1; 0]).
  - reflexivity.
  - reflexivity.
  - vm_compute. reflexivity.
Defined.

(* ===================================================================== *)
(** * Quantization keeps the shape of the image *)
(* ===================================================================== *)

Section Shape.

Lemma size_of_app (s1 s2 : list nat) :
  size_of (s1 ++ s2) = (size_of s1 * size_of s2)%nat.
Proof.
  unfold size_of. induction s1 as [|n s1 IH]; simpl; [lia|]. rewrite IH. lia.
Qed.

Lemma removelast_last {A} (l : list A) (x : A) :
  last l = Some x -> removelast l ++ [x] = l.
Proof.
  intros Hl. destruct (decide (l = [])) as [->|Hne]; [discriminate|].
  rewrite (app_removelast_last x Hne) at 2. f_equal. f_equal.
  clear Hne. induction l as [|y l IH]; [discriminate|].
  destruct l as [|z l]; [simpl in *; congruence|]. apply IH. exact Hl.
Qed.

Lemma take1_shape {A} `{Inhabited A} (a : list A) (out : ndarray A)
    (i : ndarray Z) :
  take1 a i = Ok out -> shape out = shape i /\ length (data out) = length (data i).
Proof.
  unfold take1. destruct (mapM_result (np_getitem a) (data i)) as [xs|e] eqn:Hxs;
    [|discriminate].
  intros Hok. apply Ok_inj in Hok. subst out. simpl.
  split; [reflexivity | exact (mapM_result_length _ _ _ Hxs)].
Qed.

Lemma take_rows_shape (a : list rgb) (i out : ndarray Z) :
  take_rows a i = Ok out ->
  shape out = shape i ++ [3%nat] /\ length (data out) = (length (data i) * 3)%nat.
Proof.
  unfold take_rows. destruct (mapM_result (np_getitem a) (data i)) as [xs|e] eqn:Hxs;
    [|discriminate].
  intros Hok. apply Ok_inj in Hok. subst out. simpl.
  split; [reflexivity|]. rewrite length_flat_rows, (mapM_result_length _ _ _ Hxs).
  reflexivity.
Qed.

Lemma rgb_to_ind_shape (arr : ndarray Z) :
  has_trailing_3 arr ->
  shape (rgb_to_ind arr) ++ [3%nat] = shape arr /\
  (length (data (rgb_to_ind arr)) * 3)%nat = size_of (shape arr).
Proof.
  intros [Hwf Hlast]. unfold rgb_to_ind. simpl.
  pose proof (removelast_last _ _ Hlast) as Hsh. split; [exact Hsh|].
  rewrite length_fmap.
  destruct (triplets_spec (fun _ => True) _ (data arr) (le_n _)) as [_ ->].
  { apply Forall_forall. auto. }
  unfold wf_array in Hwf. rewrite Hwf, <- Hsh, size_of_app.
  change (size_of [3%nat]) with 3%nat. rewrite Nat.div_mul by lia. reflexivity.
Qed.

Lemma convert_to_rgbs_shape w self (arr out : ndarray Z) w' :
  has_trailing_3 arr ->
  Palette_convert_to_rgbs self arr w = (Ok out, w') ->
  shape out = shape arr /\ wf_array out.
Proof.
  intros Harr. cbv [Palette_convert_to_rgbs Palette_convert_to_indices bind lift].
  destruct (Palette_rgbs self w) as [[rgbs|e] w1]; [|discriminate].
  destruct (Palette_lookup_table self w1) as [[t|e] w2]; [|discriminate].
  destruct (take1 t (rgb_to_ind arr)) as [indices|e] eqn:Hind; [|discriminate].
  destruct (take_rows rgbs indices) as [out'|e] eqn:Hout; [|discriminate].
  intros Heq. injection Heq as -> _.
  destruct (take1_shape t indices (rgb_to_ind arr) Hind) as [Hs1 Hl1].
  destruct (take_rows_shape rgbs indices out Hout) as [Hs2 Hl2].
  destruct (rgb_to_ind_shape arr Harr) as [Hs3 Hl3].
  split.
  - rewrite Hs2, Hs1. exact Hs3.
  - unfold wf_array. rewrite Hl2, Hl1, Hs2, Hs1, Hs3. exact Hl3.
Qed.

(** C5: for every array of triplets [arr] -- any leading shape, last axis of
    length 3 -- whatever [quantize_with_palette] (that is,
    [Palette.convert_to_rgbs] of the palette) returns has the shape of
    [arr]: shape (H, W, 3) for an image of shape (H, W, 3), a single triplet
    for a single triplet.  And it does return on an image when the palette
    data load and the lookup table is there with an entry for each of the
    [256 ** 3] colours, each entry an index into the palette. *)
Theorem C5_quantization_keeps_shape (arr : ndarray Z) (palette : palette_arg) w :
  has_trailing_3 arr ->
  (forall out w',
     quantize_with_palette arr palette w = (Ok out, w') ->
     shape out = shape arr /\ wf_array out) /\
  (forall self rgbs w1 t w2,
     (_get_palette palette w).1 = Ok self ->
     Palette_rgbs self w = (Ok rgbs, w1) ->
     Palette_lookup_table self w1 = (Ok t, w2) ->
     length t = (256 ^ 3)%nat ->
     Forall (fun e => 0 <= e < Z.of_nat (length rgbs)) t ->
     Forall (fun c => 0 <= c < 256) (data arr) ->
     exists out, quantize_with_palette arr palette w = (Ok out, w2) /\
                 shape out = shape arr).
Proof.
  intros Harr. split.
  - intros out w'. unfold quantize_with_palette, bind.
    pose proof (get_palette_pure palette w) as Hpure.
    destruct (_get_palette palette w) as [[p|e] w0]; [|discriminate].
    simpl in Hpure. subst w0. apply convert_to_rgbs_shape, Harr.
  - intros self rgbs w1 t w2 Hpal Hrgbs Ht Hlen Hentries Hchan.
    destruct (take1_ok (fun e => 0 <= e < Z.of_nat (length rgbs)) t (rgb_to_ind arr) Hentries)
      as (indices & Hind & Hs1 & _ & Hrange).
    { rewrite Hlen, cube_Z. apply rgb_to_ind_range, Hchan. }
    destruct (take_rows_ok rgbs indices Hrange) as (out & Hout & Hs2 & _).
    exists out. split.
    + unfold quantize_with_palette, bind.
      pose proof (get_palette_pure palette w) as Hpure.
      destruct (_get_palette palette w) as [[p|e] w0]; [|discriminate].
      simpl in Hpure, Hpal. subst w0. injection Hpal as ->.
      cbv [Palette_convert_to_rgbs Palette_convert_to_indices bind lift].
      rewrite Hrgbs, Ht, Hind, Hout. reflexivity.
    + rewrite Hs2, Hs1. apply rgb_to_ind_shape, Harr.
Qed.

End Shape.

(** An image of shape (1, 2, 3) quantized by the cached table of two
    entries: the result has shape (1, 2, 3). *)
Lemma C5_quantization_keeps_shape_witness :
  (quantize_with_palette two_pixels (ByName "x11") cached_world).1 =
    Ok (NdArray [1%nat; 2%nat; 3%nat] [0; 0; 255; 255; 0; 0]) /\
  forall out w',
    quantize_with_palette two_pixels (ByName "x11") cached_world = (Ok out, w') ->
    shape out = shape two_pixels /\ wf_array out.
Proof.
  split; [vm_compute; reflexivity|].
  apply (C5_quantization_keeps_shape two_pixels (ByName "x11") cached_world).
  split; reflexivity.
Defined.

(* ===================================================================== *)
(** * Unknown palette names *)
(* ===================================================================== *)

Section UnsupportedPalette.

Implicit Types (w : World) (self : nat).

#[local] Abbreviation quiet := (never_raises is_unsupported_palette).

Local Ltac not_unsupported := intros [? ?]; discriminate.

Lemma quiet_bind_result {A B} (r : result A) (k : A -> result B) :
  quiet r -> (forall a, quiet (k a)) -> quiet (bind_result r k).
Proof. destruct r as [a|e]; simpl; auto. Qed.

Lemma quiet_mapM_result {A B} (f : A -> result B) (l : list A) :
  (forall x, quiet (f x)) -> quiet (mapM_result f l).
Proof.
  intros Hf. induction l as [|x l IH]; simpl; [exact I|].
  specialize (Hf x). destruct (f x) as [y|e]; [|exact Hf].
  destruct (mapM_result f l) as [ys|e]; [exact I | exact IH].
Qed.

Lemma quiet_bind {A B} (m : M A) (k : A -> M B) w :
  quiet (m w).1 -> (forall a w', quiet (k a w').1) -> quiet (bind m k w).1.
Proof.
  intros Hm Hk. unfold bind. destruct (m w) as [[a|e] w']; simpl in *; auto.
Qed.

Lemma quiet_int (s : string) : quiet (Py.int s).
Proof. unfold Py.int. destruct (match Py.chars (Py.strip s) with [] => _ | _ => _ end);
  simpl; [exact I | not_unsupported]. Qed.

Lemma quiet_iterline (line : string) : quiet (_iterline line).
Proof.
  unfold _iterline. apply quiet_bind_result; [apply quiet_mapM_result, quiet_int|].
  intros ints. apply quiet_bind_result; [|intros; exact I].
  unfold Py.rgb2hex. destruct ints as [|? [|? [|? ?]]]; simpl;
    try exact I; not_unsupported.
Qed.

Lemma quiet_parse_u1 (s : string) : quiet (parse_u1 s).
Proof.
  unfold parse_u1. apply quiet_bind_result; [apply quiet_int|]. intros z.
  destruct (_ && _); simpl; [exact I | not_unsupported].
Qed.

Lemma quiet_loadtxt_line (line : string) : quiet (loadtxt_line line).
Proof.
  unfold loadtxt_line. destruct (decide _); [exact I|].
  destruct (Py.split "," (cut_comment line)) as [|? [|? [|? [|? [|? [|? [|? ?]]]]]]];
    simpl; try not_unsupported.
  repeat (apply quiet_bind_result; [apply quiet_parse_u1 | intros ?]). exact I.
Qed.

Lemma quiet_load_rows (lines : list string) : quiet (load_rows lines).
Proof.
  unfold load_rows. apply quiet_bind_result; [|intros; exact I].
  apply quiet_mapM_result. intros line.
  apply quiet_bind_result; [apply quiet_iterline | intros; apply quiet_loadtxt_line].
Qed.

Lemma quiet_np_getitem {A} `{Inhabited A} (a : list A) (i : Z) : quiet (np_getitem a i).
Proof.
  unfold np_getitem. destruct (_ && _); [exact I|].
  destruct (_ && _); simpl; [exact I | not_unsupported].
Qed.

Lemma quiet_take1 {A} `{Inhabited A} (a : list A) (idx : ndarray Z) : quiet (take1 a idx).
Proof.
  unfold take1. pose proof (quiet_mapM_result (np_getitem a) (data idx) (quiet_np_getitem a)) as Hq.
  destruct (mapM_result _ _); [exact I | exact Hq].
Qed.

Lemma quiet_take_rows (a : list rgb) (idx : ndarray Z) : quiet (take_rows a idx).
Proof.
  unfold take_rows. pose proof (quiet_mapM_result (np_getitem a) (data idx) (quiet_np_getitem a)) as Hq.
  destruct (mapM_result _ _); [exact I | exact Hq].
Qed.

Lemma quiet_assign_counts (rows : list PaletteRow) (counts : list Z) :
  quiet (assign_counts rows counts).
Proof.
  unfold assign_counts. destruct (decide _); [exact I|].
  destruct counts as [|? [|? ?]]; simpl; try exact I; not_unsupported.
Qed.

Lemma quiet_lookup_table self w : quiet (Palette_lookup_table self w).1.
Proof.
  cbv [Palette_lookup_table bind self_obj get_files lift ret raise set_obj].
  destruct (objects w !! self) as [o|]; [|simpl; not_unsupported].
  destruct (memo_lookup_table o); [exact I|].
  destruct (files w !! cached_data_path o) as [[lines|a]|]; simpl;
    try exact I; not_unsupported.
Qed.

Lemma quiet_data self w : quiet (Palette_data self w).1.
Proof.
  cbv [Palette_data bind self_obj open_text get_files lift ret raise set_obj].
  destruct (objects w !! self) as [o|]; [|simpl; not_unsupported].
  destruct (memo_data o); [exact I|].
  destruct (files w !! data_path o) as [[lines|a]|]; simpl; try not_unsupported.
  pose proof (quiet_load_rows lines) as Hq.
  destruct (load_rows lines); [exact I | exact Hq].
Qed.

Lemma quiet_rgbs self w : quiet (Palette_rgbs self w).1.
Proof.
  unfold Palette_rgbs. apply quiet_bind; [apply quiet_data | intros; exact I].
Qed.

Lemma quiet_n_colors self w : quiet (Palette_n_colors self w).1.
Proof.
  unfold Palette_n_colors. apply quiet_bind; [apply quiet_data|]. intros d w'.
  destruct (decide _); simpl; [not_unsupported | exact I].
Qed.

Lemma quiet_convert_to_indices self (arr : ndarray Z) w :
  quiet (Palette_convert_to_indices self arr w).1.
Proof.
  unfold Palette_convert_to_indices. apply quiet_bind; [apply quiet_lookup_table|].
  intros t w'. apply quiet_take1.
Qed.

Lemma quiet_convert_to_rgbs self (arr : ndarray Z) w :
  quiet (Palette_convert_to_rgbs self arr w).1.
Proof.
  unfold Palette_convert_to_rgbs. apply quiet_bind; [apply quiet_rgbs|].
  intros rgbs w'. apply quiet_bind; [apply quiet_convert_to_indices|].
  intros idx w''. apply quiet_take_rows.
Qed.

Lemma quiet_histogram_of self (img : ndarray Z) w :
  quiet ((let* indices := Palette_convert_to_indices self img in
          let* n := Palette_n_colors self in
          let counts := bincount (data indices) n in
          let* palette_data := Palette_data self in
          lift (assign_counts palette_data counts)) w).1.
Proof.
  apply quiet_bind; [apply quiet_convert_to_indices|]. intros idx w1.
  apply quiet_bind; [apply quiet_n_colors|]. intros n w2.
  apply quiet_bind; [apply quiet_data|]. intros d w3.
  apply quiet_assign_counts.
Qed.

(** C7: for every string that is not a key of [_PALETTES], asking for the
    palette by that name -- through [_get_palette],
    [quantize_with_palette] or [color_histogram] -- fails with the
    exception for unsupported palettes, [NotImplementedError] with the
    message "Unsupported palette: <name>", and changes nothing; when a
    Palette object is passed, none of the three ever raises that
    exception. *)
Theorem C7_unknown_name_unsupported (name : string) (img : ndarray Z) w :
  _PALETTES !! name = None ->
  let unsupported := NotImplementedError ("Unsupported palette: " +:+ name) in
  (_get_palette (ByName name) w = (Raise unsupported, w) /\
   quantize_with_palette img (ByName name) w = (Raise unsupported, w) /\
   color_histogram img (ByName name) w = (Raise unsupported, w)) /\
  forall p w',
    _get_palette (ByValue p) w' = (Ok p, w') /\
    never_raises is_unsupported_palette (quantize_with_palette img (ByValue p) w').1 /\
    never_raises is_unsupported_palette (color_histogram img (ByValue p) w').1.
Proof.
  intros Hname unsupported. split.
  - unfold quantize_with_palette, color_histogram, bind, _get_palette.
    rewrite Hname. repeat split.
  - intros p w'. split; [reflexivity|]. split.
    + exact (quiet_convert_to_rgbs p img w').
    + exact (quiet_histogram_of p img w').
Qed.

End UnsupportedPalette.

(** The name "websafe" is not registered. *)
Lemma C7_unknown_name_unsupported_witness :
  let unsupported := NotImplementedError "Unsupported palette: websafe" in
  _get_palette (ByName "websafe") fresh_world = (Raise unsupported, fresh_world) /\
  quantize_with_palette reddish (ByName "websafe") fresh_world =
    (Raise unsupported, fresh_world) /\
  color_histogram reddish (ByName "websafe") fresh_world =
    (Raise unsupported, fresh_world).
Proof.
  apply (C7_unknown_name_unsupported "websafe" reddish fresh_world).
  vm_compute. reflexivity.
Defined.

(* ===================================================================== *)
(** * Loading palette data *)
(* ===================================================================== *)

Example iterline_appends_hex :
  _iterline "red,pure red,255,0,16" = Ok "red,pure red,255,0,16,#ff0010".
Proof. reflexivity. Qed.

Example well_formed_row :
  bind_result (_iterline "red,pure red,255,0,16") loadtxt_line =
  Ok (Some {| row_group := "red"; row_name := "pure red";
              row_r := 255; row_g := 0; row_b := 16; row_hex := "" |}).
Proof. vm_compute. reflexivity. Qed.

Example wrong_column_count :
  load_rows ["red,255,0,0"] =
  Raise (ValueError "the number of columns does not match the dtype").
Proof. vm_compute. reflexivity. Qed.

Example colour_not_a_number :
  load_rows ["red,pure red,255,0,x"] =
  Raise (ValueError "invalid literal for int() with base 10").
Proof. vm_compute. reflexivity. Qed.

Section LoadingData.

Implicit Types (w : World) (self : nat) (o : Palette).




Lemma Palette_data_loads w self o (lines : list string) :
  objects w !! self = Some o -> memo_data o = None ->
  files w !! data_path o = Some (TextFile lines) ->
  Palette_data self w =
  match load_rows lines with
  | Ok rows => (Ok rows, with_objects w (<[self := with_data o (Some rows)]> (objects w)))
  | Raise e => (Raise e, w)
  end.
Proof.
  intros Ho Hm Hf.
  cbv [Palette_data bind self_obj open_text get_files lift ret raise set_obj].
  rewrite Ho, Hm, Hf. destruct (load_rows lines); reflexivity.
Qed.



End LoadingData.




(* ===================================================================== *)
(** * [color_entropy]: the sign correction *)
(* ===================================================================== *)

Section SignCorrection.

(** Rounding keeps the sign it is given. *)
Lemma binary_round_aux_sign (prec emax : Z) (sx : bool) (mx ex : Z) (lx : location) :
  binary_round_aux prec emax sx mx ex lx = S754_nan \/
  F.signbit (binary_round_aux prec emax sx mx ex lx) = sx.
Proof.
  unfold binary_round_aux.
  destruct (shr_fexp prec emax mx ex lx) as [mrs' e'].
  destruct (shr_fexp prec emax _ e' loc_Exact) as [mrs'' e''].
  destruct (shr_m mrs'') as [|m|m]; [right; reflexivity| |left; reflexivity].
  destruct (e'' <=? emax - prec); right; reflexivity.
Qed.

Lemma signbit_mul_copysign (x : spec_float) :
  F.signbit (F.mul x (copysign_one x)) = false.
Proof.
  unfold copysign_one, F.mul, F.one, F.neg.
  destruct x as [s|s| |s m e];
    [destruct s; reflexivity | destruct s; reflexivity | reflexivity |].
  destruct s; cbn [F.signbit SFopp negb SFmul xorb].
  - destruct (binary_round_aux_sign F.prec64 F.emax64 false
                (Z.pos (m * 4503599627370496)) (e + -52) loc_Exact) as [-> | ->]; reflexivity.
  - destruct (binary_round_aux_sign F.prec64 F.emax64 false
                (Z.pos (m * 4503599627370496)) (e + -52) loc_Exact) as [-> | ->]; reflexivity.
Qed.

(** A value whose sign bit is clear is not below zero, and is at least zero
    unless it is a NaN. *)
Lemma signbit_clear_nonnegative (v : spec_float) :
  F.signbit v = false ->
  F.ltb v F.zero = false /\ (F.isnan v = false -> F.leb F.zero v = true).
Proof.
  destruct v as [s|s| |s m e]; simpl; intros Hs; subst; split;
    try reflexivity; try discriminate; intros _; reflexivity.
Qed.

(** On a value in canonical form the product is the absolute value. *)
Lemma mul_copysign_abs (x : spec_float) :
  valid_binary F.prec64 F.emax64 x = true ->
  F.mul x (copysign_one x) = SFabs x.
Proof.
  unfold copysign_one, F.mul, F.one, F.neg.
  destruct x as [s|s| |s m e];
    [destruct s; reflexivity | destruct s; reflexivity | reflexivity |].
  intros Hvalid. simpl in Hvalid. unfold bounded, canonical_mantissa in Hvalid.
  apply andb_prop in Hvalid as [Hcan Hbound].
  apply Z.eqb_eq in Hcan.
  assert (Hmul : SFmul F.prec64 F.emax64 (S754_finite s m e)
                   (if s then SFopp (S754_finite false 4503599627370496 (-52))
                    else S754_finite false 4503599627370496 (-52)) =
                 binary_round_aux F.prec64 F.emax64 false
                   (Z.pos (Pos.iter xO m 52)) (e + -52) loc_Exact).
  { destruct s; cbn [F.signbit SFopp negb SFmul xorb]; rewrite (Pos.mul_comm m); reflexivity. }
  cbn [F.signbit]. rewrite Hmul. clear Hmul.
  assert (Hdig : Z.pos (digits2_pos (Pos.iter xO m 52)) + (e + -52) =
                 Z.pos (digits2_pos m) + e).
  { simpl. lia. }
  unfold binary_round_aux, shr_fexp. cbn [Zdigits2].
  rewrite Hdig, Hcan.
  replace (e - (e + -52)) with 52 by lia.
  cbn -[fexp Z.add Z.sub Z.leb].
  replace (e + -52 + 52) with e by lia. rewrite Hcan, Z.sub_diag.
  cbn -[Z.leb Z.sub]. rewrite Hbound. reflexivity.
Qed.
Variable log2 : spec_float -> result spec_float.

(** C10: for every histogram -- in particular for every one with a positive
    total count -- the value returned by [color_entropy] is the raw entropy
    multiplied by [copysign(1.0, raw)], which is the absolute value of the
    raw entropy (of a raw entropy in canonical binary64 form); its sign bit
    is clear, so it is never negative -- also when the raw value is a
    negative number or a negative zero -- and it is at least zero whenever
    it is a number. *)
Theorem C10_entropy_not_negative (rows : list (string * Z)) (v : spec_float) :
  color_entropy log2 rows = Ok v ->
  (exists raw, v = F.mul raw (copysign_one raw) /\
               (valid_binary F.prec64 F.emax64 raw = true -> v = SFabs raw)) /\
  F.signbit v = false /\
  F.ltb v F.zero = false /\
  (F.isnan v = false -> F.leb F.zero v = true).
Proof.
  unfold color_entropy.
  destruct (mapM_result _ _) as [terms|e]; [|discriminate]. simpl.
  set (raw := F.div (F.neg (py_sum terms)) _).
  intros Hv. apply Ok_inj in Hv. subst v.
  split; [exists raw; split; [reflexivity | apply mul_copysign_abs]|].
  pose proof (signbit_mul_copysign raw) as Hs.
  split; [exact Hs|]. apply signbit_clear_nonnegative, Hs.
Qed.

End SignCorrection.

Example entropy_of_one_group_is_positive_zero :
  color_entropy sample_log2 [("black", 4)] = Ok (S754_zero false).
Proof. vm_compute. reflexivity. Qed.

(** Three groups with probabilities 1/4, 1/4 and 1/2. *)
Lemma C10_entropy_not_negative_witness :
  let v := S754_finite false 4503599627370496 (-53) in
  (exists raw, v = F.mul raw (copysign_one raw) /\
               (valid_binary F.prec64 F.emax64 raw = true -> v = SFabs raw)) /\
  F.signbit v = false /\
  F.ltb v F.zero = false /\
  (F.isnan v = false -> F.leb F.zero v = true).
Proof.
  intros v.
  apply (C10_entropy_not_negative sample_log2 [("black", 1); ("red", 1); ("blue", 2)] v).
  vm_compute. reflexivity.
Defined.

(* ===================================================================== *)
(** * What reaches the disk, what stays in the object *)
(* ===================================================================== *)

Section Disk.

Implicit Types (w : World) (self : nat) (o : Palette).

Lemma same_disk_refl w : same_disk w w.
Proof. split; reflexivity. Qed.

Lemma same_disk_trans w1 w2 w3 : same_disk w1 w2 -> same_disk w2 w3 -> same_disk w1 w3.
Proof. intros [H1 H2] [H3 H4]. split; congruence. Qed.

Lemma same_disk_bind {A B} (m : M A) (k : A -> M B) w :
  same_disk w (m w).2 ->
  (forall a w', same_disk w' (k a w').2) ->
  same_disk w (bind m k w).2.
Proof.
  intros Hm Hk. unfold bind. destruct (m w) as [[a|e] w']; simpl in *; [|exact Hm].
  exact (same_disk_trans _ _ _ Hm (Hk a w')).
Qed.

Lemma same_disk_lift {A} (r : result A) w : same_disk w (lift r w).2.
Proof. apply same_disk_refl. Qed.

Lemma same_disk_data self w : same_disk w (Palette_data self w).2.
Proof. destruct (Palette_data_same_tables w self) as (Hf & Hl & _). split; assumption. Qed.

Lemma same_disk_lookup_table self w : same_disk w (Palette_lookup_table self w).2.
Proof.
  cbv [Palette_lookup_table bind self_obj get_files lift ret raise set_obj].
  destruct (objects w !! self) as [o|]; [|apply same_disk_refl].
  destruct (memo_lookup_table o); [apply same_disk_refl|].
  destruct (files w !! cached_data_path o) as [f|]; [|apply same_disk_refl].
  destruct (np_load f); split; reflexivity.
Qed.

Lemma same_disk_rgbs self w : same_disk w (Palette_rgbs self w).2.
Proof.
  unfold Palette_rgbs. apply same_disk_bind; [apply same_disk_data|].
  intros d w'. apply same_disk_refl.
Qed.

Lemma same_disk_n_colors self w : same_disk w (Palette_n_colors self w).2.
Proof.
  unfold Palette_n_colors. apply same_disk_bind; [apply same_disk_data|].
  intros d w'. destruct (decide (length d = 1%nat)); apply same_disk_refl.
Qed.

Lemma same_disk_convert_to_indices self (arr : ndarray Z) w :
  same_disk w (Palette_convert_to_indices self arr w).2.
Proof.
  unfold Palette_convert_to_indices. apply same_disk_bind; [apply same_disk_lookup_table|].
  intros t w'. apply same_disk_lift.
Qed.

Lemma same_disk_convert_to_rgbs self (arr : ndarray Z) w :
  same_disk w (Palette_convert_to_rgbs self arr w).2.
Proof.
  unfold Palette_convert_to_rgbs. apply same_disk_bind; [apply same_disk_rgbs|].
  intros rgbs w'. apply same_disk_bind; [apply same_disk_convert_to_indices|].
  intros idx w''. apply same_disk_lift.
Qed.

Lemma same_disk_get_palette (palette : palette_arg) w :
  same_disk w (_get_palette palette w).2.
Proof. rewrite get_palette_pure. apply same_disk_refl. Qed.

(** X1: quantizing and counting only read: whatever the image, the palette
    argument and the state, and whether they return or raise,
    [quantize_with_palette], [color_histogram], [Palette.convert_to_rgbs]
    and [Palette.convert_to_indices] leave every file as it was -- the
    palette files, the lookup tables and [data/lab.npy]; only the objects'
    memos can change. *)
Theorem quantization_writes_no_file (img : ndarray Z) (palette : palette_arg)
    (self : nat) (w : World) :
  same_disk w (quantize_with_palette img palette w).2 /\
  same_disk w (color_histogram img palette w).2 /\
  same_disk w (Palette_convert_to_rgbs self img w).2 /\
  same_disk w (Palette_convert_to_indices self img w).2.
Proof.
  split; [|split; [|split]].
  - unfold quantize_with_palette. apply same_disk_bind; [apply same_disk_get_palette|].
    intros p w'. apply same_disk_convert_to_rgbs.
  - unfold color_histogram. apply same_disk_bind; [apply same_disk_get_palette|].
    intros p w1. apply same_disk_bind; [apply same_disk_convert_to_indices|].
    intros idx w2. apply same_disk_bind; [apply same_disk_n_colors|].
    intros n w3. apply same_disk_bind; [apply same_disk_data|].
    intros d w4. apply same_disk_lift.
  - apply same_disk_convert_to_rgbs.
  - apply same_disk_convert_to_indices.
Qed.

End Disk.

(* ===================================================================== *)
(** * The memos of an object: [data], [lookup_table], [clear_cache] *)
(* ===================================================================== *)

Section Memos.

Implicit Types (w : World) (self : nat) (o : Palette).

(** After a successful access the data are memoized in the object; its
    paths and its lookup-table memo are as before. *)
Lemma Palette_data_memoizes w self o (d : list PaletteRow) w1 :
  objects w !! self = Some o ->
  Palette_data self w = (Ok d, w1) ->
  exists o1, objects w1 !! self = Some o1 /\ memo_data o1 = Some d /\
             data_path o1 = data_path o /\
             cached_data_path o1 = cached_data_path o /\
             memo_lookup_table o1 = memo_lookup_table o.
Proof.
  intros Ho. cbv [Palette_data bind self_obj open_text get_files lift ret raise set_obj].
  rewrite Ho. destruct (memo_data o) as [d0|] eqn:Hm.
  - intros Heq. injection Heq as <- <-. exists o. auto.
  - destruct (files w !! data_path o) as [[lines|a]|]; try discriminate.
    destruct (load_rows lines) as [d'|e]; [|discriminate].
    intros Heq. injection Heq as <- <-. eexists. split; [apply lookup_insert_eq|].
    repeat split.
Qed.

Lemma Palette_data_memoized w self o (d : list PaletteRow) :
  objects w !! self = Some o -> memo_data o = Some d ->
  Palette_data self w = (Ok d, w).
Proof.
  intros Ho Hm. cbv [Palette_data bind self_obj ret]. rewrite Ho, Hm. reflexivity.
Qed.

Lemma clear_cache_memoized w self o (t : list Z) :
  objects w !! self = Some o -> memo_lookup_table o = Some t ->
  Palette_clear_cache self w =
  (Ok tt, with_objects w (<[self := with_lookup_table o None]> (objects w))).
Proof.
  intros Ho Hm. cbv [Palette_clear_cache bind self_obj set_obj]. rewrite Ho, Hm. reflexivity.
Qed.

(** X2: [Palette.clear_cache] on an object that holds a memoized lookup
    table succeeds, touches no file and drops the memo only: the next access
    to [lookup_table] goes back to the cache file -- it returns the table
    the file holds now, and raises [FileNotFoundError] when the file is no
    longer there -- while the memoized palette data stay in the object. *)
Theorem clear_cache_rereads_file w self o (t : list Z) :
  objects w !! self = Some o ->
  memo_lookup_table o = Some t ->
  exists w',
    Palette_clear_cache self w = (Ok tt, w') /\
    same_disk w w' /\
    (forall t', files w !! cached_data_path o = Some (NpyFile t') ->
       (Palette_lookup_table self w').1 = Ok t') /\
    (files w !! cached_data_path o = None ->
       Palette_lookup_table self w' = (Raise (FileNotFoundError not_built_message), w')) /\
    (forall d, memo_data o = Some d -> Palette_data self w' = (Ok d, w')).
Proof.
  intros Ho Hm. eexists. split; [exact (clear_cache_memoized w self o t Ho Hm)|].
  split; [split; reflexivity|].
  assert (Ho' : objects (with_objects w (<[self := with_lookup_table o None]> (objects w)))
                  !! self = Some (with_lookup_table o None)) by apply lookup_insert_eq.
  split; [|split].
  - intros t' Hf. erewrite lookup_table_loaded; [reflexivity | exact Ho' | reflexivity | exact Hf].
  - intros Hf. exact (lookup_table_not_built _ self _ Ho' eq_refl Hf).
  - intros d Hd. exact (Palette_data_memoized _ self _ d Ho' Hd).
Qed.

(** X3: once [Palette.data] has returned, the rows are memoized in the
    object: in every later state in which the object is as that access left
    it -- the palette file rewritten, or deleted -- [Palette.data],
    [Palette.rgbs], [Palette.groups] and [Palette.n_colors] answer from the
    memo without reading the file, and leave the state as it is. *)
Theorem data_served_from_memo w self o (d : list PaletteRow) w1 w2 :
  objects w !! self = Some o ->
  Palette_data self w = (Ok d, w1) ->
  objects w2 !! self = objects w1 !! self ->
  Palette_data self w2 = (Ok d, w2) /\
  Palette_rgbs self w2 = (Ok ((fun row => (row_r row, row_g row, row_b row)) <$> d), w2) /\
  Palette_groups self w2 = (Ok (row_group <$> d), w2) /\
  (length d <> 1%nat -> Palette_n_colors self w2 = (Ok (length d), w2)).
Proof.
  intros Ho Hd Hsame.
  destruct (Palette_data_memoizes w self o d w1 Ho Hd) as (o1 & Ho1 & Hm & _).
  rewrite <- Hsame in Ho1.
  pose proof (Palette_data_memoized w2 self o1 d Ho1 Hm) as Hd2.
  split; [exact Hd2|].
  cbv [Palette_rgbs Palette_groups Palette_n_colors bind ret]. rewrite Hd2.
  split; [reflexivity|]. split; [reflexivity|].
  intros Hlen. destruct (decide (length d = 1%nat)); [contradiction|reflexivity].
Qed.

End Memos.

(** The palette of red and blue is read, then its file is deleted. *)
Lemma clear_cache_rereads_file_witness :
  let o := {| data_path := x11_path;
              cached_data_path := package_dir +:+ "/data/x11.npy";
              memo_lookup_table := Some [1; 0]; memo_data := None |} in
  let w := with_objects cached_world {[ x11 := o ]} in
  exists w',
    Palette_clear_cache x11 w = (Ok tt, w') /\
    same_disk w w' /\
    (forall t', files w !! cached_data_path o = Some (NpyFile t') ->
       (Palette_lookup_table x11 w').1 = Ok t') /\
    (files w !! cached_data_path o = None ->
       Palette_lookup_table x11 w' = (Raise (FileNotFoundError not_built_message), w')) /\
    (forall d, memo_data o = Some d -> Palette_data x11 w' = (Ok d, w')).
Proof.
  intros o w. apply (clear_cache_rereads_file w x11 o [1; 0]); reflexivity.
Defined.

Lemma data_served_from_memo_witness :
  let d := [ {| row_group := "red"; row_name := "pure red";
                row_r := 255; row_g := 0; row_b := 0; row_hex := "" |};
             {| row_group := "blue"; row_name := "pure blue";
                row_r := 0; row_g := 0; row_b := 255; row_hex := "" |} ] in
  let w2 := (remove_file x11_path (Palette_data x11 fresh_world).2).2 in
  Palette_data x11 w2 = (Ok d, w2) /\
  Palette_rgbs x11 w2 = (Ok ((fun row => (row_r row, row_g row, row_b row)) <$> d), w2) /\
  Palette_groups x11 w2 = (Ok (row_group <$> d), w2) /\
  (length d <> 1%nat -> Palette_n_colors x11 w2 = (Ok (length d), w2)).
Proof.
  intros d w2.
  apply (data_served_from_memo fresh_world x11
           {| data_path := x11_path;
              cached_data_path := package_dir +:+ "/data/x11.npy";
              memo_lookup_table := None; memo_data := None |}
           d (Palette_data x11 fresh_world).2 w2);
    [reflexivity | vm_compute; reflexivity | reflexivity].
Defined.

(* ===================================================================== *)
(** * [Palette.build] and [_load_lab_array]: what is written, what is kept *)
(* ===================================================================== *)

Section BuildState.

Context `{JccNumerics}.

Implicit Types (w : World) (self : nat) (o : Palette).

Lemma load_lab_array_state w :
  _load_lab_array w =
  (Ok (default __create_lab_array (lab_npy w)),
   {| files := files w;
      lab_npy := Some (default __create_lab_array (lab_npy w));
      objects := objects w |}).
Proof. unfold _load_lab_array. destruct w as [fs [a|] objs]; reflexivity. Qed.

(** The state [Palette.build] leaves for a palette with a colour. *)
Lemma Palette_build_state w self o (rgbs : list rgb) w1 :
  objects w !! self = Some o ->
  Palette_rgbs self w = (Ok rgbs, w1) ->
  rgbs <> [] ->
  exists table,
    _create_lookup_table (rgb_to_lab rgbs) (default __create_lab_array (lab_npy w)) = Ok table /\
    Palette_build self w =
    (Ok tt, {| files := <[cached_data_path o := NpyFile table]> (files w);
               lab_npy := Some (default __create_lab_array (lab_npy w));
               objects := objects w1 |}).
Proof.
  intros Ho Hrgbs Hne.
  pose proof (Palette_rgbs_same_tables w self) as (Hfiles & Hlab & Hobjs).
  rewrite Hrgbs in Hfiles, Hlab, Hobjs. cbn [snd] in Hfiles, Hlab, Hobjs.
  destruct (Hobjs self o Ho) as (o1 & Ho1 & _ & Hc & Hm1).
  pose proof (create_lookup_table_eq (rgb_to_lab rgbs)
                (default __create_lab_array (lab_npy w))
                (rgb_to_lab_nonempty rgbs Hne)) as Htab.
  eexists. split; [exact Htab|].
  cbv [Palette_build bind lift]. rewrite Hrgbs, load_lab_array_state, Hlab, Htab.
  cbv [self_obj]. cbn [objects]. rewrite Ho1.
  cbv [np_save write_file]. cbn [files lab_npy objects]. rewrite Hfiles, Hc. reflexivity.
Qed.


(** X5: apart from [data/lab.npy], which [_load_lab_array] creates when
    it is absent, [Palette.build] writes one file at most, the cache file
    of the object: whatever the state and the outcome, every other path of
    the file system holds after the call what it held before -- in
    particular the palette file, when its path is not the cache path. *)
Theorem build_writes_cache_file_only w self o (path : string) :
  objects w !! self = Some o ->
  path <> cached_data_path o ->
  files (Palette_build self w).2 !! path = files w !! path.
Proof.
  intros Ho Hpath.
  pose proof (Palette_rgbs_same_tables w self) as (Hfiles & _ & Hobjs).
  cbv [Palette_build bind lift].
  destruct (Palette_rgbs self w) as [[rgbs|e] w1]; cbn [snd] in *; [|rewrite Hfiles; reflexivity].
  rewrite load_lab_array_state.
  destruct (_create_lookup_table _ _) as [arr|e]; [|cbn [snd files]; rewrite Hfiles; reflexivity].
  destruct (Hobjs self o Ho) as (o1 & Ho1 & _ & Hc & _).
  cbv [self_obj]. cbn [objects]. rewrite Ho1.
  cbv [np_save write_file]. cbn [snd files]. rewrite Hc, Hfiles.
  apply lookup_insert_ne. congruence.
Qed.


(** X7: [Palette.build] writes the file and leaves the memo of the object
    alone.  When the object has accessed its lookup table before, holding
    [t0], then after a successful [build] the cache file holds the new
    table while [Palette.lookup_table] still returns [t0]; the new table is
    returned only after [Palette.clear_cache]. *)
Theorem build_keeps_memoized_table w self o (t0 : list Z) (rgbs : list rgb) w1 :
  objects w !! self = Some o ->
  memo_lookup_table o = Some t0 ->
  Palette_rgbs self w = (Ok rgbs, w1) ->
  rgbs <> [] ->
  exists (table : list Z) (w2 w3 : World),
    _create_lookup_table (rgb_to_lab rgbs) (default __create_lab_array (lab_npy w)) = Ok table /\
    Palette_build self w = (Ok tt, w2) /\
    files w2 !! cached_data_path o = Some (NpyFile table) /\
    Palette_lookup_table self w2 = (Ok t0, w2) /\
    Palette_clear_cache self w2 = (Ok tt, w3) /\
    (Palette_lookup_table self w3).1 = Ok table.
Proof.
  intros Ho Hm Hrgbs Hne.
  destruct (Palette_build_state w self o rgbs w1 Ho Hrgbs Hne) as (table & Htab & Hbuild).
  pose proof (Palette_rgbs_same_tables w self) as (_ & _ & Hobjs).
  rewrite Hrgbs in Hobjs. cbn [snd] in Hobjs.
  destruct (Hobjs self o Ho) as (o1 & Ho1 & _ & Hc & Hm1).
  rewrite Hm in Hm1.
  eexists table, _, _. split; [exact Htab|]. split; [exact Hbuild|].
  split; [cbn [files]; apply lookup_insert_eq|].
  split; [apply (lookup_table_memoized _ self o1 t0); [exact Ho1 | exact Hm1]|].
  split; [apply (clear_cache_memoized _ self o1 t0); [exact Ho1 | exact Hm1]|].
  erewrite lookup_table_loaded; [reflexivity | apply lookup_insert_eq | reflexivity |].
  cbn [files with_objects with_lookup_table cached_data_path]. rewrite Hc.
  apply lookup_insert_eq.
Qed.

(** X8: [Palette.build] memoizes nothing: on an object that has not
    accessed its lookup table, [Palette.clear_cache] raises
    [AttributeError] and changes nothing, before [build] and also right
    after it, whatever the outcome of [build]. *)
Theorem build_does_not_memoize w self o :
  objects w !! self = Some o ->
  memo_lookup_table o = None ->
  Palette_clear_cache self w = (Raise (AttributeError "lookup_table"), w) /\
  let w2 := (Palette_build self w).2 in
  Palette_clear_cache self w2 = (Raise (AttributeError "lookup_table"), w2).
Proof.
  intros Ho Hm.
  assert (Hclear : forall w' o', objects w' !! self = Some o' ->
            memo_lookup_table o' = None ->
            Palette_clear_cache self w' = (Raise (AttributeError "lookup_table"), w')).
  { intros w' o' Ho' Hm'. cbv [Palette_clear_cache bind self_obj raise].
    rewrite Ho', Hm'. reflexivity. }
  split; [exact (Hclear w o Ho Hm)|].
  pose proof (Palette_rgbs_same_tables w self) as (_ & _ & Hobjs).
  destruct (Hobjs self o Ho) as (o1 & Ho1 & _ & _ & Hm1). rewrite Hm in Hm1.
  cbv [Palette_build bind lift].
  destruct (Palette_rgbs self w) as [[rgbs|e] w1]; cbn [snd] in *;
    [|exact (Hclear w1 o1 Ho1 Hm1)].
  rewrite load_lab_array_state.
  destruct (_create_lookup_table _ _) as [arr|e];
    [|apply (Hclear _ o1); [exact Ho1 | exact Hm1]].
  cbv [self_obj]. cbn [objects]. rewrite Ho1.
  apply (Hclear _ o1); [exact Ho1 | exact Hm1].
Qed.

(** X9: building twice is building once.  After a successful
    [Palette.build] -- the palette data are then memoized in the object and
    [data/lab.npy] exists -- a second [build] succeeds and changes nothing:
    it writes the same table to the same cache file. *)
Theorem build_is_idempotent w self o (rgbs : list rgb) w1 :
  objects w !! self = Some o ->
  Palette_rgbs self w = (Ok rgbs, w1) ->
  rgbs <> [] ->
  exists (table : list Z) (w2 : World),
    Palette_build self w = (Ok tt, w2) /\
    files w2 !! cached_data_path o = Some (NpyFile table) /\
    Palette_build self w2 = (Ok tt, w2).
Proof.
  intros Ho Hrgbs Hne.
  destruct (Palette_build_state w self o rgbs w1 Ho Hrgbs Hne) as (table & Htab & Hbuild).
  pose proof Hrgbs as Hd. cbv [Palette_rgbs bind ret] in Hd.
  destruct (Palette_data self w) as [[d|e] w1'] eqn:Hdata; [|discriminate].
  injection Hd as Hd ->.
  destruct (Palette_data_memoizes w self o d w1 Ho Hdata) as (o1 & Ho1 & Hmd & _ & Hc & _).
  set (w2 := {| files := <[cached_data_path o := NpyFile table]> (files w);
                lab_npy := Some (default __create_lab_array (lab_npy w));
                objects := objects w1 |}) in *.
  assert (Hrgbs2 : Palette_rgbs self w2 = (Ok rgbs, w2)).
  { cbv [Palette_rgbs bind ret].
    rewrite (Palette_data_memoized w2 self o1 d Ho1 Hmd), Hd. reflexivity. }
  exists table, w2. split; [exact Hbuild|].
  split; [apply lookup_insert_eq|].
  destruct (Palette_build_state w2 self o1 rgbs w2 Ho1 Hrgbs2 Hne) as (table' & Htab' & Hbuild').
  change (default __create_lab_array (lab_npy w2))
    with (default __create_lab_array (lab_npy w)) in Htab', Hbuild'.
  rewrite Htab in Htab'. apply Ok_inj in Htab'. subst table'.
  rewrite Hbuild'. unfold w2. cbn [files objects].
  rewrite Hc, insert_insert_eq. reflexivity.
Qed.

End BuildState.

Lemma build_writes_cache_file_only_witness :
  files (@Palette_build sample_numerics x11 fresh_world).2 !! x11_path =
  files fresh_world !! x11_path.
Proof.
  apply (@build_writes_cache_file_only sample_numerics fresh_world x11
           {| data_path := x11_path;
              cached_data_path := package_dir +:+ "/data/x11.npy";
              memo_lookup_table := None; memo_data := None |} x11_path);
    [reflexivity | discriminate].
Defined.


(** The object has read the table of two entries of [cached_world]. *)
Lemma build_keeps_memoized_table_witness :
  let o := {| data_path := x11_path;
              cached_data_path := package_dir +:+ "/data/x11.npy";
              memo_lookup_table := Some [1; 0]; memo_data := None |} in
  let w := with_objects cached_world {[ x11 := o ]} in
  let rgbs : list rgb := [(255, 0, 0); (0, 0, 255)] in
  exists (table : list Z) (w2 w3 : World),
    @_create_lookup_table sample_numerics (@rgb_to_lab sample_numerics rgbs)
      (default (@__create_lab_array sample_numerics) (lab_npy w)) = Ok table /\
    @Palette_build sample_numerics x11 w = (Ok tt, w2) /\
    files w2 !! cached_data_path o = Some (NpyFile table) /\
    Palette_lookup_table x11 w2 = (Ok [1; 0], w2) /\
    Palette_clear_cache x11 w2 = (Ok tt, w3) /\
    (Palette_lookup_table x11 w3).1 = Ok table.
Proof.
  intros o w rgbs.
  apply (@build_keeps_memoized_table sample_numerics w x11 o [1; 0] rgbs
           (Palette_rgbs x11 w).2);
    [reflexivity | reflexivity | vm_compute; reflexivity | discriminate].
Defined.

Lemma build_does_not_memoize_witness :
  Palette_clear_cache x11 fresh_world =
    (Raise (AttributeError "lookup_table"), fresh_world) /\
  let w2 := (@Palette_build sample_numerics x11 fresh_world).2 in
  Palette_clear_cache x11 w2 = (Raise (AttributeError "lookup_table"), w2).
Proof.
  apply (@build_does_not_memoize sample_numerics fresh_world x11
           {| data_path := x11_path;
              cached_data_path := package_dir +:+ "/data/x11.npy";
              memo_lookup_table := None; memo_data := None |}); reflexivity.
Defined.

Lemma build_is_idempotent_witness :
  exists (table : list Z) (w2 : World),
    @Palette_build sample_numerics x11 fresh_world = (Ok tt, w2) /\
    files w2 !! (package_dir +:+ "/data/x11.npy") = Some (NpyFile table) /\
    @Palette_build sample_numerics x11 w2 = (Ok tt, w2).
Proof.
  apply (@build_is_idempotent sample_numerics fresh_world x11
           {| data_path := x11_path;
              cached_data_path := package_dir +:+ "/data/x11.npy";
              memo_lookup_table := None; memo_data := None |}
           [(255, 0, 0); (0, 0, 255)] (Palette_rgbs x11 fresh_world).2);
    [reflexivity | vm_compute; reflexivity | discriminate].
Defined.

(* ===================================================================== *)
(** * The colour cube, duplicates in a palette, quantizing after a build *)
(* ===================================================================== *)

(** X10: [_get_all_rgbs] lists every colour exactly once: for every
    position [k] below [256 ** 3] the row at [k] is the colour with red
    [k // 65536], green [(k // 256) % 256] and blue [k % 256], each channel
    an 8-bit value, and that colour is at no other position. *)
Theorem all_rgbs_enumerates_cube (k : Z) :
  0 <= k < 16777216 ->
  let c : rgb := (k / 65536, (k / 256) mod 256, k mod 256) in
  _get_all_rgbs !! Z.to_nat k = Some c /\
  (0 <= c.1.1 < 256 /\ 0 <= c.1.2 < 256 /\ 0 <= c.2 < 256) /\
  linear_index c.1.1 c.1.2 c.2 = Z.to_nat k /\
  forall k' : nat, _get_all_rgbs !! k' = Some c -> k' = Z.to_nat k.
Proof.
  intros Hk c.
  assert (Hr : 0 <= k / 65536 < 256)
    by (split; [apply Z.div_pos; lia | apply Z.div_lt_upper_bound; lia]).
  assert (Hg : 0 <= (k / 256) mod 256 < 256) by (apply Z.mod_pos_bound; lia).
  assert (Hb : 0 <= k mod 256 < 256) by (apply Z.mod_pos_bound; lia).
  assert (Hdec : forall z, 0 <= z < 16777216 ->
            z / 65536 * 65536 + (z / 256) mod 256 * 256 + z mod 256 = z).
  { intros z Hz.
    pose proof (Z.div_mod z 256 ltac:(lia)) as H1.
    pose proof (Z.div_mod (z / 256) 256 ltac:(lia)) as H2.
    assert (H3 : z / 256 / 256 = z / 65536)
      by (rewrite Z.div_div by lia; reflexivity).
    lia. }
  assert (Hat : forall z, 0 <= z < 16777216 ->
            _get_all_rgbs !! Z.to_nat z =
            Some (z / 65536, (z / 256) mod 256, z mod 256)).
  { intros z Hz. rewrite <- (Hdec z Hz) at 1. apply lookup_get_all_rgbs.
    - split; [apply Z.div_pos; lia | apply Z.div_lt_upper_bound; lia].
    - apply Z.mod_pos_bound; lia.
    - apply Z.mod_pos_bound; lia. }
  split; [exact (Hat k Hk)|]. split; [auto|].
  split; [unfold linear_index, c; cbn [fst snd]; rewrite Hdec by exact Hk; reflexivity|].
  intros k' Hk'.
  assert (Hlt : (k' < 256 ^ 3)%nat)
    by (rewrite <- length_get_all_rgbs; eapply lookup_lt_Some; exact Hk').
  assert (Hz : 0 <= Z.of_nat k' < 16777216) by (rewrite <- cube_Z; lia).
  pose proof (Hat _ Hz) as Hat'. rewrite Nat2Z.id in Hat'.
  pose proof (eq_trans (eq_sym Hk') Hat') as Heq. unfold c in Heq.
  injection Heq as E1 E2 E3.
  pose proof (Hdec _ Hz) as D1. pose proof (Hdec _ Hk) as D2.
  rewrite <- E1, <- E2, <- E3 in D1. lia.
Qed.

Lemma all_rgbs_enumerates_cube_witness :
  let c : rgb := (10, 10, 10) in
  _get_all_rgbs !! Z.to_nat 657930 = Some c /\
  (0 <= c.1.1 < 256 /\ 0 <= c.1.2 < 256 /\ 0 <= c.2 < 256) /\
  linear_index c.1.1 c.1.2 c.2 = Z.to_nat 657930 /\
  forall k' : nat, _get_all_rgbs !! k' = Some c -> k' = Z.to_nat 657930.
Proof. apply (all_rgbs_enumerates_cube 657930). lia. Defined.

Section FirstOfItsValue.

(** The position [np.argmin] returns holds a value that occurs at no
    earlier position, with or without NaNs in the array. *)
Lemma argmin_scan_first_value (rest pre : list spec_float) (mv : spec_float) (mi : nat) :
  (pre ++ rest) !! mi = Some mv ->
  (mi <= length pre)%nat ->
  (forall k v, pre !! k = Some v -> F.isnan v = false /\ F.ltb v mv = false) ->
  (forall k v, (k < mi)%nat -> pre !! k = Some v -> v <> mv) ->
  let j := np.argmin_scan rest (length pre) mv mi in
  forall i v, (i < j)%nat -> (pre ++ rest) !! i = Some v -> (pre ++ rest) !! j <> Some v.
Proof.
  revert pre mv mi. induction rest as [|x rest IH]; intros pre mv mi Hmi Hle Hpre Hfirst.
  - simpl. rewrite app_nil_r in *. intros i v Hi Hv. rewrite Hmi.
    intros Heq. injection Heq as <-. exact (Hfirst i mv Hi Hv eq_refl).
  - simpl. destruct (F.isnan x) eqn:Hnan.
    + intros i v Hi Hv.
      rewrite (lookup_app_r pre), Nat.sub_diag by lia. cbn [lookup list_lookup].
      intros Heq. injection Heq as <-.
      rewrite lookup_app_l in Hv by exact Hi.
      destruct (Hpre i x Hv) as [Hx _]. congruence.
    + assert (Hlen : length (pre ++ [x]) = S (length pre))
        by (rewrite length_app; simpl; lia).
      destruct (F.ltb x mv) eqn:Hlt.
      * specialize (IH (pre ++ [x]) x (length pre)).
        rewrite Hlen, <- app_assoc in IH. simpl in IH. apply IH.
        -- rewrite lookup_app_r, Nat.sub_diag by lia. reflexivity.
        -- lia.
        -- intros k w Hk. apply lookup_app_Some in Hk as [Hk|[_ Hk]].
           ++ destruct (Hpre k w Hk) as [Hwn Hwm]. split; [exact Hwn|].
              destruct (F.ltb w x) eqn:Hwx; [|reflexivity].
              unfold F.ltb in *. rewrite (SFltb_trans _ _ _ Hwx Hlt) in Hwm. discriminate.
           ++ apply list_lookup_singleton_Some in Hk as [_ <-].
              split; [exact Hnan | apply SFltb_irrefl].
        -- intros k w Hkl Hk. apply lookup_app_Some in Hk as [Hk|[Hge _]]; [|lia].
           destruct (Hpre k w Hk) as [_ Hwm]. intros ->. congruence.
      * specialize (IH (pre ++ [x]) mv mi).
        rewrite Hlen, <- app_assoc in IH. simpl in IH. apply IH.
        -- exact Hmi.
        -- lia.
        -- intros k w Hk. apply lookup_app_Some in Hk as [Hk|[_ Hk]]; [eauto|].
           apply list_lookup_singleton_Some in Hk as [_ <-]. split; assumption.
        -- intros k w Hkl Hk. apply lookup_app_Some in Hk as [Hk|[Hge _]]; [eauto|lia].
Qed.

Lemma argmin_first_value (a : list spec_float) (j : nat) :
  np.argmin a = Ok j ->
  forall i v, (i < j)%nat -> a !! i = Some v -> a !! j <> Some v.
Proof.
  destruct a as [|v0 a]; [discriminate|]. unfold np.argmin.
  destruct (F.isnan v0) eqn:Hnan; intros Hj; apply Ok_inj in Hj; subst j.
  - intros i v Hi. lia.
  - apply (argmin_scan_first_value (v0 :: a) [] v0 0).
    + reflexivity.
    + simpl; lia.
    + intros k w Hk. rewrite lookup_nil in Hk. discriminate.
    + intros k w Hk. lia.
Qed.

End FirstOfItsValue.

Section AfterBuild.

Context `{JccNumerics}.

Implicit Types (w : World) (self : nat) (o : Palette).

(** X11: a colour that occurs twice in a palette of at most 65536 colours
    is represented by its first occurrence only: for no colour of the cube
    is the table entry the index [k] of a palette row whose colour already
    stands at an earlier row [j] -- whatever the distance function returns,
    NaN included. *)
Theorem duplicate_colour_never_selected (rgbs : list rgb) (j k : nat) (c : rgb)
    (r g b : Z) :
  rgbs !! j = Some c ->
  rgbs !! k = Some c ->
  (j < k)%nat ->
  Z.of_nat (length rgbs) <= 65536 ->
  0 <= r < 256 -> 0 <= g < 256 -> 0 <= b < 256 ->
  exists table : list Z,
    _create_lookup_table (rgb_to_lab rgbs) __create_lab_array = Ok table /\
    table !! linear_index r g b <> Some (Z.of_nat k).
Proof.
  intros Hj Hk Hjk Hlen Hr Hg Hb.
  assert (Hne : rgbs <> []) by (intros ->; rewrite lookup_nil in Hj; discriminate).
  destruct (built_table_slot rgbs r g b Hne Hr Hg Hb) as (table & Htab & _ & Hslot).
  exists table. split; [exact Htab|]. rewrite Hslot. unfold table_entry.
  destruct (np.argmin (deltaes_of (rgb_to_lab rgbs) (rgb_to_lab_ r g b)))
    as [m|e] eqn:Harg.
  - pose proof (argmin_first_value _ m Harg) as Hfirst.
    destruct (argmin_spec (deltaes_of (rgb_to_lab rgbs) (rgb_to_lab_ r g b)))
      as (m' & Hm' & [Hlt _] & _).
    { intros Hnil. apply (f_equal length) in Hnil.
      rewrite length_deltaes_of, length_rgb_to_lab in Hnil.
      destruct rgbs; [congruence|discriminate]. }
    rewrite Harg in Hm'. apply Ok_inj in Hm'. subst m'.
    rewrite length_deltaes_of, length_rgb_to_lab in Hlt.
    unfold np.to_uint16. rewrite Z.mod_small by lia.
    intros Heq. injection Heq as Heq. apply Nat2Z.inj in Heq. subst m.
    apply (Hfirst j (distance32 (r, g, b) c) Hjk).
    + rewrite (lookup_deltaes_rgb rgbs (r, g, b) j), Hj. reflexivity.
    + rewrite (lookup_deltaes_rgb rgbs (r, g, b) k), Hk. reflexivity.
  - intros Heq. injection Heq as Heq.
    pose proof (lookup_lt_Some _ _ _ Hk). lia.
Qed.





End AfterBuild.

(** The palette of red, blue and red again: index 2 is in no slot. *)
Lemma duplicate_colour_never_selected_witness :
  let rgbs : list rgb := [(255, 0, 0); (0, 0, 255); (255, 0, 0)] in
  exists table : list Z,
    @_create_lookup_table sample_numerics (@rgb_to_lab sample_numerics rgbs)
      (@__create_lab_array sample_numerics) = Ok table /\
    table !! linear_index 200 10 10 <> Some (Z.of_nat 2).
Proof.
  intros rgbs.
  apply (@duplicate_colour_never_selected sample_numerics rgbs 0 2 (255, 0, 0) 200 10 10);
    [reflexivity | reflexivity | lia | simpl; lia | lia | lia | lia].
Defined.


(* ===================================================================== *)
(** * [color_histogram]: the counts *)
(* ===================================================================== *)

Section Histogram.

Implicit Types (w : World) (self : nat) (o : Palette).

Lemma sum_Z_app (l1 l2 : list Z) : sum_Z (l1 ++ l2) = sum_Z l1 + sum_Z l2.
Proof. unfold sum_Z. induction l1 as [|x l1 IH]; simpl; [reflexivity|]. rewrite IH. lia. Qed.

Lemma length_filter_fmap {A B} (g : A -> B) (P : B -> Prop)
    `{forall y, Decision (P y)} (l : list A) :
  length (filter P (g <$> l)) = length (filter (fun x => P (g x)) l).
Proof.
  induction l as [|x l IH]; [reflexivity|]. cbn [fmap list_fmap].
  rewrite !filter_cons. destruct (decide (P (g x))); simpl; rewrite IH; reflexivity.
Qed.

Lemma length_filter_all {A} (P : A -> Prop) `{forall y, Decision (P y)} (l : list A) :
  Forall P l -> length (filter P l) = length l.
Proof.
  induction 1 as [|x l Hx _ IH]; [reflexivity|].
  rewrite filter_cons. destruct (decide (P x)); [|contradiction]. simpl. rewrite IH. reflexivity.
Qed.

(** The bins of [np.bincount] below [n] count the values in [0, n). *)
Lemma bincount_bins_total (x : list Z) (n : nat) :
  sum_Z ((fun k => Z.of_nat (length (filter (fun v => v = Z.of_nat k) x))) <$> seq 0 n) =
  Z.of_nat (length (filter (fun v => 0 <= v < Z.of_nat n) x)).
Proof.
  induction n as [|n IH].
  - simpl. induction x as [|v x IHx]; [reflexivity|].
    rewrite filter_cons. case_decide; [lia|exact IHx].
  - rewrite seq_S, fmap_app, sum_Z_app, IH. cbn [fmap list_fmap sum_Z foldr Nat.add].
    clear IH. induction x as [|v x IHx]; [reflexivity|].
    rewrite !filter_cons. repeat case_decide; simpl length; lia.
Qed.

Lemma foldr_max_ge (x : list Z) (v : Z) : v ∈ x -> v <= foldr Z.max (-1) x.
Proof.
  induction x as [|u x IH]; intros Hv; [inversion Hv|].
  simpl. apply elem_of_cons in Hv as [->|Hv]; [lia|]. specialize (IH Hv). lia.
Qed.

Lemma length_bincount (x : list Z) (n : nat) :
  length (bincount x n) = Nat.max n (Z.to_nat (foldr Z.max (-1) x + 1)).
Proof. unfold bincount. rewrite length_fmap, length_seq. reflexivity. Qed.

(** The counts of non-negative values add up to their number. *)
Lemma bincount_total (x : list Z) (n : nat) :
  Forall (fun v => 0 <= v) x ->
  sum_Z (bincount x n) = Z.of_nat (length x).
Proof.
  intros Hx. unfold bincount. rewrite bincount_bins_total. f_equal.
  apply length_filter_all. rewrite Forall_forall in *. intros v Hv.
  specialize (Hx v Hv). pose proof (foldr_max_ge x v Hv). lia.
Qed.

Lemma lookup_bincount (x : list Z) (n k : nat) (c : Z) :
  bincount x n !! k = Some c ->
  c = Z.of_nat (length (filter (fun v => v = Z.of_nat k) x)).
Proof.
  unfold bincount. rewrite list_lookup_fmap. intros Hk.
  destruct (seq 0 _ !! k) as [k'|] eqn:Hseq; [|discriminate].
  apply lookup_seq in Hseq as [-> _]. simpl in Hk. injection Hk as <-. reflexivity.
Qed.

(** Indexing by non-negative indices: the elements at these positions. *)
Lemma mapM_getitem_nonneg {A} `{Inhabited A} (a : list A) (l : list Z) (ys : list A) :
  Forall (fun i => 0 <= i) l ->
  mapM_result (np_getitem a) l = Ok ys ->
  ys = (fun i => a !!! Z.to_nat i) <$> l /\
  Forall (fun i => i < Z.of_nat (length a)) l.
Proof.
  intros Hl. revert ys. induction Hl as [|i l Hi _ IH]; intros ys.
  - intros Hok. apply Ok_inj in Hok. subst ys. split; [reflexivity|constructor].
  - cbn [mapM_result]. unfold np_getitem at 1.
    destruct (Z.leb_spec 0 i); [|lia].
    destruct (Z.ltb_spec i (Z.of_nat (length a))); cbn [andb].
    + destruct (mapM_result (np_getitem a) l) as [ys'|e]; [|discriminate].
      intros Hok. apply Ok_inj in Hok. subst ys.
      destruct (IH ys' eq_refl) as [-> Hlt]. split; [reflexivity|constructor; assumption].
    + destruct (Z.ltb_spec i 0); [lia|]. rewrite andb_false_r. discriminate.
Qed.

Lemma Palette_data_memoizes_any w self (d : list PaletteRow) w1 :
  Palette_data self w = (Ok d, w1) ->
  exists o1, objects w1 !! self = Some o1 /\ memo_data o1 = Some d.
Proof.
  destruct (objects w !! self) as [o|] eqn:Ho.
  - intros Hd. destruct (Palette_data_memoizes w self o d w1 Ho Hd) as (o1 & ? & ? & _).
    exists o1. auto.
  - cbv [Palette_data bind self_obj]. rewrite Ho. discriminate.
Qed.

Lemma assign_counts_zip (rows : list PaletteRow) (counts : list Z)
    (hist : list (PaletteRow * Z)) :
  assign_counts rows counts = Ok hist ->
  hist <> [] ->
  (length rows <= length counts)%nat ->
  length counts = length rows /\ hist = zip rows counts.
Proof.
  unfold assign_counts. destruct (decide (length counts = length rows)) as [Heq|Hne].
  - intros Hok _ _. apply Ok_inj in Hok. auto.
  - destruct counts as [|c [|c' counts]]; try discriminate.
    intros Hok Hhist Hle. apply Ok_inj in Hok. subst hist.
    destruct rows as [|row [|row' rows]]; simpl in *; try congruence; lia.
Qed.

(** The histogram [color_histogram] returns: the rows of the palette
    zipped with the bins of the table entries of the pixels. *)
Lemma color_histogram_rows (img : ndarray Z) (palette : palette_arg) w self
    (table : list Z) w1 (hist : list (PaletteRow * Z)) w' :
  (_get_palette palette w).1 = Ok self ->
  Palette_lookup_table self w = (Ok table, w1) ->
  Forall (fun e => 0 <= e < 65536) table ->
  is_image img ->
  color_histogram img palette w = (Ok hist, w') ->
  hist <> [] ->
  exists (d : list PaletteRow) (entries : list Z),
    entries = (fun q : rgb => table !!! Z.to_nat (rgb_to_ind_ q)) <$> triplets (data img) /\
    Forall (fun v => 0 <= v) entries /\
    Palette_data self w' = (Ok d, w') /\
    length (bincount entries (length d)) = length d /\
    hist = zip d (bincount entries (length d)).
Proof.
  intros Hpal Htable Hentries (_ & _ & Hchan) Hhist Hne.
  unfold color_histogram, bind in Hhist.
  pose proof (get_palette_pure palette w) as Hpure.
  destruct (_get_palette palette w) as [[p|e] w0]; [|discriminate].
  cbn [fst snd] in Hpal, Hpure. subst w0. injection Hpal as ->.
  cbv [Palette_convert_to_indices bind lift] in Hhist. rewrite Htable in Hhist.
  destruct (take1 table (rgb_to_ind img)) as [indices|e] eqn:Hind; [|discriminate].
  cbv [Palette_n_colors bind ret raise] in Hhist.
  destruct (Palette_data self w1) as [[d|e] w2] eqn:Hdata; [|discriminate].
  destruct (decide (length d = 1%nat)) as [|Hn1]; [discriminate|].
  destruct (Palette_data_memoizes_any w1 self d w2 Hdata) as (o2 & Ho2 & Hmd).
  pose proof (Palette_data_memoized w2 self o2 d Ho2 Hmd) as Hdata2.
  fold (Palette_data self) in Hhist. rewrite Hdata2 in Hhist.
  destruct (assign_counts d (bincount (data indices) (length d))) as [hist'|e] eqn:Hassign;
    [|discriminate].
  injection Hhist as -> ->.
  (* the indices are the table entries of the pixels *)
  pose proof (rgb_to_ind_range img Hchan) as Hrange.
  unfold take1 in Hind.
  destruct (mapM_result (np_getitem table) (data (rgb_to_ind img))) as [xs|e] eqn:Hxs;
    [|discriminate].
  apply Ok_inj in Hind. subst indices. cbn [data] in *.
  assert (Hidx : Forall (fun i => 0 <= i) (data (rgb_to_ind img))).
  { eapply Forall_impl; [exact Hrange|]. intros i Hi. simpl in Hi. lia. }
  destruct (mapM_getitem_nonneg table _ xs Hidx Hxs) as [-> Hlt]. clear Hidx.
  unfold rgb_to_ind in *. cbn [data] in *.
  rewrite <- list_fmap_compose in Hassign.
  set (entry := (fun i => table !!! Z.to_nat i) ∘ rgb_to_ind_) in *.
  assert (Hnonneg : Forall (fun v => 0 <= v) (entry <$> triplets (data img))).
  { apply Forall_fmap, Forall_forall. intros q Hq. unfold entry, compose.
    rewrite Forall_fmap, Forall_forall in Hlt, Hrange.
    specialize (Hlt q Hq). specialize (Hrange q Hq). unfold compose in Hlt, Hrange.
    rewrite Forall_forall in Hentries.
    apply (Hentries (table !!! Z.to_nat (rgb_to_ind_ q))).
    apply list_elem_of_lookup_total_2. lia. }
  destruct (assign_counts_zip _ _ _ Hassign Hne) as [Hlen ->].
  { rewrite length_bincount. lia. }
  exists d, (entry <$> triplets (data img)).
  split; [reflexivity|]. split; [exact Hnonneg|]. split; [exact Hdata2|].
  split; [exact Hlen | reflexivity].
Qed.

(** X13: what [color_histogram] returns.  For an image of 8-bit channels, a
    lookup table of unsigned entries and a palette with a colour, whenever
    [color_histogram] returns, its rows are the rows of the palette data in
    their order ([Palette.groups] lists their groups), each with the number
    of pixels of the image whose table entry is the index of the row; so
    the counts add up to the number of pixels of the image.  (The
    pixel-to-index step is the one of [rgb_to_ind] as the specification
    describes it.) *)
Theorem histogram_counts_pixels (img : ndarray Z) (palette : palette_arg) w self
    (table : list Z) w1 (hist : list (PaletteRow * Z)) w' :
  (_get_palette palette w).1 = Ok self ->
  Palette_lookup_table self w = (Ok table, w1) ->
  Forall (fun e => 0 <= e < 65536) table ->
  is_image img ->
  color_histogram img palette w = (Ok hist, w') ->
  hist <> [] ->
  Palette_data self w' = (Ok (fst <$> hist), w') /\
  Palette_groups self w' = (Ok ((fun r : PaletteRow * Z => row_group r.1) <$> hist), w') /\
  sum_Z (snd <$> hist) = Z.of_nat (length (triplets (data img))) /\
  forall (k : nat) (row : PaletteRow) (n : Z),
    hist !! k = Some (row, n) ->
    n = Z.of_nat (length (filter
          (fun q : rgb => table !!! Z.to_nat (rgb_to_ind_ q) = Z.of_nat k)
          (triplets (data img)))).
Proof.
  intros Hpal Htable Hentries Himg Hhist Hne.
  destruct (color_histogram_rows img palette w self table w1 hist w'
              Hpal Htable Hentries Himg Hhist Hne)
    as (d & entries & Hdef & Hnonneg & Hdata & Hlen & ->).
  assert (Hfst : (zip d (bincount entries (length d))).*1 = d) by (apply fst_zip; lia).
  split; [rewrite Hfst; exact Hdata|].
  split.
  { cbv [Palette_groups bind ret]. rewrite Hdata. do 2 f_equal.
    rewrite <- Hfst at 1. rewrite <- list_fmap_compose. reflexivity. }
  split.
  { rewrite snd_zip by lia. rewrite bincount_total by exact Hnonneg.
    rewrite Hdef, length_fmap. reflexivity. }
  intros k row n Hk. apply lookup_zip_with_Some in Hk as (row' & n' & Heq & _ & Hn).
  injection Heq as -> ->. apply lookup_bincount in Hn. rewrite Hn, Hdef. f_equal.
  apply length_filter_fmap.
Qed.

(** The data an access to the lookup table leaves to be read. *)
Lemma lookup_table_keeps_data w self o (t : list Z) w1 :
  objects w !! self = Some o ->
  Palette_lookup_table self w = (Ok t, w1) ->
  files w1 = files w /\
  exists o1, objects w1 !! self = Some o1 /\
             data_path o1 = data_path o /\ memo_data o1 = memo_data o.
Proof.
  intros Ho. cbv [Palette_lookup_table bind self_obj get_files lift ret raise set_obj].
  rewrite Ho. destruct (memo_lookup_table o).
  - intros Heq. injection Heq as <- <-. split; [reflexivity|]. exists o. auto.
  - destruct (files w !! cached_data_path o) as [f|]; [|discriminate].
    destruct (np_load f) as [t'|e]; [|discriminate].
    intros Heq. injection Heq as <- <-. split; [reflexivity|].
    eexists. split; [apply lookup_insert_eq|]. split; reflexivity.
Qed.

Lemma Palette_data_depends_on w w' self o o' :
  objects w !! self = Some o ->
  objects w' !! self = Some o' ->
  data_path o' = data_path o -> memo_data o' = memo_data o ->
  files w' = files w ->
  (Palette_data self w').1 = (Palette_data self w).1.
Proof.
  intros Ho Ho' Hp Hm Hf.
  cbv [Palette_data bind self_obj open_text get_files lift ret raise set_obj].
  rewrite Ho, Ho', Hm. destruct (memo_data o); [reflexivity|].
  rewrite Hp, Hf.
  destruct (files w !! data_path o) as [[lines|a]|]; try reflexivity.
  destruct (load_rows lines); reflexivity.
Qed.

(** X14: a palette of exactly one colour has no histogram.  [np.loadtxt]
    returns the single row as an array without axes, so that
    [Palette.n_colors] ([self.data.shape[0]]) raises [IndexError]: for such
    a palette [color_histogram] never returns, whatever the image and
    whether or not the lookup table has been built. *)
Theorem histogram_of_single_colour_fails (img : ndarray Z) w self
    (row : PaletteRow) w1 :
  Palette_data self w = (Ok [row], w1) ->
  Palette_n_colors self w = (Raise (IndexError "tuple index out of range"), w1) /\
  exists (e : exn) (w' : World), color_histogram img (ByValue self) w = (Raise e, w').
Proof.
  intros Hdata. split.
  { cbv [Palette_n_colors bind ret raise]. rewrite Hdata. reflexivity. }
  destruct (objects w !! self) as [o|] eqn:Ho.
  2:{ cbv [Palette_data bind self_obj] in Hdata. rewrite Ho in Hdata. discriminate. }
  cbv [color_histogram _get_palette Palette_convert_to_indices bind ret lift].
  destruct (Palette_lookup_table self w) as [[t|e] w2] eqn:Ht; [|eauto].
  destruct (take1 t (rgb_to_ind img)) as [indices|e]; [|eauto].
  destruct (lookup_table_keeps_data w self o t w2 Ho Ht) as (Hf & o2 & Ho2 & Hp & Hm).
  pose proof (Palette_data_depends_on w w2 self o o2 Ho Ho2 Hp Hm Hf) as Hsame.
  rewrite Hdata in Hsame. cbn [fst] in Hsame.
  cbv [Palette_n_colors bind ret raise].
  destruct (Palette_data self w2) as [r w3]. cbn [fst] in Hsame. subst r.
  cbn [length]. destruct (decide (1%nat = 1%nat)); [|congruence]. eauto.
Qed.

End Histogram.


(** The image of two pixels counted with the cached table of two entries:
    pixel (0, 0, 0) has entry 1 (blue), pixel (0, 0, 1) has entry 0 (red). *)
Lemma histogram_counts_pixels_witness :
  let red := {| row_group := "red"; row_name := "pure red";
                row_r := 255; row_g := 0; row_b := 0; row_hex := "" |} in
  let blue := {| row_group := "blue"; row_name := "pure blue";
                 row_r := 0; row_g := 0; row_b := 255; row_hex := "" |} in
  let hist := [(red, 1); (blue, 1)] in
  let w' := (color_histogram two_pixels (ByName "x11") cached_world).2 in
  Palette_data x11 w' = (Ok (fst <$> hist), w') /\
  Palette_groups x11 w' = (Ok ((fun r : PaletteRow * Z => row_group r.1) <$> hist), w') /\
  sum_Z (snd <$> hist) = Z.of_nat (length (triplets (data two_pixels))) /\
  forall (k : nat) (row : PaletteRow) (n : Z),
    hist !! k = Some (row, n) ->
    n = Z.of_nat (length (filter
          (fun q : rgb => [1; 0] !!! Z.to_nat (rgb_to_ind_ q) = Z.of_nat k)
          (triplets (data two_pixels)))).
Proof.
  intros red blue hist w'.
  apply (histogram_counts_pixels two_pixels (ByName "x11") cached_world x11 [1; 0]
           (Palette_lookup_table x11 cached_world).2 hist w');
    [reflexivity | reflexivity | repeat constructor; lia | | vm_compute; reflexivity
    | discriminate].
  split; [reflexivity|]. split; [reflexivity|]. repeat constructor; lia.
Defined.

(** A palette file of a single line. *)
Lemma histogram_of_single_colour_fails_witness :
  let w := imported {[ x11_path := TextFile ["red,pure red,255,0,0"] ]} None in
  Palette_n_colors x11 w =
    (Raise (IndexError "tuple index out of range"), (Palette_data x11 w).2) /\
  exists (e : exn) (w' : World),
    color_histogram reddish (ByValue x11) w = (Raise e, w').
Proof.
  intros w.
  apply (histogram_of_single_colour_fails reddish w x11
           {| row_group := "red"; row_name := "pure red";
              row_r := 255; row_g := 0; row_b := 0; row_hex := "" |}
           (Palette_data x11 w).2).
  vm_compute. reflexivity.
Defined.

(* ===================================================================== *)
(** * [group_color_histogram] *)
(* ===================================================================== *)

Section StringOrder.

Lemma ascii_compare_refl (c : ascii) : Ascii.compare c c = Eq.
Proof. unfold Ascii.compare. apply N.compare_refl. Qed.

Lemma ascii_compare_trans (a b c : ascii) :
  Ascii.compare a b = Lt -> Ascii.compare b c = Lt -> Ascii.compare a c = Lt.
Proof.
  unfold Ascii.compare. rewrite !N.compare_lt_iff. apply N.lt_trans.
Qed.

Lemma str_compare_refl (s : string) : String.compare s s = Eq.
Proof.
  induction s as [|c s IH]; [reflexivity|]. simpl. rewrite ascii_compare_refl. exact IH.
Qed.

Lemma str_lt_irrefl (s : string) : ~ str_lt s s.
Proof. unfold str_lt. rewrite str_compare_refl. discriminate. Qed.

Lemma str_lt_trans (a b c : string) : str_lt a b -> str_lt b c -> str_lt a c.
Proof.
  unfold str_lt. revert b c. induction a as [|x a IH]; intros [|y b] [|z c]; simpl;
    try discriminate; try reflexivity.
  destruct (Ascii.compare x y) eqn:Hxy; try discriminate.
  - apply Ascii.compare_eq_iff in Hxy as ->.
    destruct (Ascii.compare y z); try discriminate; [apply IH | reflexivity].
  - intros _. destruct (Ascii.compare y z) eqn:Hyz; try discriminate.
    + apply Ascii.compare_eq_iff in Hyz as <-. rewrite Hxy. reflexivity.
    + rewrite (ascii_compare_trans x y z Hxy Hyz). reflexivity.
Qed.

Lemma str_compare_gt (a b : string) : String.compare a b = Gt -> str_lt b a.
Proof.
  unfold str_lt. intros Hgt. rewrite String.compare_antisym, Hgt. reflexivity.
Qed.

Lemma elem_of_insert_unique (x : string) (l : list string) (y : string) :
  y ∈ insert_unique x l <-> y = x \/ y ∈ l.
Proof.
  induction l as [|z l IH]; simpl.
  - rewrite list_elem_of_singleton, elem_of_nil. tauto.
  - destruct (String.compare x z) eqn:Hc.
    + apply String.compare_eq_iff in Hc as ->. rewrite elem_of_cons. tauto.
    + rewrite !elem_of_cons. tauto.
    + rewrite !elem_of_cons, IH. tauto.
Qed.

Lemma insert_unique_sorted (x : string) (l : list string) :
  StronglySorted str_lt l -> StronglySorted str_lt (insert_unique x l).
Proof.
  induction 1 as [|z l Hs IH Hz]; simpl.
  - repeat constructor.
  - destruct (String.compare x z) eqn:Hc.
    + constructor; assumption.
    + constructor; [constructor; assumption|].
      constructor; [exact Hc|].
      eapply Forall_impl; [exact Hz|]. intros u Hu. exact (str_lt_trans _ _ _ Hc Hu).
    + constructor; [exact IH|].
      apply Forall_forall. intros u Hu. apply elem_of_insert_unique in Hu as [->|Hu].
      * apply str_compare_gt, Hc.
      * rewrite Forall_forall in Hz. apply Hz, Hu.
Qed.

Lemma np_unique_sorted (a : list string) : StronglySorted str_lt (np_unique a).
Proof.
  induction a as [|x a IH]; simpl; [constructor|]. apply insert_unique_sorted, IH.
Qed.

Lemma elem_of_np_unique (a : list string) (y : string) : y ∈ np_unique a <-> y ∈ a.
Proof.
  induction a as [|x a IH]; simpl; [reflexivity|].
  rewrite elem_of_insert_unique, elem_of_cons, IH. reflexivity.
Qed.

Lemma sorted_NoDup (l : list string) : StronglySorted str_lt l -> NoDup l.
Proof.
  induction 1 as [|z l Hs IH Hz]; constructor; [|exact IH].
  intros Hin. rewrite Forall_forall in Hz. exact (str_lt_irrefl z (Hz z Hin)).
Qed.

End StringOrder.

Section Grouping.

Lemma length_chars (s : string) : length (Py.chars s) = String.length s.
Proof. induction s as [|c s IH]; simpl; [reflexivity|]. f_equal. exact IH. Qed.

Lemma fixed_width_fits (n : nat) (s : string) :
  (String.length s <= n)%nat -> fixed_width n s = s.
Proof.
  intros Hn. unfold fixed_width. rewrite take_ge by (rewrite length_chars; exact Hn).
  apply string_of_list_ascii_of_string.
Qed.

Lemma length_fixed_width (n : nat) (s : string) :
  (String.length (fixed_width n s) <= n)%nat.
Proof.
  unfold fixed_width, Py.str. rewrite <- length_chars. unfold Py.chars.
  rewrite list_ascii_of_string_of_list_ascii, length_take. lia.
Qed.

(** X15: the rows [group_color_histogram] returns.  Its colours are the
    groups of the rows of the histogram, each group once, in increasing
    order of the strings (the order of [np.unique]) and not in the order
    of the palette; the groups are cut to 20 characters, which changes
    nothing when they come from [Palette.data], where they have at most
    20. *)
Theorem grouped_colours_sorted_distinct (hist : list (PaletteRow * Z)) :
  Forall (fun r : PaletteRow * Z => (String.length (row_group r.1) <= 20)%nat) hist ->
  let colors := fst <$> group_color_histogram hist in
  StronglySorted str_lt colors /\
  NoDup colors /\
  forall c : string,
    c ∈ colors <-> exists (row : PaletteRow) (n : Z), (row, n) ∈ hist /\ row_group row = c.
Proof.
  intros Hlen colors.
  assert (Hcolors : colors = np_unique ((fun r : PaletteRow * Z => row_group r.1) <$> hist)).
  { unfold colors, group_color_histogram. rewrite <- list_fmap_compose.
    rewrite <- (list_fmap_id (np_unique _)) at 2.
    apply Forall_fmap_ext, Forall_forall. intros c Hc. unfold compose. cbn [fst id].
    apply fixed_width_fits. apply elem_of_np_unique, list_elem_of_fmap in Hc as (r & -> & Hr).
    rewrite Forall_forall in Hlen. exact (Hlen r Hr). }
  rewrite Hcolors. split; [apply np_unique_sorted|].
  split; [apply sorted_NoDup, np_unique_sorted|].
  intros c. rewrite elem_of_np_unique, list_elem_of_fmap. split.
  - intros ([row n] & -> & Hr). exists row, n. split; [exact Hr | reflexivity].
  - intros (row & n & Hr & <-). exists (row, n). split; [reflexivity | exact Hr].
Qed.

Lemma sum_Z_zeros {A} (l : list A) : sum_Z ((fun _ => 0) <$> l) = 0.
Proof. induction l as [|x l IH]; [reflexivity|]. cbn. exact IH. Qed.

Lemma sum_Z_fmap_add {A} (f g : A -> Z) (l : list A) :
  sum_Z ((fun x => f x + g x) <$> l) = sum_Z (f <$> l) + sum_Z (g <$> l).
Proof.
  unfold sum_Z. induction l as [|x l IH]; [reflexivity|].
  cbn [fmap list_fmap foldr] in *. rewrite IH. lia.
Qed.

Lemma sum_Z_indicator (U : list string) (g : string) (v : Z) :
  NoDup U -> g ∈ U ->
  sum_Z ((fun c => if decide (g = c) then v else 0) <$> U) = v.
Proof.
  induction 1 as [|c U Hc _ IH]; intros Hg; [inversion Hg|].
  cbn [fmap list_fmap sum_Z foldr].
  fold (sum_Z ((fun c => if decide (g = c) then v else 0) <$> U)).
  destruct (decide (g = c)) as [->|Hne].
  - assert (Hz : sum_Z ((fun c0 => if decide (c = c0) then v else 0) <$> U) = 0).
    { transitivity (sum_Z ((fun _ : string => 0) <$> U)); [|apply sum_Z_zeros].
      f_equal. apply Forall_fmap_ext, Forall_forall.
      intros u Hu. destruct (decide (c = u)) as [->|]; [contradiction|reflexivity]. }
    rewrite Hz. lia.
  - apply elem_of_cons in Hg as [?|Hg]; [contradiction|]. rewrite (IH Hg). lia.
Qed.

(** The sums over the groups of a duplicate-free list that has every group
    add up to the sum over all rows. *)
Lemma group_sums_total (U : list string) (hist : list (PaletteRow * Z)) :
  NoDup U ->
  (forall r, r ∈ hist -> row_group r.1 ∈ U) ->
  sum_Z ((fun c => sum_Z (group_counts_of hist c)) <$> U) = sum_Z (snd <$> hist).
Proof.
  intros HU. induction hist as [|r hist IH]; intros Hall.
  - unfold group_counts_of. cbn. apply sum_Z_zeros.
  - assert (Hstep : forall c, sum_Z (group_counts_of (r :: hist) c) =
              (if decide (row_group r.1 = c) then r.2 else 0) +
              sum_Z (group_counts_of hist c)).
    { intros c. unfold group_counts_of. rewrite filter_cons.
      destruct (decide (row_group r.1 = c)); [reflexivity|]. rewrite Z.add_0_l. reflexivity. }
    rewrite (proj1 (Forall_fmap_ext _ _ U)) by (apply Forall_forall; intros c _; apply Hstep).
    rewrite sum_Z_fmap_add, IH by (intros r' Hr'; apply Hall; right; exact Hr').
    rewrite sum_Z_indicator by (try exact HU; apply Hall; left).
    reflexivity.
Qed.

Lemma group_counts_bounds (hist : list (PaletteRow * Z)) (c : string) :
  Forall (fun r : PaletteRow * Z => 0 <= r.2) hist ->
  0 <= sum_Z (group_counts_of hist c) <= sum_Z (snd <$> hist).
Proof.
  unfold group_counts_of, sum_Z. induction 1 as [|r hist Hr _ IH]; [cbn; lia|].
  rewrite filter_cons.
  destruct (decide (row_group r.1 = c)); cbn [fmap list_fmap foldr]; lia.
Qed.

Lemma to_int64_small (z : Z) : - 2 ^ 63 <= z < 2 ^ 63 -> to_int64 z = z.
Proof. intros Hz. unfold to_int64. rewrite Z.mod_small; lia. Qed.

(** Within the range of [i8] the sum of a group does not wrap around. *)
Lemma group_sum_in_range (hist : list (PaletteRow * Z)) (c : string) :
  Forall (fun r : PaletteRow * Z => 0 <= r.2) hist ->
  sum_Z (snd <$> hist) < 2 ^ 63 ->
  np_sum_i8 (group_counts_of hist c) = sum_Z (group_counts_of hist c).
Proof.
  intros Hpos Hbound. unfold np_sum_i8. fold (sum_Z (group_counts_of hist c)).
  pose proof (group_counts_bounds hist c Hpos). apply to_int64_small. lia.
Qed.

(** The sums of the groups [np.unique] finds add up to the sum of the
    histogram. *)
Lemma unique_group_sums_total (hist : list (PaletteRow * Z)) :
  sum_Z ((fun c => sum_Z (group_counts_of hist c)) <$>
         np_unique ((fun r : PaletteRow * Z => row_group r.1) <$> hist)) =
  sum_Z (snd <$> hist).
Proof.
  apply group_sums_total.
  - apply sorted_NoDup, np_unique_sorted.
  - intros r Hr. apply elem_of_np_unique, list_elem_of_fmap. exists r. auto.
Qed.

Lemma sum_counts_grouped (hist : list (PaletteRow * Z)) :
  Forall (fun r : PaletteRow * Z => 0 <= r.2) hist ->
  sum_Z (snd <$> hist) < 2 ^ 63 ->
  sum_counts (group_color_histogram hist) = sum_Z (snd <$> hist).
Proof.
  intros Hpos Hbound. rewrite <- (unique_group_sums_total hist).
  unfold sum_counts, group_color_histogram, sum_Z. rewrite <- !list_fmap_compose.
  f_equal. apply Forall_fmap_ext, Forall_forall. intros c _.
  unfold compose. cbn [snd]. apply group_sum_in_range; assumption.
Qed.

(** X16: [group_color_histogram] keeps the counts.  For a histogram whose
    counts are not negative and add up to less than [2 ** 63] (the range of
    the [i8] fields), the count of every row of the result is the sum of
    the counts of the rows of its group, and the counts of the result add
    up to the same total as the counts of the histogram: no pixel is lost
    or counted twice. *)
Theorem grouped_counts_keep_total (hist : list (PaletteRow * Z)) :
  Forall (fun r : PaletteRow * Z => 0 <= r.2) hist ->
  sum_Z (snd <$> hist) < 2 ^ 63 ->
  let out := group_color_histogram hist in
  sum_counts out = sum_counts ((fun r : PaletteRow * Z => (row_group r.1, r.2)) <$> hist) /\
  forall (k : nat) (color : string) (n : Z),
    out !! k = Some (color, n) ->
    exists g : string,
      color = fixed_width 20 g /\
      (exists (row : PaletteRow) (m : Z), (row, m) ∈ hist /\ row_group row = g) /\
      n = sum_Z (group_counts_of hist g).
Proof.
  intros Hpos Hbound out. split.
  - unfold out. rewrite (sum_counts_grouped hist Hpos Hbound).
    unfold sum_counts, sum_Z. rewrite <- list_fmap_compose. reflexivity.
  - intros k color n Hk. unfold out, group_color_histogram in Hk.
    rewrite list_lookup_fmap in Hk.
    destruct (np_unique _ !! k) as [g|] eqn:Hg; [|discriminate].
    cbn in Hk. injection Hk as <- <-. exists g. split; [reflexivity|]. split.
    + apply list_elem_of_lookup_2, elem_of_np_unique, list_elem_of_fmap in Hg
        as ([row m] & -> & Hr).
      exists row, m. auto.
    + apply group_sum_in_range; assumption.
Qed.

(** X17: the grouped histogram of an image accounts for every pixel once.
    Under the conditions under which [color_histogram] returns a histogram
    with a row (an image of 8-bit channels, a table of unsigned entries),
    the counts of [group_color_histogram] applied to it add up to the
    number of pixels of the image, a number below [2 ** 63]. *)
Theorem grouped_histogram_counts_every_pixel (img : ndarray Z) (palette : palette_arg)
    (w : World) (self : nat) (table : list Z) (w1 : World)
    (hist : list (PaletteRow * Z)) (w' : World) :
  (_get_palette palette w).1 = Ok self ->
  Palette_lookup_table self w = (Ok table, w1) ->
  Forall (fun e => 0 <= e < 65536) table ->
  is_image img ->
  color_histogram img palette w = (Ok hist, w') ->
  hist <> [] ->
  Z.of_nat (length (triplets (data img))) < 2 ^ 63 ->
  sum_counts (group_color_histogram hist) = Z.of_nat (length (triplets (data img))).
Proof.
  intros Hpal Htable Hentries Himg Hhist Hne Hbound.
  destruct (color_histogram_rows img palette w self table w1 hist w'
              Hpal Htable Hentries Himg Hhist Hne)
    as (d & entries & Hdef & Hnonneg & _ & Hlen & ->).
  assert (Htotal : sum_Z (zip d (bincount entries (length d))).*2 =
                   Z.of_nat (length (triplets (data img)))).
  { rewrite snd_zip by lia. rewrite bincount_total by exact Hnonneg.
    rewrite Hdef, length_fmap. reflexivity. }
  rewrite sum_counts_grouped; [exact Htotal | | rewrite Htotal; exact Hbound].
  apply Forall_forall. intros [row n] Hin. cbn [snd].
  apply elem_of_zip_r in Hin. unfold bincount in Hin.
  apply list_elem_of_fmap in Hin as (k & -> & _). lia.
Qed.

End Grouping.

(** Rows of the groups red, blue and red, with 3, 4 and 5 pixels. *)
Lemma grouped_colours_sorted_distinct_witness :
  let row g := {| row_group := g; row_name := ""; row_r := 0; row_g := 0; row_b := 0;
                  row_hex := "" |} in
  let hist := [(row "red", 3); (row "blue", 4); (row "red", 5)] in
  let colors := fst <$> group_color_histogram hist in
  StronglySorted str_lt colors /\
  NoDup colors /\
  forall c : string,
    c ∈ colors <-> exists (row : PaletteRow) (n : Z), (row, n) ∈ hist /\ row_group row = c.
Proof.
  intros row hist.
  apply (grouped_colours_sorted_distinct hist).
  repeat constructor; simpl; lia.
Defined.

Lemma grouped_counts_keep_total_witness :
  let row g := {| row_group := g; row_name := ""; row_r := 0; row_g := 0; row_b := 0;
                  row_hex := "" |} in
  let hist := [(row "red", 3); (row "blue", 4); (row "red", 5)] in
  let out := group_color_histogram hist in
  sum_counts out = sum_counts ((fun r : PaletteRow * Z => (row_group r.1, r.2)) <$> hist) /\
  forall (k : nat) (color : string) (n : Z),
    out !! k = Some (color, n) ->
    exists g : string,
      color = fixed_width 20 g /\
      (exists (row : PaletteRow) (m : Z), (row, m) ∈ hist /\ row_group row = g) /\
      n = sum_Z (group_counts_of hist g).
Proof.
  intros row hist.
  apply (grouped_counts_keep_total hist); [repeat constructor; simpl; lia | reflexivity].
Defined.

Example group_color_histogram_sample :
  let row g := {| row_group := g; row_name := ""; row_r := 0; row_g := 0; row_b := 0;
                  row_hex := "" |} in
  group_color_histogram [(row "red", 3); (row "blue", 4); (row "red", 5)] =
  [("blue", 4); ("red", 8)].
Proof. vm_compute. reflexivity. Qed.

(** The histogram of the image of two pixels, grouped. *)
Lemma grouped_histogram_counts_every_pixel_witness :
  let red := {| row_group := "red"; row_name := "pure red";
                row_r := 255; row_g := 0; row_b := 0; row_hex := "" |} in
  let blue := {| row_group := "blue"; row_name := "pure blue";
                 row_r := 0; row_g := 0; row_b := 255; row_hex := "" |} in
  sum_counts (group_color_histogram [(red, 1); (blue, 1)]) =
  Z.of_nat (length (triplets (data two_pixels))).
Proof.
  intros red blue.
  apply (grouped_histogram_counts_every_pixel two_pixels (ByName "x11") cached_world x11
           [1; 0] (Palette_lookup_table x11 cached_world).2 [(red, 1); (blue, 1)]
           (color_histogram two_pixels (ByName "x11") cached_world).2);
    [reflexivity | reflexivity | repeat constructor; lia | | vm_compute; reflexivity
    | discriminate | reflexivity].
  split; [reflexivity|]. split; [reflexivity|]. repeat constructor; lia.
Defined.

(* ===================================================================== *)
(** * [color_entropy]: black, white and gray are one group *)
(* ===================================================================== *)

Section GrayscaleMerged.

Variable log2 : spec_float -> result spec_float.

Lemma sum_counts_split (rows : list (string * Z)) :
  sum_counts rows =
  sum_counts (filter (fun row : string * Z => is_grayscale row.1 = true) rows) +
  sum_counts (filter (fun row : string * Z => is_grayscale row.1 = false) rows).
Proof.
  unfold sum_counts. induction rows as [|row rows IH]; [reflexivity|].
  rewrite !filter_cons. cbn [fmap list_fmap foldr]. rewrite IH.
  destruct (is_grayscale row.1); repeat case_decide; try congruence;
    cbn [fmap list_fmap foldr]; lia.
Qed.

(** X18: [color_entropy] sees the rows named black, white and gray only
    through the sum of their counts.  Two histograms with the same other
    rows, in the same order, and the same total of these three give the
    same result (the same value or the same exception): splitting the
    grayscale count over several rows, moving these rows or merging them
    into one changes nothing. *)
Theorem entropy_merges_grayscale (rows rows' : list (string * Z)) :
  filter (fun row : string * Z => is_grayscale row.1 = false) rows =
  filter (fun row : string * Z => is_grayscale row.1 = false) rows' ->
  sum_counts (filter (fun row : string * Z => is_grayscale row.1 = true) rows) =
  sum_counts (filter (fun row : string * Z => is_grayscale row.1 = true) rows') ->
  color_entropy log2 rows = color_entropy log2 rows'.
Proof.
  intros Hothers Hgray. unfold color_entropy.
  rewrite (sum_counts_split rows), (sum_counts_split rows'), Hothers, Hgray.
  reflexivity.
Qed.

End GrayscaleMerged.

(** Black and white around red, against a single gray row after red. *)
Lemma entropy_merges_grayscale_witness :
  color_entropy sample_log2 [("black", 3); ("red", 5); ("white", 2)] =
  color_entropy sample_log2 [("red", 5); ("gray", 5)].
Proof.
  apply (entropy_merges_grayscale sample_log2
           [("black", 3); ("red", 5); ("white", 2)] [("red", 5); ("gray", 5)]);
    reflexivity.
Defined.

(* ===================================================================== *)
(** * The registry of palettes *)
(* ===================================================================== *)


(* ===================================================================== *)
(** * Lines of a palette file *)
(* ===================================================================== *)

Section Lines.























(** X21: a blank line -- empty, or of white space only -- anywhere in the
    palette file makes the loading fail: for such a line [_iterlines]
    raises the [ValueError] of [int] on an empty string, so that
    [Palette.data] raises and memoizes nothing, whatever the other lines. *)
Theorem blank_line_breaks_loading (w : World) (self : nat) (o : Palette)
    (lines : list string) (line : string) :
  objects w !! self = Some o ->
  memo_data o = None ->
  files w !! data_path o = Some (TextFile lines) ->
  line ∈ lines ->
  Py.strip line = "" ->
  _iterline line = Raise (ValueError "invalid literal for int() with base 10") /\
  exists e : exn, Palette_data self w = (Raise e, w).
Proof.
  intros Ho Hm Hf Hin Hblank.
  assert (Hline : _iterline line =
            Raise (ValueError "invalid literal for int() with base 10")).
  { unfold _iterline. rewrite Hblank. reflexivity. }
  split; [exact Hline|].
  rewrite (Palette_data_loads w self o lines Ho Hm Hf).
  assert (Hrows : exists e,
            mapM_result (fun l => bind_result (_iterline l) loadtxt_line) lines = Raise e).
  { clear Hf. induction lines as [|l lines IH]; [inversion Hin|].
    cbn [mapM_result]. apply elem_of_cons in Hin as [<-|Hin].
    - rewrite Hline. cbn [bind_result]. eauto.
    - destruct (bind_result (_iterline l) loadtxt_line); [|eauto].
      destruct (IH Hin) as [e ->]. eauto. }
  destruct Hrows as [e He]. unfold load_rows. rewrite He. cbn [bind_result]. eauto.
Qed.

End Lines.


(** The palette of red and blue with an empty line between the two. *)
Lemma blank_line_breaks_loading_witness :
  let lines := ["red,pure red,255,0,0"; ""; "blue,pure blue,0,0,255"] in
  let w := imported {[ x11_path := TextFile lines ]} None in
  _iterline "" = Raise (ValueError "invalid literal for int() with base 10") /\
  exists e : exn, Palette_data x11 w = (Raise e, w).
Proof.
  intros lines w.
  apply (blank_line_breaks_loading w x11
           {| data_path := x11_path;
              cached_data_path := package_dir +:+ "/data/x11.npy";
              memo_lookup_table := None; memo_data := None |} lines "");
    [reflexivity | reflexivity | reflexivity | | reflexivity].
  right. left.
Defined.

(* ===================================================================== *)
(** * Edge cases: a table entry outside the palette, NaN distances, an
      image without pixels *)
(* ===================================================================== *)

Section OutOfRange.

Lemma np_getitem_Raise {A} `{Inhabited A} (a : list A) (i : Z) (e : exn) :
  np_getitem a i = Raise e -> e = IndexError "index is out of bounds for axis 0".
Proof.
  unfold np_getitem. destruct (_ && _); [discriminate|].
  destruct (_ && _); [discriminate|]. intros Heq. injection Heq as <-. reflexivity.
Qed.

Lemma mapM_getitem_Raise {A} `{Inhabited A} (a : list A) (l : list Z) (i : Z) :
  i ∈ l -> Z.of_nat (length a) <= i ->
  mapM_result (np_getitem a) l = Raise (IndexError "index is out of bounds for axis 0").
Proof.
  intros Hin Hi. induction l as [|x l IH]; [inversion Hin|].
  cbn [mapM_result]. destruct (np_getitem a x) as [y|e] eqn:Hx.
  - apply elem_of_cons in Hin as [->|Hin].
    + unfold np_getitem in Hx. destruct (Z.leb_spec 0 x); [|lia].
      destruct (Z.ltb_spec x (Z.of_nat (length a))); [lia|]. cbn [andb] in Hx.
      destruct (Z.ltb_spec x 0); [lia|]. rewrite andb_false_r in Hx. discriminate.
    + rewrite (IH Hin). reflexivity.
  - rewrite (np_getitem_Raise a x e Hx). reflexivity.
Qed.

(** X22: the entries of the lookup table are used as indices into the
    palette without a check of their own: when the table gives some pixel
    of the image an entry that is not below the number of colours of the
    palette -- a table left by a larger palette, say --
    [Palette.convert_to_rgbs] raises the [IndexError] of the indexing, and
    no array is returned. *)
Theorem entry_outside_palette_raises (w : World) (self : nat) (img : ndarray Z)
    (rgbs : list rgb) (w1 : World) (indices : ndarray Z) (w2 : World) (e : Z) :
  Palette_rgbs self w = (Ok rgbs, w1) ->
  Palette_convert_to_indices self img w1 = (Ok indices, w2) ->
  e ∈ data indices ->
  Z.of_nat (length rgbs) <= e ->
  Palette_convert_to_rgbs self img w =
    (Raise (IndexError "index is out of bounds for axis 0"), w2) /\
  quantize_with_palette img (ByValue self) w =
    (Raise (IndexError "index is out of bounds for axis 0"), w2).
Proof.
  intros Hrgbs Hind He Hle.
  assert (Hconv : Palette_convert_to_rgbs self img w =
            (Raise (IndexError "index is out of bounds for axis 0"), w2)).
  { unfold Palette_convert_to_rgbs, bind. rewrite Hrgbs, Hind.
    unfold lift, take_rows. rewrite (mapM_getitem_Raise rgbs (data indices) e He Hle).
    reflexivity. }
  split; [exact Hconv|].
  unfold quantize_with_palette, bind, _get_palette, ret. exact Hconv.
Qed.

End OutOfRange.

(** A table whose first entry is 5, next to the palette of red and blue,
    and the pixel (0, 0, 0). *)
Lemma entry_outside_palette_raises_witness :
  let w := imported {[ x11_path := red_blue_csv;
                       package_dir +:+ "/data/x11.npy" := NpyFile [5; 0] ]} None in
  let black : ndarray Z := NdArray [3%nat] [0; 0; 0] in
  let w1 := (Palette_rgbs x11 w).2 in
  let w2 := (Palette_convert_to_indices x11 black w1).2 in
  Palette_convert_to_rgbs x11 black w =
    (Raise (IndexError "index is out of bounds for axis 0"), w2) /\
  quantize_with_palette black (ByValue x11) w =
    (Raise (IndexError "index is out of bounds for axis 0"), w2).
Proof.
  intros w black w1 w2.
  apply (entry_outside_palette_raises w x11 black [(255, 0, 0); (0, 0, 255)] w1
           (NdArray [] [5]) w2 5);
    [vm_compute; reflexivity | vm_compute; reflexivity | left | simpl; lia].
Defined.

Section NanDistance.

Context `{JccNumerics}.

Lemma argmin_scan_first_nan (pre rest : list spec_float) (v : spec_float)
    (idx : nat) (mv : spec_float) (mi : nat) :
  Forall (fun u => F.isnan u = false) pre ->
  F.isnan v = true ->
  np.argmin_scan (pre ++ v :: rest) idx mv mi = (idx + length pre)%nat.
Proof.
  intros Hpre Hv. revert idx mv mi.
  induction Hpre as [|u pre Hu _ IH]; intros idx mv mi; cbn [app np.argmin_scan length].
  - rewrite Hv. lia.
  - rewrite Hu. destruct (F.ltb u mv); rewrite IH; lia.
Qed.

Lemma argmin_first_nan (a : list spec_float) (k : nat) (v : spec_float) :
  a !! k = Some v ->
  F.isnan v = true ->
  (forall i u, (i < k)%nat -> a !! i = Some u -> F.isnan u = false) ->
  np.argmin a = Ok k.
Proof.
  intros Hk Hv Hbefore.
  pose proof (take_drop_middle a k v Hk) as Hsplit.
  assert (Hpre : Forall (fun u => F.isnan u = false) (take k a)).
  { apply Forall_forall. intros u Hu. apply list_elem_of_lookup in Hu as [i Hi].
    pose proof (lookup_lt_Some _ _ _ Hi) as Hlt. rewrite length_take in Hlt.
    rewrite lookup_take_lt in Hi by lia. apply (Hbefore i u); [lia | exact Hi]. }
  assert (Hlen : length (take k a) = k).
  { rewrite length_take. pose proof (lookup_lt_Some _ _ _ Hk). lia. }
  rewrite <- Hsplit. unfold np.argmin.
  destruct (take k a) as [|u pre] eqn:Htake.
  - cbn [app]. rewrite Hv. simpl in Hlen. subst k. reflexivity.
  - cbn [app]. pose proof (Forall_inv Hpre) as Hu. cbn beta in Hu. rewrite Hu.
    change (u :: pre ++ v :: drop (S k) a) with ((u :: pre) ++ v :: drop (S k) a).
    rewrite (argmin_scan_first_nan (u :: pre)); [|exact Hpre | exact Hv].
    rewrite Hlen. reflexivity.
Qed.

(** X23: a distance that is not a number wins.  When, for a colour of the
    cube, the distance to some palette colour is a NaN, the table entry of
    that colour is the index of the first palette colour at a NaN distance,
    however near the other palette colours are (palettes of at most 65536
    colours). *)
Theorem nan_distance_is_selected (rgbs : list rgb) (k : nat) (c : rgb) (r g b : Z) :
  rgbs !! k = Some c ->
  F.isnan (distance32 (r, g, b) c) = true ->
  (forall i c', (i < k)%nat -> rgbs !! i = Some c' ->
     F.isnan (distance32 (r, g, b) c') = false) ->
  Z.of_nat (length rgbs) <= 65536 ->
  0 <= r < 256 -> 0 <= g < 256 -> 0 <= b < 256 ->
  exists table : list Z,
    _create_lookup_table (rgb_to_lab rgbs) __create_lab_array = Ok table /\
    table !! linear_index r g b = Some (Z.of_nat k).
Proof.
  intros Hk Hnan Hbefore Hlen Hr Hg Hb.
  assert (Hne : rgbs <> []) by (intros ->; rewrite lookup_nil in Hk; discriminate).
  destruct (built_table_slot rgbs r g b Hne Hr Hg Hb) as (table & Htab & _ & Hslot).
  exists table. split; [exact Htab|]. rewrite Hslot. f_equal. unfold table_entry.
  rewrite (argmin_first_nan _ k (distance32 (r, g, b) c)).
  - unfold np.to_uint16. apply Z.mod_small.
    pose proof (lookup_lt_Some _ _ _ Hk). lia.
  - rewrite (lookup_deltaes_rgb rgbs (r, g, b) k), Hk. reflexivity.
  - exact Hnan.
  - intros i u Hi Hu. rewrite (lookup_deltaes_rgb rgbs (r, g, b) i) in Hu.
    destruct (rgbs !! i) as [c'|] eqn:Hc'; [|discriminate].
    injection Hu as <-. exact (Hbefore i c' Hi Hc').
Qed.

End NanDistance.

(** A distance function that is a NaN for the palette colours of red 7. *)
Lemma nan_distance_is_selected_witness :
  let numerics :=
    {| rgb_to_lab_ := fun r g b => (F.of_Z r, F.of_Z g, F.of_Z b);
       delta_e_cie2000 := fun l1 a1 b1 l2 a2 b2 =>
         if SFeqb l2 (F.of_Z 7) then S754_nan else sample_delta_e l1 a1 b1 l2 a2 b2 |} in
  let rgbs : list rgb := [(10, 10, 10); (7, 0, 0); (7, 1, 1)] in
  exists table : list Z,
    @_create_lookup_table numerics (@rgb_to_lab numerics rgbs)
      (@__create_lab_array numerics) = Ok table /\
    table !! linear_index 10 10 10 = Some (Z.of_nat 1).
Proof.
  intros numerics rgbs.
  apply (@nan_distance_is_selected numerics rgbs 1 (7, 0, 0) 10 10 10);
    [reflexivity | vm_compute; reflexivity | | simpl; lia | lia | lia | lia].
  intros i c' Hi Hc'. destruct i as [|i]; [|lia].
  injection Hc' as <-. vm_compute. reflexivity.
Defined.

Section NoPixels.

Variable log2 : spec_float -> result spec_float.

Lemma py_sum_nan (terms : list spec_float) :
  terms <> [] -> Forall (fun t => t = S754_nan) terms -> py_sum terms = S754_nan.
Proof.
  unfold py_sum. intros Hne Hall.
  assert (Hfold : forall acc, foldl F.add acc terms = S754_nan \/ terms = []).
  { clear Hne. induction Hall as [|t terms -> _ IH]; intros acc; [right; reflexivity|]. left.
    cbn [foldl]. assert (Hacc : F.add acc S754_nan = S754_nan) by (destruct acc; reflexivity).
    rewrite Hacc. destruct (IH S754_nan) as [Hs| ->]; [exact Hs | reflexivity]. }
  destruct (Hfold (F.of_Z 0)) as [Hs|Hnil]; [exact Hs | contradiction].
Qed.

Lemma sum_counts_zero (rows : list (string * Z)) :
  Forall (fun row : string * Z => row.2 = 0) rows -> sum_counts rows = 0.
Proof.
  unfold sum_counts. induction 1 as [|row rows Hrow _ IH]; [reflexivity|].
  cbn [fmap list_fmap foldr]. rewrite Hrow. exact IH.
Qed.

(** X24: a histogram without pixels has no entropy.  When every count is
    zero -- the histogram of an image without pixels -- every probability
    is 0/0, and [color_entropy] returns NaN, not zero, [math.log2] passing
    a NaN through without an exception. *)
Theorem entropy_of_no_pixels_is_nan (rows : list (string * Z)) (l : spec_float) :
  Forall (fun row : string * Z => row.2 = 0) rows ->
  log2 S754_nan = Ok l ->
  color_entropy log2 rows = Ok S754_nan.
Proof.
  intros Hzero Hlog. unfold color_entropy.
  assert (Hfilter : forall P `{forall x, Decision (P x)},
            Forall (fun row : string * Z => row.2 = 0) (filter P rows)).
  { intros P HP. apply Forall_forall. intros row Hrow.
    apply list_elem_of_filter in Hrow as [_ Hrow].
    rewrite Forall_forall in Hzero. exact (Hzero row Hrow). }
  rewrite (sum_counts_zero rows Hzero), (sum_counts_zero _ (Hfilter _ _)).
  change (F.div (F.of_Z 0) (F.of_Z 0)) with S754_nan.
  set (others := filter (fun row : string * Z => is_grayscale row.1 = false) rows).
  assert (Hprobs : (fun row : string * Z => F.div (F.of_Z row.2) (F.of_Z 0)) <$> others =
                   replicate (length others) S754_nan).
  { assert (Ho : Forall (fun row : string * Z => row.2 = 0) others) by apply Hfilter.
    induction Ho as [|row others' Hrow _ IH]; [reflexivity|].
    cbn [fmap list_fmap length replicate]. rewrite Hrow, IH. reflexivity. }
  rewrite Hprobs.
  change (S754_nan :: replicate (length others) S754_nan)
    with (replicate (S (length others)) S754_nan).
  assert (Hterms : forall n,
            mapM_result (fun p => bind_result (log2 (F.add p _ETS)) (fun l0 => Ok (F.mul p l0)))
                        (replicate n S754_nan) = Ok (replicate n S754_nan)).
  { induction n as [|n IH]; [reflexivity|].
    cbn [replicate mapM_result]. change (F.add S754_nan _ETS) with S754_nan.
    rewrite Hlog, IH. reflexivity. }
  rewrite Hterms. cbn [bind_result]. rewrite py_sum_nan.
  - reflexivity.
  - discriminate.
  - apply Forall_replicate. reflexivity.
Qed.

End NoPixels.

Lemma entropy_of_no_pixels_is_nan_witness :
  color_entropy sample_log2 [("black", 0); ("red", 0); ("blue", 0)] = Ok S754_nan.
Proof.
  apply (entropy_of_no_pixels_is_nan sample_log2
           [("black", 0); ("red", 0); ("blue", 0)] S754_nan);
    [repeat constructor | reflexivity].
Defined.
